(** * Notebook document model and cell operations

    A shallow embedding of [src/schema/notebook.py] (the pydantic models and
    the two JSON helpers) and of [src/tools/notebook.py] (the cell and
    conversion tools), followed by the properties of the specification that
    were checked against them.

    Conventions of the embedding.
    - A Python [str] is a [string]; its characters are the code points
      below 256.
    - A decoded JSON document (what [json.loads] returns and [json.dumps]
      prints) is a [json] tree.  A Python [dict] with string keys is a
      [gmap string json]: equality of two objects ignores key order, as
      Python's [==] on dicts does.  The tools are modelled from the decoded
      document on, so the handler for text that is not JSON
      ([except json.JSONDecodeError]) has no counterpart here.
    - An exception is a value of [PyError]; a function that may raise returns
      a [result].  Every [raise ValueError(...)] site of the source has its
      own constructor, and the [except Exception as e: raise ValueError(...)]
      handlers that close each tool are the constructor [Wrapped].
    - Python integers are [Z].
    - pydantic validation is modelled by shape: a field of type [str] accepts
      a JSON string, [int] a JSON integer, [Dict[str, Any]] a JSON object and
      so on.  The lax conversions of pydantic (for instance the string "4"
      read as the integer 4) are not modelled: such inputs are validation
      errors here. *)

From stdpp Require Import gmap strings list.
From Stdlib Require Import ZArith Ascii.

#[local] Set Warnings "-register-all".
#[local] Open Scope string_scope.
#[local] Open Scope list_scope.
#[local] Open Scope Z_scope.

(** ** Python strings *)

Definition newline : ascii := "010"%char.

(** [s.split('\n')]: the pieces between newline characters; the empty string
    gives one empty piece. *)
Fixpoint split_newline (s : string) : list string :=
  match s with
  | EmptyString => [EmptyString]
  | String c s' =>
      if Ascii.eqb c newline then EmptyString :: split_newline s'
      else match split_newline s' with
           | piece :: pieces => String c piece :: pieces
           | [] => [String c EmptyString]
           end
  end.

(** [''.join(l)] *)
Definition join_empty (l : list string) : string := foldr String.append EmptyString l.

(** [sep.join(l)] *)
Fixpoint join_with (sep : string) (l : list string) : string :=
  match l with
  | [] => EmptyString
  | [x] => x
  | x :: rest => x +:+ sep +:+ join_with sep rest
  end.

(** Characters for which [str.isspace] holds, which are also the characters
    the regular expression class [\s] matches (code points below 256). *)
Definition py_isspace (c : ascii) : bool :=
  let n := nat_of_ascii c in
  ((9 <=? n)%nat && (n <=? 13)%nat) || ((28 <=? n)%nat && (n <=? 32)%nat)
  || (n =? 133)%nat || (n =? 160)%nat.

(** [not s.strip()]: the string has only whitespace characters. *)
Fixpoint is_blank (s : string) : bool :=
  match s with
  | EmptyString => true
  | String c s' => py_isspace c && is_blank s'
  end.

(** [c.lower()] on one character. *)
Definition lower_char (c : ascii) : ascii :=
  let n := nat_of_ascii c in
  if ((65 <=? n)%nat && (n <=? 90)%nat)
     || ((192 <=? n)%nat && (n <=? 222)%nat && negb (n =? 215)%nat)
  then ascii_of_nat (n + 32) else c.

(** [s.lower()] *)
Fixpoint lower (s : string) : string :=
  match s with
  | EmptyString => EmptyString
  | String c s' => String (lower_char c) (lower s')
  end.

(** ** JSON values *)

Inductive json :=
| JNull
| JBool (b : bool)
| JNum (n : Z)
| JFloat (literal : string)
| JStr (s : string)
| JArr (items : list json)
| JObj (members : gmap string json).

Abbreviation dict := (gmap string json).

Definition is_null (j : json) : bool :=
  match j with JNull => true | _ => false end.

Definition not_null (j : json) : Prop := is_null j = false.

#[global] Instance not_null_dec j : Decision (not_null j).
Proof. unfold not_null. solve_decision. Defined.

(** Members whose value is not [None]: what [exclude_none=True] keeps among
    the attributes of a model. *)
Definition exclude_none (d : dict) : dict :=
  filter (λ kv : string * json, not_null kv.2) d.

Definition delete_keys (ks : list string) (d : dict) : dict :=
  foldr delete d ks.

Definition insert_opt (k : string) (v : option json) (d : dict) : dict :=
  match v with
  | Some j => <[k := j]> d
  | None => d
  end.

(** ** Exceptions *)

Inductive Operation :=
| OpEditCell | OpCreateCell | OpInsertCell | OpMergeCells | OpSwapCells
| OpConvertFormat | OpConvertExecutable | OpFromMarkdown | OpExtractCode.

Inductive PyError :=
| ValidationError
    (* pydantic.ValidationError, from Notebook.parse_obj or Cell(...) *)
| CellIndexOutOfRange (index : Z) (count : nat)
    (* "Cell index {i} is out of range. Notebook has {n} cells." *)
| InvalidCellType (given : string)
    (* "Invalid cell type: {t}. Must be 'code', 'markdown', or 'raw'." *)
| PositionOutOfRange (position : Z) (count : nat)
    (* "Position {p} is out of range. Valid range is 0 to {n}." *)
| NoCellsToMerge
    (* "Notebook has no cells to merge" *)
| StartIndexOutOfRange (start : Z) (count : nat)
    (* "Start index {s} is out of range. Valid range is 0 to {n-1}." *)
| EndIndexInvalid (end_index start : Z) (count : nat)
    (* "End index {e} is invalid. Must be between {s} and {n-1}." *)
| NoCellsToSwap
    (* "Notebook has no cells to swap" *)
| SwapIndicesOutOfRange (count : nat)
    (* "Cell indices must be between 0 and {n-1}" *)
| UnsupportedFormat (given : string)
    (* "Unsupported format: {f}. Supported formats are: ..." *)
| ExporterFailure
    (* any exception raised inside exporter.from_notebook_node *)
| WriteFailure
    (* OSError from open(output_path, 'w') or f.write *)
| IndexError
    (* "list index out of range" *)
| Wrapped (op : Operation) (cause : PyError).
    (* except Exception as e: raise ValueError(f"Error ...: {str(e)}") *)

Inductive result (A : Type) :=
| Ok (value : A)
| Err (error : PyError).
Arguments Ok {A} value.
Arguments Err {A} error.

Definition bind {A B} (r : result A) (k : A → result B) : result B :=
  match r with
  | Ok a => k a
  | Err e => Err e
  end.

Notation "'let*' x ':=' r 'in' k" := (bind r (λ x, k))
  (at level 10, x name, r at level 100, k at level 200).

(** [try: body except Exception as e: raise ValueError(f"Error ...: {e}")] *)
Definition try_wrap {A} (op : Operation) (body : result A) : result A :=
  match body with
  | Ok a => Ok a
  | Err e => Err (Wrapped op e)
  end.

(** A pydantic validation step: [None] is a validation error. *)
Definition validated {A} (o : option A) : result A :=
  match o with
  | Some a => Ok a
  | None => Err ValidationError
  end.

(** ** The schema ([src/schema/notebook.py]) *)

(** [Union[str, List[str]]] *)
Inductive Source :=
| SourceStr (s : string)
| SourceList (lines : list string).

(** [Literal['code', 'markdown', 'raw']] *)
Inductive CellType := code | markdown | raw.

Record CellOutput := mkCellOutput {
  output_type : string;
  output_metadata : option dict;
  data : option dict;
  text : option Source;
  output_execution_count : option Z;
  traceback : option (list string);
  name : option string;
  ename : option string;
  evalue : option string
}.

(** [Cell] has [extra = "allow"]: the attributes that are not declared
    fields are kept in [cell_extra]. *)
Record Cell := mkCell {
  cell_type : CellType;
  cell_metadata : dict;
  source : Source;
  outputs : option (list CellOutput);
  execution_count : option Z;
  cell_extra : dict
}.

Record NotebookMetadata := mkNotebookMetadata {
  kernelspec : option dict;
  language_info : option dict;
  authors : option (list (gmap string string));
  title : option string;
  description : option string;
  tags : option (list string);
  metadata_extra : dict
}.

Record Notebook := mkNotebook {
  cells : list Cell;
  metadata : NotebookMetadata;
  nbformat : Z;
  nbformat_minor : Z;
  notebook_extra : dict
}.

(** *** Field validators *)

Definition as_str (j : json) : option string :=
  match j with JStr s => Some s | _ => None end.

Definition as_int (j : json) : option Z :=
  match j with JNum n => Some n | _ => None end.

Definition as_dict (j : json) : option dict :=
  match j with JObj d => Some d | _ => None end.

Definition as_list {A} (item : json → option A) (j : json) : option (list A) :=
  match j with JArr l => mapM item l | _ => None end.

Definition as_source (j : json) : option Source :=
  match j with
  | JStr s => Some (SourceStr s)
  | JArr l => SourceList <$> mapM as_str l
  | _ => None
  end.

(** [Dict[str, str]] *)
Definition as_str_dict (j : json) : option (gmap string string) :=
  match j with
  | JObj d =>
      if decide (map_Forall (λ _ v, is_Some (as_str v)) d)
      then Some (omap as_str d) else None
  | _ => None
  end.

Definition as_cell_type (j : json) : option CellType :=
  match j with
  | JStr "code" => Some code
  | JStr "markdown" => Some markdown
  | JStr "raw" => Some raw
  | _ => None
  end.

(** A required field: absent is an error. *)
Definition required {A} (conv : json → option A) (v : option json) : option A :=
  v ≫= conv.

(** A field with a default that is not [Optional]: absent gives the default,
    an explicit [null] is an error (by [conv]). *)
Definition with_default {A} (conv : json → option A) (dflt : A) (v : option json)
  : option A :=
  match v with
  | None => Some dflt
  | Some j => conv j
  end.

(** An [Optional[...]] field with default [dflt]: absent gives the default,
    an explicit [null] gives [None]. *)
Definition optional_default {A} (conv : json → option A) (dflt : option A)
    (v : option json) : option (option A) :=
  match v with
  | None => Some dflt
  | Some JNull => Some None
  | Some j => Some <$> conv j
  end.

(** An [Optional[...]] field with default [None]. *)
Definition optional {A} (conv : json → option A) (v : option json)
  : option (option A) :=
  optional_default conv None v.

(** *** Parsing: [Model.parse_obj] *)

(** [CellOutput] declares no [Config]: pydantic's default [extra = "ignore"]
    applies and keys that are not declared fields are discarded. *)
Definition CellOutput_parse_obj (j : json) : option CellOutput :=
  d ← as_dict j;
  ot ← required as_str (d !! "output_type");
  md ← optional_default as_dict (Some ∅) (d !! "metadata");
  da ← optional as_dict (d !! "data");
  tx ← optional as_source (d !! "text");
  ec ← optional as_int (d !! "execution_count");
  tb ← optional (as_list as_str) (d !! "traceback");
  nm ← optional as_str (d !! "name");
  en ← optional as_str (d !! "ename");
  ev ← optional as_str (d !! "evalue");
  Some (mkCellOutput ot md da tx ec tb nm en ev).

Definition Cell_fields : list string :=
  ["cell_type"; "metadata"; "source"; "outputs"; "execution_count"].

Definition Cell_parse_obj (j : json) : option Cell :=
  d ← as_dict j;
  ct ← required as_cell_type (d !! "cell_type");
  md ← with_default as_dict ∅ (d !! "metadata");
  src ← required as_source (d !! "source");
  outs ← optional (as_list CellOutput_parse_obj) (d !! "outputs");
  ec ← optional as_int (d !! "execution_count");
  Some (mkCell ct md src outs ec (delete_keys Cell_fields d)).

Definition NotebookMetadata_fields : list string :=
  ["kernelspec"; "language_info"; "authors"; "title"; "description"; "tags"].

Definition NotebookMetadata_default : NotebookMetadata :=
  mkNotebookMetadata None None None None None None ∅.

Definition NotebookMetadata_parse_obj (j : json) : option NotebookMetadata :=
  d ← as_dict j;
  ks ← optional as_dict (d !! "kernelspec");
  li ← optional as_dict (d !! "language_info");
  au ← optional (as_list as_str_dict) (d !! "authors");
  ti ← optional as_str (d !! "title");
  de ← optional as_str (d !! "description");
  tg ← optional (as_list as_str) (d !! "tags");
  Some (mkNotebookMetadata ks li au ti de tg (delete_keys NotebookMetadata_fields d)).

Definition Notebook_fields : list string :=
  ["cells"; "metadata"; "nbformat"; "nbformat_minor"].

Definition Notebook_parse_obj (j : json) : option Notebook :=
  d ← as_dict j;
  cs ← with_default (as_list Cell_parse_obj) [] (d !! "cells");
  md ← with_default NotebookMetadata_parse_obj NotebookMetadata_default (d !! "metadata");
  nf ← with_default as_int 4 (d !! "nbformat");
  nm ← with_default as_int 5 (d !! "nbformat_minor");
  Some (mkNotebook cs md nf nm (delete_keys Notebook_fields d)).

(** [notebook_from_json], after [json.loads]. *)
Definition notebook_from_json (notebook_json : json) : result Notebook :=
  validated (Notebook_parse_obj notebook_json).

(** *** Serializing: [model.dict(exclude_none=True)] *)

Definition Source_json (s : Source) : json :=
  match s with
  | SourceStr s => JStr s
  | SourceList l => JArr (JStr <$> l)
  end.

Definition CellType_str (t : CellType) : string :=
  match t with code => "code" | markdown => "markdown" | raw => "raw" end.

Definition CellOutput_dict (o : CellOutput) : dict :=
  <["output_type" := JStr (output_type o)]>
  (insert_opt "metadata" (JObj <$> output_metadata o)
  (insert_opt "data" (JObj <$> data o)
  (insert_opt "text" (Source_json <$> text o)
  (insert_opt "execution_count" (JNum <$> output_execution_count o)
  (insert_opt "traceback" ((λ l, JArr (JStr <$> l)) <$> traceback o)
  (insert_opt "name" (JStr <$> name o)
  (insert_opt "ename" (JStr <$> ename o)
  (insert_opt "evalue" (JStr <$> evalue o) ∅)))))))).

Definition Cell_dict (c : Cell) : dict :=
  <["cell_type" := JStr (CellType_str (cell_type c))]>
  (<["metadata" := JObj (cell_metadata c)]>
  (<["source" := Source_json (source c)]>
  (insert_opt "outputs" ((λ l, JArr (JObj ∘ CellOutput_dict <$> l)) <$> outputs c)
  (insert_opt "execution_count" (JNum <$> execution_count c)
  (exclude_none (cell_extra c)))))).

Definition NotebookMetadata_dict (m : NotebookMetadata) : dict :=
  insert_opt "kernelspec" (JObj <$> kernelspec m)
  (insert_opt "language_info" (JObj <$> language_info m)
  (insert_opt "authors" ((λ l, JArr ((λ a : gmap string string, JObj (JStr <$> a)) <$> l)) <$> authors m)
  (insert_opt "title" (JStr <$> title m)
  (insert_opt "description" (JStr <$> description m)
  (insert_opt "tags" ((λ l, JArr (JStr <$> l)) <$> tags m)
  (exclude_none (metadata_extra m))))))).

Definition Notebook_dict (nb : Notebook) : dict :=
  <["cells" := JArr (JObj ∘ Cell_dict <$> cells nb)]>
  (<["metadata" := JObj (NotebookMetadata_dict (metadata nb))]>
  (<["nbformat" := JNum (nbformat nb)]>
  (<["nbformat_minor" := JNum (nbformat_minor nb)]>
  (exclude_none (notebook_extra nb))))).

(** [notebook_to_json], before [json.dumps]. *)
Definition notebook_to_json (notebook : Notebook) : json :=
  JObj (Notebook_dict notebook).

(** ** The cell tools ([src/tools/notebook.py]) *)

(** [len(l)] as a Python integer. *)
Definition len {A} (l : list A) : Z := Z.of_nat (length l).

(** [cell_type not in ['code', 'markdown', 'raw']], and the variant the
    string names when it is in the list. *)
Definition cell_type_of_str (t : string) : option CellType :=
  if String.eqb t "code" then Some code
  else if String.eqb t "markdown" then Some markdown
  else if String.eqb t "raw" then Some raw
  else None.

Definition with_source (src : Source) (c : Cell) : Cell :=
  mkCell (cell_type c) (cell_metadata c) src (outputs c) (execution_count c) (cell_extra c).

Definition with_cell_type (t : CellType) (c : Cell) : Cell :=
  mkCell t (cell_metadata c) (source c) (outputs c) (execution_count c) (cell_extra c).

Definition with_outputs (o : option (list CellOutput)) (c : Cell) : Cell :=
  mkCell (cell_type c) (cell_metadata c) (source c) o (execution_count c) (cell_extra c).

Definition with_execution_count (n : option Z) (c : Cell) : Cell :=
  mkCell (cell_type c) (cell_metadata c) (source c) (outputs c) n (cell_extra c).

Definition with_cells (cs : list Cell) (nb : Notebook) : Notebook :=
  mkNotebook cs (metadata nb) (nbformat nb) (nbformat_minor nb) (notebook_extra nb).

(** [cell_type in ['markdown', 'raw']] *)
Definition is_markdown_or_raw (t : CellType) : bool :=
  match t with markdown | raw => true | code => false end.

(** The body of [edit_cell] between parsing and serializing.  [new_content]
    is a [str], the declared type, so [isinstance(new_content, str)] holds. *)
Definition edit_cell_body (notebook : Notebook) (cell_index : Z)
    (new_content : string) (new_type : option string) : result Notebook :=
  if (cell_index <? 0) || (cell_index >=? len (cells notebook)) then
    Err (CellIndexOutOfRange cell_index (length (cells notebook)))
  else
    let i := Z.to_nat cell_index in
    let cells1 := alter (with_source (SourceList (split_newline new_content))) i (cells notebook) in
    match new_type with
    | None => Ok (with_cells cells1 notebook)
    | Some t =>
        match cell_type_of_str t with
        | None => Err (InvalidCellType t)
        | Some ct =>
            let cells2 := alter (with_cell_type ct) i cells1 in
            if is_markdown_or_raw ct then
              let cells3 := alter (with_outputs (Some [])) i cells2 in
              let cells4 := alter (with_execution_count None) i cells3 in
              Ok (with_cells cells4 notebook)
            else Ok (with_cells cells2 notebook)
        end
    end.

Definition edit_cell (notebook_json : json) (cell_index : Z)
    (new_content : string) (new_type : option string) : result json :=
  try_wrap OpEditCell
    (let* notebook := notebook_from_json notebook_json in
     let* edited := edit_cell_body notebook cell_index new_content new_type in
     Ok (notebook_to_json edited)).

(** [Cell(cell_type=..., metadata=metadata or {}, source=content.split('\n'))]
    followed by the code-cell defaults. *)
Definition new_cell (content : string) (ct : CellType) (md : option dict) : Cell :=
  let c := mkCell ct (default ∅ md) (SourceList (split_newline content)) None None ∅ in
  match ct with
  | code => with_execution_count None (with_outputs (Some []) c)
  | _ => c
  end.

Definition create_cell_body (notebook : Notebook) (content : string)
    (new_type : string) (md : option dict) : result Notebook :=
  match cell_type_of_str new_type with
  | None => Err (InvalidCellType new_type)
  | Some ct => Ok (with_cells (cells notebook ++ [new_cell content ct md]) notebook)
  end.

Definition create_cell (notebook_json : json) (content : string)
    (new_type : string) (md : option dict) : result json :=
  try_wrap OpCreateCell
    (let* notebook := notebook_from_json notebook_json in
     let* created := create_cell_body notebook content new_type md in
     Ok (notebook_to_json created)).

(** [l.insert(position, x)] for [0 <= position <= len(l)]. *)
Definition list_insert_at {A} (position : nat) (x : A) (l : list A) : list A :=
  take position l ++ x :: drop position l.

Definition insert_cell_body (notebook : Notebook) (position : Z) (content : string)
    (new_type : string) (md : option dict) : result Notebook :=
  match cell_type_of_str new_type with
  | None => Err (InvalidCellType new_type)
  | Some ct =>
      if (position <? 0) || (position >? len (cells notebook)) then
        Err (PositionOutOfRange position (length (cells notebook)))
      else
        Ok (with_cells
              (list_insert_at (Z.to_nat position) (new_cell content ct md) (cells notebook))
              notebook)
  end.

Definition insert_cell (notebook_json : json) (position : Z) (content : string)
    (new_type : string) (md : option dict) : result json :=
  try_wrap OpInsertCell
    (let* notebook := notebook_from_json notebook_json in
     let* inserted := insert_cell_body notebook position content new_type md in
     Ok (notebook_to_json inserted)).

(** Truth value of a cell source: a non-empty string or a non-empty list. *)
Definition source_truthy (s : Source) : bool :=
  match s with
  | SourceStr EmptyString => false
  | SourceStr _ => true
  | SourceList [] => false
  | SourceList _ => true
  end.

Definition list_truthy {A} (l : list A) : bool :=
  match l with [] => false | _ => true end.

(** One iteration of the loop that builds [merged_content]. *)
Definition merge_step (merged_content : list string) (cell : Cell) : list string :=
  let separated :=
    if list_truthy merged_content && source_truthy (source cell)
    then merged_content ++ [String newline EmptyString]
    else merged_content in
  match source cell with
  | SourceList l => separated ++ l
  | SourceStr s => separated ++ [s]
  end.

Definition merged_content (cells_to_merge : list Cell) : list string :=
  foldl merge_step [] cells_to_merge.

(** [l[start:stop]] for [0 <= start <= stop]. *)
Definition slice {A} (start stop : nat) (l : list A) : list A :=
  take (stop - start) (drop start l).

(** [l[start:stop] = [x]] *)
Definition slice_assign {A} (start stop : nat) (x : A) (l : list A) : list A :=
  take start l ++ x :: drop stop l.

Definition merge_cells_body (notebook : Notebook) (start_index end_index : Z)
  : result Notebook :=
  if negb (list_truthy (cells notebook)) then Err NoCellsToMerge
  else
    let cell_count := len (cells notebook) in
    if (start_index <? 0) || (start_index >=? cell_count) then
      Err (StartIndexOutOfRange start_index (length (cells notebook)))
    else if (end_index <? start_index) || (end_index >=? cell_count) then
      Err (EndIndexInvalid end_index start_index (length (cells notebook)))
    else
      let start := Z.to_nat start_index in
      let stop := Z.to_nat (end_index + 1) in
      let cells_to_merge := slice start stop (cells notebook) in
      match cells_to_merge with
      | [] => Err IndexError
      | first :: _ =>
          let merged_cell_type := cell_type first in
          let merged := mkCell merged_cell_type (cell_metadata first)
                          (SourceList (merged_content cells_to_merge)) None None ∅ in
          let merged_cell :=
            match merged_cell_type with
            | code => with_execution_count None (with_outputs (Some []) merged)
            | _ => merged
            end in
          Ok (with_cells (slice_assign start stop merged_cell (cells notebook)) notebook)
      end.

Definition merge_cells (notebook_json : json) (start_index end_index : Z)
  : result json :=
  try_wrap OpMergeCells
    (let* notebook := notebook_from_json notebook_json in
     let* merged := merge_cells_body notebook start_index end_index in
     Ok (notebook_to_json merged)).

(** [append_cell] is a wrapper around [create_cell]. *)
Definition append_cell (notebook_json : json) (content : string)
    (new_type : string) (md : option dict) : result json :=
  create_cell notebook_json content new_type md.

(** [l[i], l[j] = l[j], l[i]]: both right-hand sides are read, then [l[i]]
    and [l[j]] are assigned in that order. *)
Definition swap_items {A} (i j : nat) (l : list A) : result (list A) :=
  match l !! j, l !! i with
  | Some at_j, Some at_i => Ok (<[j := at_i]> (<[i := at_j]> l))
  | _, _ => Err IndexError
  end.

Definition swap_cells_body (notebook : Notebook) (index1 index2 : Z)
  : result Notebook :=
  if negb (list_truthy (cells notebook)) then Err NoCellsToSwap
  else
    let cell_count := len (cells notebook) in
    if (index1 <? 0) || (index1 >=? cell_count)
       || (index2 <? 0) || (index2 >=? cell_count) then
      Err (SwapIndicesOutOfRange (length (cells notebook)))
    else
      let* swapped := swap_items (Z.to_nat index1) (Z.to_nat index2) (cells notebook) in
      Ok (with_cells swapped notebook).

Definition swap_cells (notebook_json : json) (index1 index2 : Z) : result json :=
  try_wrap OpSwapCells
    (let* notebook := notebook_from_json notebook_json in
     let* swapped := swap_cells_body notebook index1 index2 in
     Ok (notebook_to_json swapped)).

(** The text [extract_code_from_notebook] takes from one source. *)
Definition source_text (s : Source) : string :=
  match s with
  | SourceList l => join_empty l
  | SourceStr s => s
  end.

(** One iteration of the loop over [notebook.cells]. *)
Definition extract_step (code_cells : list string) (cell : Cell) : list string :=
  match cell_type cell with
  | code => code_cells ++ [source_text (source cell)]
  | _ => code_cells
  end.

Definition extract_code_from_notebook (notebook_json : json) : result (list string) :=
  try_wrap OpExtractCode
    (let* notebook := notebook_from_json notebook_json in
     Ok (foldl extract_step [] (cells notebook))).

(** ** Markdown import *)

Definition hash : ascii := "#"%char.

(** What [.*?] followed by [$] takes in multi-line mode: the characters up to
    the next newline or the end of the string. *)
Fixpoint rest_of_line (s : string) : string :=
  match s with
  | EmptyString => EmptyString
  | String c s' => if Ascii.eqb c newline then EmptyString else String c (rest_of_line s')
  end.

(** The match of [#*\s.*?$] at the start of [s], if any. *)
Fixpoint header_tail (s : string) : option string :=
  match s with
  | EmptyString => None
  | String c s' =>
      if Ascii.eqb c hash then String c <$> header_tail s'
      else if py_isspace c then Some (String c (rest_of_line s'))
      else None
  end.

(** The match of [#+\s.*?$] at the start of [s], if any. *)
Definition header_at (s : string) : option string :=
  match s with
  | EmptyString => None
  | String c s' => if Ascii.eqb c hash then String c <$> header_tail s' else None
  end.

(** The scan of [re.split(r'(?m)^(#+\s.*?)$', s)].  [bol] says that the
    current position is the start of a line, [skip] counts the characters
    that still belong to the header matched last.  The result is the text
    up to the next match together with the following (header, text) pairs. *)
Fixpoint scan_headers (s : string) (bol : bool) (skip : nat)
  : string * list (string * string) :=
  match s with
  | EmptyString => (EmptyString, [])
  | String c s' =>
      match skip with
      | S k => scan_headers s' (Ascii.eqb c newline) k
      | O =>
          match (if bol then header_at s else None) with
          | Some h =>
              let r := scan_headers s' (Ascii.eqb c newline) (String.length h - 1) in
              (EmptyString, (h, r.1) :: r.2)
          | None =>
              let r := scan_headers s' (Ascii.eqb c newline) 0 in
              (String c r.1, r.2)
          end
      end
  end.

(** [re.split] with one capturing group: the text before the first match,
    then each captured header followed by the text up to the next match. *)
Definition re_split_headers (s : string) : list string :=
  let r := scan_headers s true 0 in
  r.1 :: flat_map (λ hc : string * string, [hc.1; hc.2]) r.2.

(** [re.match(r'^#+\s', s)] *)
Fixpoint hashes_then_space (s : string) : bool :=
  match s with
  | EmptyString => false
  | String c s' => if Ascii.eqb c hash then hashes_then_space s' else py_isspace c
  end.

Definition match_header_prefix (s : string) : bool :=
  match s with
  | EmptyString => false
  | String c s' => Ascii.eqb c hash && hashes_then_space s'
  end.

Definition str_list_json (l : list string) : json := JArr (JStr <$> l).

(** [{"cell_type": "markdown", "metadata": {}, "source": text.split('\n')}] *)
Definition markdown_cell (content : string) : json :=
  JObj (<["cell_type" := JStr "markdown"]>
       (<["metadata" := JObj ∅]>
       (<["source" := str_list_json (split_newline content)]> ∅))).

(** The [while i < len(cell_contents)] loop: a header that is not the last
    element is combined with the element after it. *)
Fixpoint cells_of_contents (cell_contents : list string) : list json :=
  match cell_contents with
  | [] => []
  | x :: rest =>
      match rest with
      | y :: rest' =>
          if match_header_prefix x
          then markdown_cell (x +:+ String newline EmptyString +:+ y) :: cells_of_contents rest'
          else markdown_cell x :: cells_of_contents rest
      | [] => [markdown_cell x]
      end
  end.

Definition markdown_cells (markdown_content : string) : list json :=
  let cell_contents := re_split_headers markdown_content in
  let cell_contents :=
    match cell_contents with
    | first :: rest => if is_blank first then rest else cell_contents
    | [] => cell_contents
    end in
  match cell_contents with
  | [] => [markdown_cell markdown_content]
  | _ => cells_of_contents cell_contents
  end.

Definition python_kernel_metadata : dict :=
  <["kernelspec" := JObj (<["display_name" := JStr "Python 3"]>
                         (<["language" := JStr "python"]>
                         (<["name" := JStr "python3"]> ∅)))]>
  (<["language_info" := JObj
       (<["codemirror_mode" := JObj (<["name" := JStr "ipython"]> (<["version" := JNum 3]> ∅))]>
       (<["file_extension" := JStr ".py"]>
       (<["mimetype" := JStr "text/x-python"]>
       (<["name" := JStr "python"]>
       (<["nbconvert_exporter" := JStr "python"]>
       (<["pygments_lexer" := JStr "ipython3"]>
       (<["version" := JStr "3.8.0"]> ∅)))))))]> ∅).

Definition notebook_from_markdown (markdown_content : string) : result json :=
  try_wrap OpFromMarkdown
    (Ok (JObj (<["cells" := JArr (markdown_cells markdown_content)]>
              (<["metadata" := JObj python_kernel_metadata]>
              (<["nbformat" := JNum 4]>
              (<["nbformat_minor" := JNum 5]> ∅)))))).

(** ** Format conversion *)

Inductive Exporter :=
| PythonExporter | HTMLExporter | MarkdownExporter | RSTExporter
| LatexExporter | PDFExporter | SlidesExporter.

(** The chain of comparisons on [output_format.lower()]. *)
Definition select_exporter (output_format : string) : option Exporter :=
  let f := lower output_format in
  if String.eqb f "python" then Some PythonExporter
  else if String.eqb f "html" then Some HTMLExporter
  else if String.eqb f "markdown" then Some MarkdownExporter
  else if String.eqb f "rst" then Some RSTExporter
  else if String.eqb f "latex" then Some LatexExporter
  else if String.eqb f "pdf" then Some PDFExporter
  else if String.eqb f "slides" then Some SlidesExporter
  else None.

(** The file system: the text stored at each path. *)
Abbreviation files := (gmap string string).

Section Conversion.

(** nbconvert is a collaborator: [from_notebook_node e exclude_input
    exclude_output nb] is the text the exporter [e], configured with the two
    flags, renders for the notebook dictionary [nb], or its failure.  The
    imports of nbconvert, nbformat and traitlets are taken to succeed. *)
Variable from_notebook_node : Exporter → bool → bool → json → result string.

(** [writable path] says whether [open(path, 'w')] succeeds. *)
Variable writable : string → bool.

Definition convert_notebook_to_format (notebook_json : json) (output_format : string)
    (exclude_input exclude_output : bool) : result string :=
  try_wrap OpConvertFormat
    (let* notebook_model := notebook_from_json notebook_json in
     let notebook := JObj (Notebook_dict notebook_model) in
     match select_exporter output_format with
     | Some exporter => from_notebook_node exporter exclude_input exclude_output notebook
     | None => Err (UnsupportedFormat output_format)
     end).

(** [if output_path:] holds for a path that is given and not empty. *)
Definition path_truthy (output_path : option string) : option string :=
  match output_path with
  | Some EmptyString => None
  | other => other
  end.

(** The result and the file system after the call. *)
Definition convert_notebook_to_executable (notebook_json : json)
    (output_format : string) (output_path : option string) (fs : files)
  : result string * files :=
  match convert_notebook_to_format notebook_json output_format false false with
  | Err e => (Err (Wrapped OpConvertExecutable e), fs)
  | Ok output =>
      match path_truthy output_path with
      | Some path =>
          if writable path then (Ok output, <[path := output]> fs)
          else (Err (Wrapped OpConvertExecutable WriteFailure), fs)
      | None => (Ok output, fs)
      end
  end.

End Conversion.

(** ** File import *)

(** How [convert_file_to_notebook] ends: with the notebook, or with the
    ValueError "Error converting file to notebook: ..." whose cause is the
    invalid cell type or the failure of [open] or [f.read]. *)
Inductive FileConversion :=
| Converted (notebook : json)
| FileInvalidCellType (given : string)
| FileNotReadable (file_path : string).

(** The single cell of the notebook; [if cell_type == 'code':] adds the two
    keys of a code cell. *)
Definition file_cell (cell_type content : string) : dict :=
  let cell :=
    <["cell_type" := JStr cell_type]>
    (<["metadata" := JObj ∅]>
    (<["source" := str_list_json (split_newline content)]> ∅)) in
  if String.eqb cell_type "code"
  then <["execution_count" := JNull]> (<["outputs" := JArr []]> cell)
  else cell.

(** [fs] holds, for each path that can be opened and read as UTF-8 text,
    the text that [f.read()] returns. *)
Definition convert_file_to_notebook (fs : files) (file_path cell_type : string)
  : FileConversion :=
  match cell_type_of_str cell_type with
  | None => FileInvalidCellType cell_type
  | Some _ =>
      match fs !! file_path with
      | None => FileNotReadable file_path
      | Some content =>
          Converted
            (JObj (<["cells" := JArr [JObj (file_cell cell_type content)]]>
                  (<["metadata" := JObj python_kernel_metadata]>
                  (<["nbformat" := JNum 4]>
                  (<["nbformat_minor" := JNum 5]> ∅)))))
      end
  end.

(** * Vocabulary of the statements *)

(** *** Canonical form of a parsed notebook *)

Definition norm_output (o : CellOutput) : CellOutput :=
  mkCellOutput (output_type o) (Some (default ∅ (output_metadata o))) (data o) (text o)
    (output_execution_count o) (traceback o) (name o) (ename o) (evalue o).

Definition norm_cell (c : Cell) : Cell :=
  mkCell (cell_type c) (cell_metadata c) (source c) ((λ l : list CellOutput, norm_output <$> l) <$> outputs c)
    (execution_count c) (exclude_none (cell_extra c)).

Definition norm_metadata (m : NotebookMetadata) : NotebookMetadata :=
  mkNotebookMetadata (kernelspec m) (language_info m) (authors m) (title m)
    (description m) (tags m) (exclude_none (metadata_extra m)).

Definition norm_notebook (nb : Notebook) : Notebook :=
  mkNotebook (norm_cell <$> cells nb) (norm_metadata (metadata nb)) (nbformat nb)
    (nbformat_minor nb) (exclude_none (notebook_extra nb)).

Definition disjoint_keys (ks : list string) (d : dict) : Prop :=
  Forall (λ k, d !! k = None) ks.

Definition wf_cell (c : Cell) : Prop := disjoint_keys Cell_fields (cell_extra c).

Definition wf_notebook (nb : Notebook) : Prop :=
  Forall wf_cell (cells nb)
  ∧ disjoint_keys NotebookMetadata_fields (metadata_extra (metadata nb))
  ∧ disjoint_keys Notebook_fields (notebook_extra nb).

Definition round_trip (x : json) : result json :=
  let* nb := notebook_from_json x in Ok (notebook_to_json nb).

(** *** Reading a serialized notebook *)

(** The serialized notebook [y] has the object [c] as its cell number [i]. *)
Definition json_cell_at (y : json) (i : nat) (c : dict) : Prop :=
  ∃ d cs, y = JObj d ∧ d !! "cells" = Some (JArr cs) ∧ cs !! i = Some (JObj c).

(** The serialized notebook [y] has [n] cells. *)
Definition json_cell_count (y : json) (n : nat) : Prop :=
  ∃ d cs, y = JObj d ∧ d !! "cells" = Some (JArr cs) ∧ length cs = n.

(** [edit_cell] clears the outputs and the execution count exactly when a
    new type is given and it is markdown or raw. *)
Definition edit_resets (new_type : option string) : bool :=
  match new_type ≫= cell_type_of_str with
  | Some t => is_markdown_or_raw t
  | None => false
  end.

Definition outputs_json (o : option (list CellOutput)) : option json :=
  (λ l, JArr (JObj ∘ CellOutput_dict <$> l)) <$> o.

(** *** Text without its line breaks *)

(** The text with its newline characters deleted. *)
Fixpoint remove_newlines (s : string) : string :=
  match s with
  | EmptyString => EmptyString
  | String c s' =>
      if Ascii.eqb c newline then remove_newlines s' else String c (remove_newlines s')
  end.

Fixpoint has_newline (s : string) : bool :=
  match s with
  | EmptyString => false
  | String c s' => Ascii.eqb c newline || has_newline s'
  end.

(** *** Code cells and sample documents *)

Definition is_code (c : Cell) : bool :=
  match cell_type c with code => true | _ => false end.

(** The texts of the code cells, in cell order. *)
Definition code_texts (cs : list Cell) : list string :=
  (λ c, source_text (source c)) <$> filter (λ c, is_code c = true) cs.

(** Sample documents. *)
Definition obj (members : list (string * json)) : json := JObj (list_to_map members).

Definition stream_output : CellOutput :=
  mkCellOutput "stream" (Some ∅) None (Some (SourceStr "1")) None None (Some "stdout") None None.

Definition sample_notebook : Notebook :=
  mkNotebook
    [ mkCell markdown ∅ (SourceList ["# Title"]) None None ∅;
      mkCell code ∅ (SourceStr "a=1") (Some [stream_output]) (Some 7) ∅;
      mkCell code ∅ (SourceList ["b=2"]) (Some []) None ∅;
      mkCell markdown ∅ (SourceStr "The end") None None ∅ ]
    NotebookMetadata_default 4 5 ∅.

Definition sample_json : json := notebook_to_json sample_notebook.

(** A code cell that was run (count 7) in a notebook as Jupyter writes it. *)
Definition executed_json : json :=
  obj [("cells", JArr [obj [("cell_type", JStr "code"); ("metadata", JObj ∅);
                            ("source", JArr [JStr "a=1"]); ("outputs", JArr []);
                            ("execution_count", JNum 7)]]);
       ("metadata", JObj ∅); ("nbformat", JNum 4); ("nbformat_minor", JNum 5)].

Definition empty_json : json :=
  obj [("cells", JArr []); ("metadata", JObj ∅); ("nbformat", JNum 4);
       ("nbformat_minor", JNum 5)].

(** *** Index errors and export formats *)

(** The raise sites that reject an index or a position.  The two "no cells"
    sites are among them: they are reached when the notebook is empty, so
    that no index is in range. *)
Definition is_range_error (e : PyError) : bool :=
  match e with
  | CellIndexOutOfRange _ _ | PositionOutOfRange _ _ | StartIndexOutOfRange _ _
  | EndIndexInvalid _ _ _ | SwapIndicesOutOfRange _ | NoCellsToMerge | NoCellsToSwap => true
  | _ => false
  end.

(** The call failed, with a range error as the cause: no notebook is returned. *)
Definition rejects_index (r : result json) : Prop :=
  ∃ op e, r = Err (Wrapped op e) ∧ is_range_error e = true.

Definition supported_formats : list string :=
  ["python"; "html"; "markdown"; "rst"; "latex"; "pdf"; "slides"].

(** An exporter that renders the name of its format. *)
Definition naming_exporter (e : Exporter) (exclude_input exclude_output : bool)
    (nb : json) : result string :=
  Ok match e with
     | PythonExporter => "python" | HTMLExporter => "html"
     | MarkdownExporter => "markdown" | RSTExporter => "rst"
     | LatexExporter => "latex" | PDFExporter => "pdf" | SlidesExporter => "slides"
     end.

(** *** Sections of a markdown text *)

(** The cells built from the text before the first header and the
    (header, following text) pairs: one cell per header, after a leading cell
    when the text before the first header is not blank; the whole input as
    one cell when there is no header. *)
Definition section_cell (hc : string * string) : json :=
  markdown_cell (hc.1 +:+ String newline EmptyString +:+ hc.2).

Definition cells_of_sections (whole : string) (r : string * list (string * string))
  : list json :=
  match r.2 with
  | [] => [markdown_cell whole]
  | _ => (if is_blank r.1 then [] else [markdown_cell r.1]) ++ (section_cell <$> r.2)
  end.

Definition flatten_sections (r : string * list (string * string)) : string :=
  r.1 +:+ foldr (λ hc acc, hc.1 +:+ hc.2 +:+ acc) EmptyString r.2.

Fixpoint drop_chars (n : nat) (s : string) : string :=
  match n, s with
  | O, _ => s
  | S k, String _ s' => drop_chars k s'
  | S _, EmptyString => EmptyString
  end.

(** *** Header lines *)

(** A header line: a line that begins with one or more '#' followed by a
    whitespace character. *)
Definition header_line (line : string) : bool := match_header_prefix line.

Fixpoint all_hashes (s : string) : bool :=
  match s with
  | EmptyString => true
  | String c s' => Ascii.eqb c hash && all_hashes s'
  end.

(** A line made of '#' characters only. *)
Definition only_hashes (line : string) : bool :=
  match line with
  | EmptyString => false
  | _ => all_hashes line
  end.

(** No line but the last is made of '#' characters only. *)
Fixpoint no_bare_hashes (lines : list string) : bool :=
  match lines with
  | [] => true
  | line :: rest =>
      match rest with
      | [] => true
      | _ => negb (only_hashes line) && no_bare_hashes rest
      end
  end.

(** Splitting a list of lines at its header lines: the text of the lines before
    the first header line, then each header line with the text that follows it
    up to the next header line.  Line breaks are kept as they are in the
    input. *)
Fixpoint line_sections (lines : list string) : string * list (string * string) :=
  match lines with
  | [] => (EmptyString, [])
  | line :: rest =>
      match rest with
      | [] => if header_line line then (EmptyString, [(line, EmptyString)])
              else (line, [])
      | _ =>
          let r := line_sections rest in
          if header_line line
          then (EmptyString, (line, String newline r.1) :: r.2)
          else (line +:+ String newline r.1, r.2)
      end
  end.

(** What follows a line: nothing, or a newline and more text. *)
Definition line_end (t : string) : Prop :=
  t = EmptyString ∨ ∃ t', t = String newline t'.

Definition nl : string := String newline EmptyString.

(** "# Title\nBody\n## Sub\nMore" *)
Definition two_sections : string :=
  "# Title" +:+ nl +:+ "Body" +:+ nl +:+ "## Sub" +:+ nl +:+ "More".

(** "#\n# Real" *)
Definition hash_only_first_line : string := "#" +:+ nl +:+ "# Real".

(** " \n# T" *)
Definition blank_before_header : string := " " +:+ nl +:+ "# T".

Definition markdown_cell_of_lines (lines : list string) : json :=
  JObj (<["cell_type" := JStr "markdown"]>
       (<["metadata" := JObj ∅]>
       (<["source" := str_list_json lines]> ∅))).

(** The cells of the notebook a tool returned. *)
Definition cells_of_result (r : result json) : option (list json) :=
  match r with
  | Ok (JObj d) => match d !! "cells" with Some (JArr cs) => Some cs | _ => None end
  | _ => None
  end.

(** *** Paths into a JSON value *)

(** A step into a JSON value: a member of an object or an item of an array. *)
Inductive step := Key (k : string) | Index (i : nat).

Fixpoint json_at (path : list step) (j : json) : option json :=
  match path with
  | [] => Some j
  | Key k :: rest =>
      match j with JObj d => d !! k ≫= json_at rest | _ => None end
  | Index i :: rest =>
      match j with JArr l => l !! i ≫= json_at rest | _ => None end
  end.

(** A notebook as Jupyter saves it: the code cell that was not run yet has
    [execution_count] null. *)
Definition unexecuted_json : json :=
  obj [("cells", JArr [obj [("cell_type", JStr "code"); ("metadata", JObj ∅);
                            ("source", JArr [JStr "a=1"]); ("outputs", JArr []);
                            ("execution_count", JNull)];
                       obj [("cell_type", JStr "markdown"); ("metadata", JObj ∅);
                            ("source", JArr [JStr "text"])]]);
       ("metadata", JObj ∅); ("nbformat", JNum 4); ("nbformat_minor", JNum 5)].

(** A notebook whose stream output carries a key the schema does not declare,
    next to undeclared keys at the top level, in the cell and in the notebook
    metadata. *)
Definition tagged_output : json :=
  obj [("output_type", JStr "stream"); ("name", JStr "stdout");
       ("text", JArr [JStr "1"]); ("custom", JStr "kept?")].

Definition tagged_json : json :=
  obj [("cells", JArr [obj [("cell_type", JStr "code"); ("metadata", JObj ∅);
                            ("source", JArr [JStr "print(1)"]);
                            ("outputs", JArr [tagged_output]);
                            ("execution_count", JNum 1);
                            ("collapsed", JBool true)]]);
       ("metadata", obj [("toc", JBool true)]);
       ("nbformat", JNum 4); ("nbformat_minor", JNum 5);
       ("generator", JStr "external tool")].

(** Two markdown cells, the first with the empty string as its source. *)
Definition empty_first_json : json :=
  obj [("cells", JArr [obj [("cell_type", JStr "markdown"); ("metadata", JObj ∅);
                            ("source", JStr EmptyString)];
                       obj [("cell_type", JStr "markdown"); ("metadata", JObj ∅);
                            ("source", JStr "b")]]);
       ("metadata", JObj ∅); ("nbformat", JNum 4); ("nbformat_minor", JNum 5)].

(** *** The merge row of the specification *)

(** The sources of the cells joined as the merge row of the specification
    words it: the sources that are not empty, with a newline between them. *)
Definition joined_sources (cs : list Cell) : string :=
  join_with nl (source_text <$> filter (λ s, source_truthy s = true) (source <$> cs)).

(** *** Vocabulary of the further properties *)

(** The member [key] of a serialized notebook. *)
Definition member (key : string) (y : json) : option json :=
  match y with JObj d => d !! key | _ => None end.

(** A cell the schema refuses: null, a boolean, a number or a string in
    place of the object, or an object whose [cell_type] is not one of the
    strings "code", "markdown", "raw", or that has no [source]. *)
Definition refused_cell (c : json) : Prop :=
  match c with
  | JObj cd =>
      (∀ t, cd !! "cell_type" = Some (JStr t) → cell_type_of_str t = None)
      ∨ cd !! "source" = None
  | JArr _ => False
  | _ => True
  end.

(** The metadata that the two import functions write, as the schema reads it. *)
Definition python_metadata : NotebookMetadata :=
  mkNotebookMetadata
    (python_kernel_metadata !! "kernelspec" ≫= as_dict)
    (python_kernel_metadata !! "language_info" ≫= as_dict)
    None None None None ∅.

(** A notebook without cells, with the metadata of the import functions. *)
Definition empty_python_notebook : Notebook := mkNotebook [] python_metadata 4 5 ∅.

(** The markdown cell with the given content, as the schema reads it. *)
Definition markdown_cell_model (content : string) : Cell :=
  mkCell markdown ∅ (SourceList (split_newline content)) None None ∅.

(** The contents of the cells of [markdown_cells text]. *)
Definition section_texts (whole : string) (r : string * list (string * string))
  : list string :=
  match r.2 with
  | [] => [whole]
  | _ => (if is_blank r.1 then [] else [r.1])
         ++ ((λ hc : string * string, hc.1 +:+ String newline EmptyString +:+ hc.2) <$> r.2)
  end.

(** The notebook [convert_file_to_notebook] writes for the given cell. *)
Definition file_notebook (cell : dict) : json :=
  JObj (<["cells" := JArr [JObj cell]]>
       (<["metadata" := JObj python_kernel_metadata]>
       (<["nbformat" := JNum 4]>
       (<["nbformat_minor" := JNum 5]> ∅)))).

(** No key of the dictionary has the value null. *)
Definition no_null_value (d : dict) : Prop := ∀ k, d !! k ≠ Some JNull.

(** A notebook with a key outside the schema at the top level, in the
    metadata and in a cell. *)
Definition custom_keys_json : json :=
  obj [("cells", JArr [obj [("cell_type", JStr "raw"); ("source", JStr "r");
                            ("id", JStr "c1")]]);
       ("metadata", obj [("colab", JBool true)]);
       ("custom", JStr "v")].

(** * Properties *)

(** ** Dictionaries and the parse-serialize round trip *)

Lemma lookup_insert_opt_ne k k' v (d : dict) :
  k ≠ k' → insert_opt k v d !! k' = d !! k'.
Proof. intros; destruct v; simpl; [by rewrite lookup_insert_ne|done]. Qed.

Lemma lookup_insert_opt_eq k v (d : dict) :
  d !! k = None → insert_opt k v d !! k = v.
Proof. intros H. destruct v; simpl; [by rewrite lookup_insert_eq|done]. Qed.

Ltac dict_lookup :=
  repeat first
    [ rewrite lookup_insert_eq
    | rewrite lookup_insert_ne by done
    | rewrite lookup_insert_opt_eq by (dict_lookup; done)
    | rewrite lookup_insert_opt_ne by done
    | rewrite lookup_empty ].

Lemma exclude_none_lookup_None (d : dict) k : d !! k = None → exclude_none d !! k = None.
Proof. intros H. unfold exclude_none. apply map_lookup_filter_None. by left. Qed.

Lemma exclude_none_lookup_Some (d : dict) k v :
  exclude_none d !! k = Some v ↔ d !! k = Some v ∧ is_null v = false.
Proof. unfold exclude_none. by rewrite map_lookup_filter_Some. Qed.

Lemma exclude_none_idemp (d : dict) : exclude_none (exclude_none d) = exclude_none d.
Proof.
  unfold exclude_none. rewrite map_filter_filter. apply map_filter_ext.
  intros k v _. tauto.
Qed.

Lemma delete_keys_lookup ks (d : dict) k :
  delete_keys ks d !! k = if decide (k ∈ ks) then None else d !! k.
Proof.
  unfold delete_keys. induction ks as [|a ks IH]; cbn [foldr].
  - destruct (decide (k ∈ [])); [set_solver|done].
  - destruct (decide (a = k)) as [->|Hne].
    + rewrite lookup_delete_eq. destruct (decide (k ∈ k :: ks)); [done|set_solver].
    + rewrite lookup_delete_ne by done. rewrite IH.
      destruct (decide (k ∈ ks)) as [Hin|Hnin], (decide (k ∈ a :: ks)) as [Hin'|Hnin'];
        try done.
      * exfalso. apply Hnin'. by apply list_elem_of_further.
      * apply elem_of_cons in Hin' as [->|Hin']; done.
Qed.

Lemma delete_keys_disjoint ks (d : dict) : disjoint_keys ks (delete_keys ks d).
Proof.
  apply Forall_forall. intros k Hk. rewrite delete_keys_lookup.
  by destruct (decide (k ∈ ks)).
Qed.

Lemma disjoint_keys_exclude_none ks (d : dict) :
  disjoint_keys ks d → disjoint_keys ks (exclude_none d).
Proof.
  intros H. eapply Forall_impl; [exact H|]. intros k. apply exclude_none_lookup_None.
Qed.

Lemma mapM_fmap_fmap {A B C} (f : A → option B) (g : C → A) (h : C → B) (l : list C) :
  (∀ x, f (g x) = Some (h x)) → mapM f (g <$> l) = Some (h <$> l).
Proof.
  intros Hfg. apply mapM_Some. apply Forall2_fmap. apply Forall_Forall2_diag.
  by apply Forall_true.
Qed.

Lemma as_str_list_json (l : list string) : as_list as_str (JArr (JStr <$> l)) = Some l.
Proof. simpl. by apply mapM_fmap_Some. Qed.

Lemma as_source_json (s : Source) : as_source (Source_json s) = Some s.
Proof.
  destruct s as [s|l]; simpl; [done|].
  by rewrite (mapM_fmap_Some as_str JStr l).
Qed.

Lemma Source_json_not_null s : is_null (Source_json s) = false.
Proof. by destruct s. Qed.

Lemma optional_enc_norm {A} (conv : json → option A) (enc : A → json) (h : A → A)
    (v : option A) :
  (∀ a, conv (enc a) = Some (h a)) → (∀ a, is_null (enc a) = false) →
  optional conv (enc <$> v) = Some (h <$> v).
Proof.
  intros Hc Hn. destruct v as [a|]; simpl; [|done].
  specialize (Hn a). specialize (Hc a). unfold optional, optional_default.
  destruct (enc a); simpl in *; try discriminate; by rewrite Hc.
Qed.

Lemma optional_enc {A} (conv : json → option A) (enc : A → json) (v : option A) :
  (∀ a, conv (enc a) = Some a) → (∀ a, is_null (enc a) = false) →
  optional conv (enc <$> v) = Some v.
Proof.
  intros Hc Hn. rewrite (optional_enc_norm conv enc id) by done. by destruct v.
Qed.

Lemma optional_default_enc {A} (conv : json → option A) (enc : A → json) (dflt : option A)
    (v : option A) :
  (∀ a, conv (enc a) = Some a) → (∀ a, is_null (enc a) = false) →
  optional_default conv dflt (enc <$> v) = Some (match v with Some a => Some a | None => dflt end).
Proof.
  intros Hc Hn. destruct v as [a|]; simpl; [|done].
  specialize (Hn a). specialize (Hc a).
  destruct (enc a); simpl in *; try discriminate; by rewrite Hc.
Qed.

Lemma as_str_dict_json (a : gmap string string) :
  as_str_dict (JObj (JStr <$> a)) = Some a.
Proof.
  simpl. destruct (decide _) as [_|Hn].
  - f_equal. apply map_eq. intros k. rewrite lookup_omap, lookup_fmap.
    by destruct (a !! k).
  - exfalso. apply Hn. apply map_Forall_fmap. intros k v _. simpl. eauto.
Qed.

Lemma CellOutput_round_trip (o : CellOutput) :
  CellOutput_parse_obj (JObj (CellOutput_dict o)) = Some (norm_output o).
Proof.
  unfold CellOutput_parse_obj, CellOutput_dict. simpl as_dict. simpl mbind.
  dict_lookup. simpl.
  rewrite (optional_default_enc as_dict JObj) by done. simpl.
  rewrite (optional_enc as_dict JObj) by done. simpl.
  rewrite (optional_enc as_source Source_json)
    by (done || apply as_source_json || apply Source_json_not_null). simpl.
  rewrite (optional_enc as_int JNum) by done. simpl.
  rewrite (optional_enc (as_list as_str) (λ l, JArr (JStr <$> l)))
    by (done || apply as_str_list_json). simpl.
  rewrite !(optional_enc as_str JStr) by done. simpl.
  by destruct o as [? [?|] ? ? ? ? ? ? ?].
Qed.

Lemma disjoint_keys_lookup ks (d : dict) k : disjoint_keys ks d → k ∈ ks → d !! k = None.
Proof. unfold disjoint_keys. rewrite Forall_forall. auto. Qed.

Lemma CellType_round_trip t : as_cell_type (JStr (CellType_str t)) = Some t.
Proof. by destruct t. Qed.

Lemma as_outputs_json (l : list CellOutput) :
  as_list CellOutput_parse_obj (JArr (JObj ∘ CellOutput_dict <$> l))
  = Some (norm_output <$> l).
Proof. simpl. apply mapM_fmap_fmap. intros o. apply CellOutput_round_trip. Qed.

(** Keys of the extras survive the declared fields in the dictionary. *)
Lemma delete_keys_eq ks (d e : dict) :
  (∀ k, k ∉ ks → d !! k = e !! k) → disjoint_keys ks e → delete_keys ks d = e.
Proof.
  intros Hd He. apply map_eq. intros k. rewrite delete_keys_lookup.
  destruct (decide (k ∈ ks)) as [Hin|Hnin].
  - symmetry. by eapply disjoint_keys_lookup.
  - by apply Hd.
Qed.

Ltac field_keys H :=
  repeat (apply not_elem_of_cons in H as [? H]).

Lemma Cell_round_trip (c : Cell) :
  wf_cell c → Cell_parse_obj (JObj (Cell_dict c)) = Some (norm_cell c).
Proof.
  intros Hwf. unfold wf_cell in Hwf.
  assert (Hx : disjoint_keys Cell_fields (exclude_none (cell_extra c)))
    by by apply disjoint_keys_exclude_none.
  assert (Ho : exclude_none (cell_extra c) !! "outputs" = None)
    by (eapply disjoint_keys_lookup; [done|set_solver]).
  assert (He : exclude_none (cell_extra c) !! "execution_count" = None)
    by (eapply disjoint_keys_lookup; [done|set_solver]).
  assert (Hextra : delete_keys Cell_fields (Cell_dict c) = exclude_none (cell_extra c)).
  { apply delete_keys_eq; [|done]. intros k Hk. unfold Cell_fields in Hk.
    field_keys Hk. unfold Cell_dict. by dict_lookup. }
  unfold Cell_parse_obj. cbn [as_dict mbind option_bind]. rewrite Hextra.
  unfold Cell_dict. dict_lookup. unfold required, with_default.
  cbn [mbind option_bind as_dict].
  rewrite CellType_round_trip, as_source_json. cbn [mbind option_bind].
  rewrite (optional_enc_norm (as_list CellOutput_parse_obj)
             (λ l, JArr (JObj ∘ CellOutput_dict <$> l))
             (λ l, norm_output <$> l)) by (done || apply as_outputs_json).
  rewrite (optional_enc as_int JNum) by done. done.
Qed.

Lemma as_authors_json (l : list (gmap string string)) :
  as_list as_str_dict (JArr ((λ a : gmap string string, JObj (JStr <$> a)) <$> l)) = Some l.
Proof. cbn [as_list]. apply mapM_fmap_Some. intros a. apply as_str_dict_json. Qed.

Lemma NotebookMetadata_round_trip (m : NotebookMetadata) :
  disjoint_keys NotebookMetadata_fields (metadata_extra m) →
  NotebookMetadata_parse_obj (JObj (NotebookMetadata_dict m)) = Some (norm_metadata m).
Proof.
  intros Hwf.
  assert (Hx : disjoint_keys NotebookMetadata_fields (exclude_none (metadata_extra m)))
    by by apply disjoint_keys_exclude_none.
  assert (Hk : ∀ k, k ∈ NotebookMetadata_fields → exclude_none (metadata_extra m) !! k = None)
    by (intros k; by apply disjoint_keys_lookup).
  pose proof (Hk "kernelspec" ltac:(set_solver)) as H1.
  pose proof (Hk "language_info" ltac:(set_solver)) as H2.
  pose proof (Hk "authors" ltac:(set_solver)) as H3.
  pose proof (Hk "title" ltac:(set_solver)) as H4.
  pose proof (Hk "description" ltac:(set_solver)) as H5.
  pose proof (Hk "tags" ltac:(set_solver)) as H6.
  assert (Hextra : delete_keys NotebookMetadata_fields (NotebookMetadata_dict m)
                   = exclude_none (metadata_extra m)).
  { apply delete_keys_eq; [|done]. intros k Hn. unfold NotebookMetadata_fields in Hn.
    field_keys Hn. unfold NotebookMetadata_dict. by dict_lookup. }
  unfold NotebookMetadata_parse_obj. cbn [as_dict mbind option_bind]. rewrite Hextra.
  unfold NotebookMetadata_dict. dict_lookup.
  rewrite !(optional_enc as_dict JObj) by done. cbn [mbind option_bind].
  rewrite (optional_enc (as_list as_str_dict)
             (λ l, JArr ((λ a : gmap string string, JObj (JStr <$> a)) <$> l)))
    by (done || apply as_authors_json).
  cbn [mbind option_bind].
  rewrite !(optional_enc as_str JStr) by done. cbn [mbind option_bind].
  rewrite (optional_enc (as_list as_str) (λ l, JArr (JStr <$> l)))
    by (done || apply as_str_list_json).
  done.
Qed.

Lemma as_cells_json (l : list Cell) :
  Forall wf_cell l →
  as_list Cell_parse_obj (JArr (JObj ∘ Cell_dict <$> l)) = Some (norm_cell <$> l).
Proof.
  intros Hwf. cbn [as_list]. apply mapM_Some. apply Forall2_fmap.
  apply Forall_Forall2_diag. eapply Forall_impl; [exact Hwf|].
  intros c Hc. by apply Cell_round_trip.
Qed.

Lemma Notebook_round_trip (nb : Notebook) :
  wf_notebook nb →
  Notebook_parse_obj (notebook_to_json nb) = Some (norm_notebook nb).
Proof.
  intros (Hcells & Hmeta & Hextra).
  assert (Hx : disjoint_keys Notebook_fields (exclude_none (notebook_extra nb)))
    by by apply disjoint_keys_exclude_none.
  assert (He : delete_keys Notebook_fields (Notebook_dict nb)
               = exclude_none (notebook_extra nb)).
  { apply delete_keys_eq; [|done]. intros k Hn. unfold Notebook_fields in Hn.
    field_keys Hn. unfold Notebook_dict. by dict_lookup. }
  unfold notebook_to_json, Notebook_parse_obj. cbn [as_dict mbind option_bind].
  rewrite He. unfold Notebook_dict. dict_lookup. unfold with_default.
  rewrite as_cells_json by done. cbn [mbind option_bind].
  rewrite NotebookMetadata_round_trip by done. done.
Qed.

Lemma Cell_parse_obj_wf j c : Cell_parse_obj j = Some c → wf_cell c.
Proof.
  unfold Cell_parse_obj. intros H. simplify_option_eq.
  match goal with d : dict |- _ => exact (delete_keys_disjoint Cell_fields d) end.
Qed.

Lemma NotebookMetadata_parse_obj_wf j m :
  NotebookMetadata_parse_obj j = Some m →
  disjoint_keys NotebookMetadata_fields (metadata_extra m).
Proof.
  unfold NotebookMetadata_parse_obj. intros H. simplify_option_eq.
  match goal with d : dict |- _ => exact (delete_keys_disjoint NotebookMetadata_fields d) end.
Qed.

Lemma Notebook_parse_obj_wf j nb : Notebook_parse_obj j = Some nb → wf_notebook nb.
Proof.
  unfold Notebook_parse_obj. intros H.
  destruct (as_dict j) as [d|]; [|done]. cbn [mbind option_bind] in H.
  destruct (with_default (as_list Cell_parse_obj) [] (d !! "cells")) as [cs|] eqn:Hcs; [|done].
  cbn [mbind option_bind] in H.
  destruct (with_default NotebookMetadata_parse_obj _ _) as [md|] eqn:Hmd; [|done].
  cbn [mbind option_bind] in H.
  destruct (with_default as_int 4 _) as [nf|]; [|done].
  cbn [mbind option_bind] in H.
  destruct (with_default as_int 5 _) as [nm|]; [|done].
  cbn [mbind option_bind] in H. injection H as <-. repeat split; cbn.
  - unfold with_default in Hcs. destruct (d !! "cells") as [jc|]; [|by inversion Hcs].
    destruct jc; try done. cbn in Hcs. apply mapM_Some in Hcs.
    clear -Hcs. induction Hcs; constructor; eauto using Cell_parse_obj_wf.
  - unfold with_default in Hmd. destruct (d !! "metadata") as [jm|].
    + by eapply NotebookMetadata_parse_obj_wf.
    + inversion Hmd. by apply Forall_true.
  - exact (delete_keys_disjoint Notebook_fields d).
Qed.

(** ** Swapping two cells *)

Section SwapItems.
Context {A : Type}.
Implicit Types l : list A.

Lemma swap_items_Ok i j l :
  (i < length l)%nat → (j < length l)%nat →
  ∃ a b, l !! i = Some a ∧ l !! j = Some b
         ∧ swap_items i j l = Ok (<[j := a]> (<[i := b]> l)).
Proof.
  intros Hi Hj. destruct (lookup_lt_is_Some_2 l i Hi) as [a Ha].
  destruct (lookup_lt_is_Some_2 l j Hj) as [b Hb].
  exists a, b. unfold swap_items. by rewrite Ha, Hb.
Qed.

Lemma swap_items_length i j l l' : swap_items i j l = Ok l' → length l' = length l.
Proof.
  unfold swap_items. destruct (l !! j), (l !! i); intros [= <-].
  by rewrite !length_insert.
Qed.

Lemma swap_items_involutive i j l l' :
  swap_items i j l = Ok l' → swap_items i j l' = Ok l.
Proof.
  unfold swap_items. destruct (l !! j) as [b|] eqn:Hb; [|done].
  destruct (l !! i) as [a|] eqn:Ha; [|done]. intros [= <-].
  pose proof (lookup_lt_Some _ _ _ Ha) as Hi.
  pose proof (lookup_lt_Some _ _ _ Hb) as Hj.
  rewrite list_lookup_insert_eq by (by rewrite length_insert).
  destruct (decide (i = j)) as [->|Hne].
  - rewrite list_lookup_insert_eq by (by rewrite length_insert).
    f_equal. rewrite !list_insert_insert_eq.
    assert (a = b) as -> by congruence. by apply list_insert_id.
  - rewrite list_lookup_insert_ne by done.
    rewrite list_lookup_insert_eq by done. f_equal.
    rewrite (list_insert_insert_ne _ i j) by done.
    rewrite !list_insert_insert_eq.
    rewrite (list_insert_id l i a) by done. by apply list_insert_id.
Qed.

Lemma swap_items_Forall (P : A → Prop) i j l l' :
  swap_items i j l = Ok l' → Forall P l → Forall P l'.
Proof.
  unfold swap_items. destruct (l !! j) as [b|] eqn:Hb; [|done].
  destruct (l !! i) as [a|] eqn:Ha; [|done]. intros [= <-] HP.
  rewrite Forall_lookup in HP.
  apply Forall_insert; [apply Forall_insert|]; rewrite ?Forall_lookup; eauto.
Qed.

End SwapItems.

Lemma swap_items_fmap {A B} (f : A → B) i j (l l' : list A) :
  swap_items i j l = Ok l' → swap_items i j (f <$> l) = Ok (f <$> l').
Proof.
  unfold swap_items. rewrite !list_lookup_fmap.
  destruct (l !! j) as [b|]; [|done]. destruct (l !! i) as [a|]; [|done].
  intros [= <-]. cbn. by rewrite !list_fmap_insert.
Qed.

Lemma index_check_false i n : 0 ≤ i < n → (i <? 0) || (i >=? n) = false.
Proof.
  intros H. apply orb_false_iff. split; [apply Z.ltb_ge; lia|].
  rewrite Z.geb_leb. apply Z.leb_gt. lia.
Qed.

Lemma index_check_true i n : ¬ (0 ≤ i < n) → (i <? 0) || (i >=? n) = true.
Proof.
  intros H. apply orb_true_iff. destruct (Z.ltb_spec i 0); [by left|right].
  rewrite Z.geb_leb. apply Z.leb_le. lia.
Qed.

Lemma list_truthy_length {A} (l : list A) : list_truthy l = true ↔ (0 < length l)%nat.
Proof. destruct l; simpl; split; (done || lia). Qed.

Lemma list_truthy_false {A} (l : list A) : list_truthy l = false ↔ l = [].
Proof. by destruct l. Qed.

Lemma to_nat_lt_length {A} i (l : list A) : 0 ≤ i < len l → (Z.to_nat i < length l)%nat.
Proof. unfold len. lia. Qed.

Lemma notebook_from_json_wf x nb : notebook_from_json x = Ok nb → wf_notebook nb.
Proof.
  unfold notebook_from_json, validated.
  destruct (Notebook_parse_obj x) eqn:H; [|done]. intros [= <-].
  by eapply Notebook_parse_obj_wf.
Qed.

Lemma notebook_from_json_to_json nb :
  wf_notebook nb → notebook_from_json (notebook_to_json nb) = Ok (norm_notebook nb).
Proof. intros H. unfold notebook_from_json. by rewrite Notebook_round_trip. Qed.

Lemma wf_with_cells cs nb :
  wf_notebook nb → Forall wf_cell cs → wf_notebook (with_cells cs nb).
Proof. intros (_ & ? & ?) ?. by repeat split. Qed.

Lemma norm_with_cells cs nb :
  norm_notebook (with_cells cs nb) = with_cells (norm_cell <$> cs) (norm_notebook nb).
Proof. done. Qed.

Lemma with_cells_cells nb : with_cells (cells nb) nb = nb.
Proof. by destruct nb. Qed.

Lemma with_cells_with_cells cs cs' nb : with_cells cs (with_cells cs' nb) = with_cells cs nb.
Proof. done. Qed.

Lemma swap_cells_body_Ok nb i j :
  0 ≤ i < len (cells nb) → 0 ≤ j < len (cells nb) →
  ∃ swapped, swap_items (Z.to_nat i) (Z.to_nat j) (cells nb) = Ok swapped
             ∧ swap_cells_body nb i j = Ok (with_cells swapped nb).
Proof.
  intros Hi Hj. unfold swap_cells_body.
  assert (list_truthy (cells nb) = true) as ->
    by (apply list_truthy_length; apply to_nat_lt_length in Hi; lia).
  cbn [negb]. rewrite <- orb_assoc.
  rewrite (index_check_false i), (index_check_false j) by done. cbn [orb].
  destruct (swap_items_Ok (Z.to_nat i) (Z.to_nat j) (cells nb))
    as (a & b & _ & _ & Hs); [by apply to_nat_lt_length..|].
  rewrite Hs. eauto.
Qed.

(** C8 (amended).  For every notebook document [x] that parses and every pair
    of valid indices, swapping twice with the same indices succeeds and gives
    the document obtained by parsing and serializing [x] twice: the cells are
    back in their order and only the normalization of the serializer remains.
    When [x] is already a fixed point of parse-then-serialize, the result is
    [x] itself. *)
Theorem swap_cells_twice x nb i j :
  notebook_from_json x = Ok nb →
  0 ≤ i < len (cells nb) → 0 ≤ j < len (cells nb) →
  ∃ y z, swap_cells x i j = Ok y
         ∧ swap_cells y i j = Ok z
         ∧ (let* once := round_trip x in round_trip once) = Ok z
         ∧ (round_trip x = Ok x → z = x).
Proof.
  intros Hx Hi Hj. pose proof (notebook_from_json_wf _ _ Hx) as Hwf.
  destruct (swap_cells_body_Ok nb i j Hi Hj) as (swapped & Hs & Hbody).
  assert (Hwf' : wf_notebook (with_cells swapped nb)).
  { apply wf_with_cells; [done|]. eapply swap_items_Forall; [done|]. apply Hwf. }
  assert (Hlen : length swapped = length (cells nb)) by by eapply swap_items_length.
  assert (Hrt : (let* once := round_trip x in round_trip once)
                = Ok (notebook_to_json (norm_notebook nb))).
  { unfold round_trip. rewrite Hx. cbn [bind].
    by rewrite notebook_from_json_to_json. }
  exists (notebook_to_json (with_cells swapped nb)), (notebook_to_json (norm_notebook nb)).
  split; [|split; [|split]].
  - unfold swap_cells. rewrite Hx. cbn [bind]. by rewrite Hbody.
  - unfold swap_cells. rewrite notebook_from_json_to_json by done. cbn [bind].
    rewrite norm_with_cells.
    destruct (swap_cells_body_Ok (with_cells (norm_cell <$> swapped) (norm_notebook nb)) i j)
      as (back & Hb & Hbody'); [cbn; unfold len in *; rewrite length_fmap; lia..|].
    rewrite Hbody'. cbn [bind try_wrap]. do 2 f_equal.
    cbn [cells with_cells] in Hb.
    rewrite (swap_items_fmap norm_cell _ _ swapped (cells nb)) in Hb
      by by apply swap_items_involutive.
    injection Hb as <-. done.
  - done.
  - intros Hfix. rewrite Hfix in Hrt. cbn [bind] in Hrt. rewrite Hfix in Hrt. congruence.
Qed.

(** ** Cells of a serialized notebook *)

Lemma json_cell_at_to_json nb i c :
  cells nb !! i = Some c → json_cell_at (notebook_to_json nb) i (Cell_dict c).
Proof.
  intros H. exists (Notebook_dict nb), (JObj ∘ Cell_dict <$> cells nb).
  split; [done|]. split; [unfold Notebook_dict; by dict_lookup|].
  by rewrite list_lookup_fmap, H.
Qed.

Lemma json_cell_count_to_json nb : json_cell_count (notebook_to_json nb) (length (cells nb)).
Proof.
  exists (Notebook_dict nb), (JObj ∘ Cell_dict <$> cells nb).
  split; [done|]. split; [unfold Notebook_dict; by dict_lookup|].
  by rewrite length_fmap.
Qed.

Lemma Cell_dict_cell_type c : Cell_dict c !! "cell_type" = Some (JStr (CellType_str (cell_type c))).
Proof. unfold Cell_dict. by dict_lookup. Qed.

Lemma Cell_dict_source c : Cell_dict c !! "source" = Some (Source_json (source c)).
Proof. unfold Cell_dict. by dict_lookup. Qed.

Lemma wf_cell_lookup c k : wf_cell c → k ∈ Cell_fields → exclude_none (cell_extra c) !! k = None.
Proof.
  intros Hwf Hk. apply exclude_none_lookup_None. by eapply disjoint_keys_lookup.
Qed.

Lemma Cell_dict_outputs c :
  wf_cell c → Cell_dict c !! "outputs" = outputs_json (outputs c).
Proof.
  intros Hwf. pose proof (wf_cell_lookup c "outputs" Hwf ltac:(set_solver)).
  unfold Cell_dict. by dict_lookup.
Qed.

Lemma Cell_dict_execution_count c :
  wf_cell c → Cell_dict c !! "execution_count" = JNum <$> execution_count c.
Proof.
  intros Hwf. pose proof (wf_cell_lookup c "execution_count" Hwf ltac:(set_solver)).
  unfold Cell_dict. by dict_lookup.
Qed.

Lemma wf_new_cell content t md : wf_cell (new_cell content t md).
Proof. destruct t; by apply Forall_true. Qed.

Lemma cell_type_of_str_code : cell_type_of_str "code" = Some code.
Proof. done. Qed.

Lemma alter_as_insert {A} (f : A → A) (l : list A) i a :
  l !! i = Some a → alter f i l = <[i := f a]> l.
Proof.
  revert i. induction l as [|x l IH]; intros [|i] H; try done.
  - by injection H as ->.
  - cbn. f_equal. by apply IH.
Qed.

Lemma edit_cell_body_Ok nb i content ty old :
  0 ≤ i < len (cells nb) →
  cells nb !! Z.to_nat i = Some old →
  (∀ t, ty = Some t → is_Some (cell_type_of_str t)) →
  ∃ new, edit_cell_body nb i content ty
           = Ok (with_cells (<[Z.to_nat i := new]> (cells nb)) nb)
         ∧ source new = SourceList (split_newline content)
         ∧ cell_metadata new = cell_metadata old
         ∧ cell_extra new = cell_extra old
         ∧ cell_type new = default (cell_type old) (ty ≫= cell_type_of_str)
         ∧ (if edit_resets ty
            then outputs new = Some [] ∧ execution_count new = None
            else outputs new = outputs old ∧ execution_count new = execution_count old).
Proof.
  intros Hi Hold Hty. unfold edit_cell_body. rewrite index_check_false by done.
  destruct ty as [t|]; cbn.
  - destruct (Hty t eq_refl) as [ct Hct]. unfold edit_resets. cbn. rewrite Hct. cbn.
    destruct (is_markdown_or_raw ct) eqn:Hmr.
    + eexists. split.
      { rewrite !list_alter_alter_eq. by erewrite alter_as_insert. }
      done.
    + eexists. split.
      { rewrite !list_alter_alter_eq. by erewrite alter_as_insert. }
      done.
  - eexists. split; [by erewrite alter_as_insert|done].
Qed.

(** ** Splitting on newlines *)

Lemma split_newline_cons s : ∃ piece pieces, split_newline s = piece :: pieces.
Proof.
  induction s as [|c s (p & ps & IH)]; cbn; [by eauto|].
  destruct (Ascii.eqb c newline); [by eauto|]. rewrite IH. eauto.
Qed.

Lemma join_empty_split_newline s : join_empty (split_newline s) = remove_newlines s.
Proof.
  induction s as [|c s IH]; cbn; [done|].
  destruct (Ascii.eqb c newline); [done|].
  destruct (split_newline_cons s) as (p & ps & Hs). rewrite Hs in IH |- *.
  by rewrite <- IH.
Qed.

Lemma join_with_newline_split s :
  join_with (String newline EmptyString) (split_newline s) = s.
Proof.
  induction s as [|c s IH]; cbn; [done|].
  destruct (split_newline_cons s) as (p & ps & Hs). rewrite Hs in IH |- *.
  destruct (Ascii.eqb c newline) eqn:Hc.
  - apply Ascii.eqb_eq in Hc as ->. by rewrite <- IH.
  - destruct ps as [|q ps]; by rewrite <- IH.
Qed.

Lemma split_newline_pieces s : Forall (λ piece, has_newline piece = false) (split_newline s).
Proof.
  induction s as [|c s IH]; cbn; [by repeat constructor|].
  destruct (Ascii.eqb c newline) eqn:Hc; [by constructor|].
  destruct (split_newline_cons s) as (p & ps & Hs). rewrite Hs in *.
  inversion IH; subst. constructor; [|done]. cbn. by rewrite Hc.
Qed.

Lemma remove_newlines_length s :
  (String.length (remove_newlines s) ≤ String.length s)%nat.
Proof. induction s as [|c s IH]; cbn; [done|]. destruct (Ascii.eqb c newline); cbn; lia. Qed.

Lemma remove_newlines_shorter s :
  has_newline s = true → (String.length (remove_newlines s) < String.length s)%nat.
Proof.
  induction s as [|c s IH]; cbn; [done|].
  pose proof (remove_newlines_length s).
  destruct (Ascii.eqb c newline); cbn; [lia|]. intros H'. apply IH in H'. lia.
Qed.

Lemma join_empty_split_newline_neq s :
  has_newline s = true → join_empty (split_newline s) ≠ s.
Proof.
  intros H Heq. rewrite join_empty_split_newline in Heq.
  apply remove_newlines_shorter in H. rewrite Heq in H. lia.
Qed.

(** ** Extracting code *)

Lemma sample_json_parses : notebook_from_json sample_json = Ok sample_notebook.
Proof. vm_compute. reflexivity. Qed.

Lemma extract_step_foldl acc cs :
  foldl extract_step acc cs = acc ++ code_texts cs.
Proof.
  revert acc. induction cs as [|c cs IH]; intros acc; cbn [foldl].
  - unfold code_texts. rewrite filter_nil. cbn. by rewrite app_nil_r.
  - rewrite IH. unfold extract_step, code_texts, is_code.
    rewrite filter_cons. destruct (cell_type c); cbn.
    + destruct (decide _); [|done]. cbn. by rewrite <- app_assoc.
    + by destruct (decide _).
    + by destruct (decide _).
Qed.

Lemma code_texts_norm cs : code_texts (norm_cell <$> cs) = code_texts cs.
Proof.
  unfold code_texts. induction cs as [|c cs IH]; [done|].
  cbn [fmap list_fmap]. rewrite !filter_cons.
  change (is_code (norm_cell c)) with (is_code c).
  destruct (decide (is_code c = true)); cbn; by rewrite <- IH.
Qed.

Lemma code_texts_app l1 l2 : code_texts (l1 ++ l2) = code_texts l1 ++ code_texts l2.
Proof. unfold code_texts. by rewrite filter_app, fmap_app. Qed.

Lemma extract_code_from_notebook_Ok x nb :
  notebook_from_json x = Ok nb →
  extract_code_from_notebook x = Ok (code_texts (cells nb)).
Proof.
  intros H. unfold extract_code_from_notebook. rewrite H. cbn.
  by rewrite extract_step_foldl.
Qed.

(** C9.  [extract_code_from_notebook] returns the joined source text of each
    code cell, in cell order; markdown and raw cells are left out, a notebook
    without code cells gives the empty list, and on cells
    [markdown, code("a=1"), code("b=2"), markdown] the result is exactly
    ["a=1", "b=2"]. *)
Theorem extract_code_ordered_code_sources x nb :
  notebook_from_json x = Ok nb →
  extract_code_from_notebook x = Ok (code_texts (cells nb))
  ∧ (Forall (λ c, cell_type c ≠ code) (cells nb) → extract_code_from_notebook x = Ok [])
  ∧ (∀ m1 a b m2,
       cells nb = [m1; a; b; m2] →
       cell_type m1 = markdown → cell_type m2 = markdown →
       cell_type a = code → source_text (source a) = "a=1" →
       cell_type b = code → source_text (source b) = "b=2" →
       extract_code_from_notebook x = Ok ["a=1"; "b=2"]).
Proof.
  intros Hx. rewrite (extract_code_from_notebook_Ok x nb Hx).
  split; [done|split].
  - intros Hall. f_equal. unfold code_texts.
    induction Hall as [|c cs Hc _ IH]; [done|]. rewrite filter_cons.
    destruct (decide _) as [Hcode|]; [|done].
    unfold is_code in Hcode. by destruct (cell_type c).
  - intros m1 a b m2 -> Hm1 Hm2 Ha Hta Hb Htb. f_equal.
    unfold code_texts, is_code. rewrite !filter_cons, filter_nil.
    rewrite Hm1, Hm2, Ha, Hb.
    repeat (destruct (decide _); try done). rewrite !fmap_cons.
    by rewrite Hta, Htb.
Qed.

(** C9, at the sample notebook. *)
Lemma extract_code_ordered_code_sources_witness :
  extract_code_from_notebook sample_json = Ok ["a=1"; "b=2"].
Proof.
  pose proof (extract_code_ordered_code_sources sample_json sample_notebook
                sample_json_parses) as (_ & _ & H).
  by eapply H.
Defined.

(** ** Editing a cell *)

Lemma wf_cells_lookup nb i c : wf_notebook nb → cells nb !! i = Some c → wf_cell c.
Proof. intros (H & _) Hc. rewrite Forall_lookup in H. eauto. Qed.

Lemma edit_cell_Ok x nb i content ty old :
  notebook_from_json x = Ok nb →
  0 ≤ i < len (cells nb) →
  cells nb !! Z.to_nat i = Some old →
  (∀ t, ty = Some t → is_Some (cell_type_of_str t)) →
  ∃ new, edit_cell x i content ty = Ok (notebook_to_json (with_cells (<[Z.to_nat i := new]> (cells nb)) nb))
         ∧ json_cell_at (notebook_to_json (with_cells (<[Z.to_nat i := new]> (cells nb)) nb))
             (Z.to_nat i) (Cell_dict new)
         ∧ wf_cell new
         ∧ source new = SourceList (split_newline content)
         ∧ (if edit_resets ty
            then outputs new = Some [] ∧ execution_count new = None
            else outputs new = outputs old ∧ execution_count new = execution_count old).
Proof.
  intros Hx Hi Hold Hty.
  destruct (edit_cell_body_Ok nb i content ty old Hi Hold Hty)
    as (new & Hbody & Hsrc & _ & Hextra & _ & Hreset).
  exists new. split; [|split; [|split; [|done]]].
  - unfold edit_cell. rewrite Hx. cbn [bind]. by rewrite Hbody.
  - apply json_cell_at_to_json. cbn [cells with_cells].
    apply list_lookup_insert_eq. by apply to_nat_lt_length.
  - unfold wf_cell. rewrite Hextra.
    by apply (wf_cells_lookup nb (Z.to_nat i)); [eapply notebook_from_json_wf|].
Qed.

(** C2 (amended).  [edit_cell] on a valid index clears the execution count of
    the edited cell (and empties its outputs) exactly when a new cell type is
    given and it is markdown or raw.  In every other case, also when the
    content changes, the serialized cell keeps the execution count and the
    outputs it had. *)
Theorem edit_cell_execution_count x nb i content ty old :
  notebook_from_json x = Ok nb →
  0 ≤ i < len (cells nb) →
  cells nb !! Z.to_nat i = Some old →
  (∀ t, ty = Some t → is_Some (cell_type_of_str t)) →
  ∃ y c, edit_cell x i content ty = Ok y
         ∧ json_cell_at y (Z.to_nat i) c
         ∧ (if edit_resets ty
            then c !! "execution_count" = None ∧ c !! "outputs" = Some (JArr [])
            else c !! "execution_count" = JNum <$> execution_count old
                 ∧ c !! "outputs" = outputs_json (outputs old)).
Proof.
  intros Hx Hi Hold Hty.
  destruct (edit_cell_Ok x nb i content ty old Hx Hi Hold Hty)
    as (new & Hy & Hat & Hwf & _ & Hreset).
  eexists _, _. split; [exact Hy|]. split; [exact Hat|].
  rewrite Cell_dict_execution_count, Cell_dict_outputs by done.
  destruct (edit_resets ty); destruct Hreset as [-> ->]; done.
Qed.

(** C2 (amended), at the sample notebook: cell 1 is edited and turned into a raw cell. *)
Lemma edit_cell_execution_count_witness :
  ∃ y c, edit_cell sample_json 1 "a=2" (Some "raw") = Ok y
         ∧ json_cell_at y 1 c
         ∧ c !! "execution_count" = None ∧ c !! "outputs" = Some (JArr []).
Proof.
  eapply (edit_cell_execution_count sample_json sample_notebook 1 "a=2" (Some "raw")).
  - exact sample_json_parses.
  - unfold len. cbn. lia.
  - reflexivity.
  - intros t [= <-]. by eexists.
Defined.

(** C2, counterexample.  Editing the content of a code cell that was run with
    count 7, without a new cell type, returns the new source together with
    the old execution count. *)
Lemma edit_cell_keeps_stale_execution_count :
  ∃ y c, edit_cell executed_json 0 "a=2" None = Ok y
         ∧ json_cell_at y 0 c
         ∧ c !! "source" = Some (JArr [JStr "a=2"])
         ∧ c !! "execution_count" = Some (JNum 7).
Proof.
  eexists _, _. split; [vm_compute; reflexivity|].
  split; [eexists _, _; split; [reflexivity|split; vm_compute; reflexivity]|].
  split; vm_compute; reflexivity.
Qed.

(** ** Creating and inserting cells *)

Lemma create_cell_Ok x nb content t ct md :
  notebook_from_json x = Ok nb →
  cell_type_of_str t = Some ct →
  create_cell x content t md
  = Ok (notebook_to_json (with_cells (cells nb ++ [new_cell content ct md]) nb)).
Proof.
  intros Hx Ht. unfold create_cell, create_cell_body. rewrite Hx. cbn [bind].
  by rewrite Ht.
Qed.

Lemma position_check_false p n : 0 ≤ p ≤ n → (p <? 0) || (p >? n) = false.
Proof.
  intros H. apply orb_false_iff. split; [apply Z.ltb_ge; lia|].
  rewrite Z.gtb_ltb. apply Z.ltb_ge. lia.
Qed.

Lemma position_check_true p n : ¬ (0 ≤ p ≤ n) → (p <? 0) || (p >? n) = true.
Proof.
  intros H. apply orb_true_iff. destruct (Z.ltb_spec p 0); [by left|right].
  rewrite Z.gtb_ltb. apply Z.ltb_lt. lia.
Qed.

Lemma insert_cell_Ok x nb position content t ct md :
  notebook_from_json x = Ok nb →
  cell_type_of_str t = Some ct →
  0 ≤ position ≤ len (cells nb) →
  insert_cell x position content t md
  = Ok (notebook_to_json
          (with_cells (list_insert_at (Z.to_nat position) (new_cell content ct md) (cells nb)) nb)).
Proof.
  intros Hx Ht Hp. unfold insert_cell, insert_cell_body. rewrite Hx. cbn [bind].
  rewrite Ht. by rewrite position_check_false.
Qed.

Lemma list_insert_at_lookup {A} p (x : A) l :
  (p ≤ length l)%nat → list_insert_at p x l !! p = Some x.
Proof.
  intros Hp. unfold list_insert_at. rewrite lookup_app_r; rewrite length_take; [|lia].
  by replace (p - p `min` length l)%nat with 0%nat by lia.
Qed.

Lemma list_insert_at_length {A} p (x : A) l :
  length (list_insert_at p x l) = S (length l).
Proof.
  unfold list_insert_at. rewrite length_app. cbn. rewrite length_take, length_drop. lia.
Qed.

Lemma new_cell_source content ct md :
  source (new_cell content ct md) = SourceList (split_newline content).
Proof. by destruct ct. Qed.

Lemma lookup_snoc {A} (l : list A) x : (l ++ [x]) !! length l = Some x.
Proof. rewrite lookup_app_r by lia. by rewrite Nat.sub_diag. Qed.

Lemma wf_snoc nb c : wf_notebook nb → wf_cell c → wf_notebook (with_cells (cells nb ++ [c]) nb).
Proof.
  intros Hwf Hc. apply wf_with_cells; [done|]. apply Forall_app. split; [apply Hwf|].
  by constructor.
Qed.

(** C6 (amended).  [create_cell] with cell type "code" appends one cell whose
    serialized form has [outputs == []] and no [execution_count] key: the
    count is [None] in the model, and the serializer leaves out [None]
    fields.  Parsing the result gives back a last cell with empty outputs and
    the execution count absent. *)
Theorem create_code_cell_defaults x nb content md :
  notebook_from_json x = Ok nb →
  ∃ y c, create_cell x content "code" md = Ok y
         ∧ json_cell_count y (S (length (cells nb)))
         ∧ json_cell_at y (length (cells nb)) c
         ∧ c !! "outputs" = Some (JArr [])
         ∧ c !! "execution_count" = None
         ∧ ∃ nb' c', notebook_from_json y = Ok nb'
                     ∧ last (cells nb') = Some c'
                     ∧ outputs c' = Some [] ∧ execution_count c' = None.
Proof.
  intros Hx. pose proof (notebook_from_json_wf _ _ Hx) as Hwf.
  set (c := new_cell content code md).
  eexists _, (Cell_dict c). split; [by apply (create_cell_Ok x nb content "code" code)|].
  split; [|split; [|split; [|split]]].
  - pose proof (json_cell_count_to_json (with_cells (cells nb ++ [c]) nb)) as H.
    cbn [cells with_cells] in H. rewrite length_app in H. cbn in H.
    by replace (length (cells nb) + 1)%nat with (S (length (cells nb))) in H by lia.
  - apply json_cell_at_to_json. apply lookup_snoc.
  - by rewrite Cell_dict_outputs by apply wf_new_cell.
  - by rewrite Cell_dict_execution_count by apply wf_new_cell.
  - eexists _, (norm_cell c). split.
    + apply notebook_from_json_to_json. apply wf_snoc; [done|apply wf_new_cell].
    + cbn [cells norm_notebook with_cells]. rewrite fmap_app. cbn [fmap list_fmap].
      by rewrite last_snoc.
Qed.

(** C6 (amended), at the sample notebook. *)
Lemma create_code_cell_defaults_witness :
  ∃ y c, create_cell sample_json "x=1" "code" None = Ok y
         ∧ json_cell_count y 5
         ∧ json_cell_at y 4 c
         ∧ c !! "outputs" = Some (JArr [])
         ∧ c !! "execution_count" = None
         ∧ ∃ nb' c', notebook_from_json y = Ok nb'
                     ∧ last (cells nb') = Some c'
                     ∧ outputs c' = Some [] ∧ execution_count c' = None.
Proof.
  exact (create_code_cell_defaults sample_json sample_notebook "x=1" None sample_json_parses).
Defined.

(** C6, counterexample.  The serialized code cell that [create_cell] appends
    to an empty notebook has [outputs == []] but its [execution_count] is not
    null: the key is missing. *)
Lemma create_cell_omits_execution_count :
  ∃ y c, create_cell empty_json "x=1" "code" None = Ok y
         ∧ json_cell_count y 1
         ∧ json_cell_at y 0 c
         ∧ c !! "outputs" = Some (JArr [])
         ∧ c !! "execution_count" ≠ Some JNull.
Proof.
  eexists _, _. split; [vm_compute; reflexivity|].
  split; [eexists _, _; split; [reflexivity|split; vm_compute; reflexivity]|].
  split; [eexists _, _; split; [reflexivity|split; vm_compute; reflexivity]|].
  split; [vm_compute; reflexivity|]. vm_compute. discriminate.
Qed.

(** C10.  For string content, [edit_cell], [create_cell] and [insert_cell]
    store [content.split('\n')] as the cell source: pieces without newline
    characters, whose join with a newline is the content and whose join with
    the empty separator is the content without its newlines, so that it
    differs from every content that has a line break; the empty string gives
    the one-element list.  [extract_code_from_notebook] reads a code cell
    created this way as the content with its line breaks deleted. *)
Theorem string_content_stored_as_split_lines x nb content :
  notebook_from_json x = Ok nb →
  (split_newline EmptyString = [EmptyString]
   ∧ Forall (λ piece, has_newline piece = false) (split_newline content)
   ∧ join_with (String newline EmptyString) (split_newline content) = content
   ∧ join_empty (split_newline content) = remove_newlines content
   ∧ (has_newline content = true → join_empty (split_newline content) ≠ content))
  ∧ (∀ i ty, 0 ≤ i < len (cells nb) →
       (∀ t, ty = Some t → is_Some (cell_type_of_str t)) →
       ∃ y c, edit_cell x i content ty = Ok y
              ∧ json_cell_at y (Z.to_nat i) c
              ∧ c !! "source" = Some (str_list_json (split_newline content)))
  ∧ (∀ t md, is_Some (cell_type_of_str t) →
       ∃ y c, create_cell x content t md = Ok y
              ∧ json_cell_at y (length (cells nb)) c
              ∧ c !! "source" = Some (str_list_json (split_newline content)))
  ∧ (∀ position t md, is_Some (cell_type_of_str t) →
       0 ≤ position ≤ len (cells nb) →
       ∃ y c, insert_cell x position content t md = Ok y
              ∧ json_cell_at y (Z.to_nat position) c
              ∧ c !! "source" = Some (str_list_json (split_newline content)))
  ∧ (∀ md, ∃ y before,
       create_cell x content "code" md = Ok y
       ∧ extract_code_from_notebook x = Ok before
       ∧ extract_code_from_notebook y = Ok (before ++ [remove_newlines content])).
Proof.
  intros Hx. pose proof (notebook_from_json_wf _ _ Hx) as Hwf.
  split; [|split; [|split; [|split]]].
  - split; [done|]. split; [apply split_newline_pieces|].
    split; [apply join_with_newline_split|].
    split; [apply join_empty_split_newline|apply join_empty_split_newline_neq].
  - intros i ty Hi Hty.
    destruct (lookup_lt_is_Some_2 (cells nb) (Z.to_nat i)) as [old Hold];
      [by apply to_nat_lt_length|].
    destruct (edit_cell_Ok x nb i content ty old Hx Hi Hold Hty)
      as (new & Hy & Hat & _ & Hsrc & _).
    eexists _, _. split; [exact Hy|]. split; [exact Hat|].
    by rewrite Cell_dict_source, Hsrc.
  - intros t md [ct Hct]. eexists _, _.
    split; [by apply (create_cell_Ok x nb content t ct)|].
    split; [apply json_cell_at_to_json; apply lookup_snoc|].
    by rewrite Cell_dict_source, new_cell_source.
  - intros position t md [ct Hct] Hp. eexists _, _.
    split; [by apply (insert_cell_Ok x nb position content t ct)|].
    split; [apply json_cell_at_to_json; apply list_insert_at_lookup; unfold len in Hp; lia|].
    by rewrite Cell_dict_source, new_cell_source.
  - intros md. eexists _, _.
    split; [by apply (create_cell_Ok x nb content "code" code)|].
    split; [by apply extract_code_from_notebook_Ok|].
    erewrite extract_code_from_notebook_Ok;
      [|apply notebook_from_json_to_json, wf_snoc; [done|apply wf_new_cell]].
    cbn [cells norm_notebook with_cells]. rewrite code_texts_norm, code_texts_app.
    do 2 f_equal.
    change (code_texts [new_cell content code md]) with [join_empty (split_newline content)].
    by rewrite join_empty_split_newline.
Qed.

(** C10, at the sample notebook: cell 2 receives the two-line content "b\nc". *)
Lemma string_content_stored_as_split_lines_witness :
  ∃ y c, edit_cell sample_json 2 (String "b" (String newline "c")) None = Ok y
         ∧ json_cell_at y 2 c
         ∧ c !! "source" = Some (JArr [JStr "b"; JStr "c"]).
Proof.
  pose proof (string_content_stored_as_split_lines sample_json sample_notebook
                (String "b" (String newline "c")) sample_json_parses)
    as (_ & Hedit & _).
  apply (Hedit 2 None); [unfold len; cbn; lia|done].
Defined.

(** ** Index validation *)

Lemma edit_cell_out_of_range x nb i content ty :
  notebook_from_json x = Ok nb → ¬ (0 ≤ i < len (cells nb)) →
  edit_cell x i content ty
  = Err (Wrapped OpEditCell (CellIndexOutOfRange i (length (cells nb)))).
Proof.
  intros Hx Hi. unfold edit_cell, edit_cell_body. rewrite Hx. cbn [bind].
  by rewrite index_check_true.
Qed.

Lemma insert_cell_out_of_range x nb p content t md :
  notebook_from_json x = Ok nb → ¬ (0 ≤ p ≤ len (cells nb)) →
  is_Some (cell_type_of_str t) →
  insert_cell x p content t md
  = Err (Wrapped OpInsertCell (PositionOutOfRange p (length (cells nb)))).
Proof.
  intros Hx Hp [ct Hct]. unfold insert_cell, insert_cell_body. rewrite Hx. cbn [bind].
  rewrite Hct. by rewrite position_check_true.
Qed.

Lemma insert_cell_invalid_type x nb p content t md :
  notebook_from_json x = Ok nb → cell_type_of_str t = None →
  insert_cell x p content t md = Err (Wrapped OpInsertCell (InvalidCellType t)).
Proof.
  intros Hx Ht. unfold insert_cell, insert_cell_body. rewrite Hx. cbn [bind].
  by rewrite Ht.
Qed.

Lemma merge_cells_out_of_range x nb s e :
  notebook_from_json x = Ok nb →
  ¬ (0 ≤ s < len (cells nb)) ∨ ¬ (0 ≤ e < len (cells nb)) →
  merge_cells x s e
  = Err (Wrapped OpMergeCells
           (if list_truthy (cells nb) then
              if (s <? 0) || (s >=? len (cells nb))
              then StartIndexOutOfRange s (length (cells nb))
              else EndIndexInvalid e s (length (cells nb))
            else NoCellsToMerge)).
Proof.
  intros Hx Hse. unfold merge_cells, merge_cells_body. rewrite Hx. cbn [bind].
  destruct (list_truthy (cells nb)); cbn [negb]; [|done].
  destruct ((s <? 0) || (s >=? len (cells nb))) eqn:Hs; [done|].
  apply orb_false_iff in Hs as [Hs1 Hs2]. apply Z.ltb_ge in Hs1.
  rewrite Z.geb_leb in Hs2. apply Z.leb_gt in Hs2.
  assert (¬ (0 ≤ e < len (cells nb))) as He by (destruct Hse; [lia|done]).
  assert ((e <? s) || (e >=? len (cells nb)) = true) as ->; [|done].
  apply orb_true_iff. destruct (Z.ltb_spec e s); [by left|right].
  rewrite Z.geb_leb. apply Z.leb_le. lia.
Qed.

Lemma swap_cells_out_of_range x nb i j :
  notebook_from_json x = Ok nb →
  ¬ (0 ≤ i < len (cells nb)) ∨ ¬ (0 ≤ j < len (cells nb)) →
  swap_cells x i j
  = Err (Wrapped OpSwapCells
           (if list_truthy (cells nb) then SwapIndicesOutOfRange (length (cells nb))
            else NoCellsToSwap)).
Proof.
  intros Hx Hij. unfold swap_cells, swap_cells_body. rewrite Hx. cbn [bind].
  destruct (list_truthy (cells nb)); cbn [negb]; [|done].
  rewrite <- orb_assoc.
  assert ((i <? 0) || (i >=? len (cells nb))
          || ((j <? 0) || (j >=? len (cells nb))) = true) as ->; [|done].
  apply orb_true_iff. destruct Hij; [left|right]; by apply index_check_true.
Qed.

(** C4 (amended).  On a notebook that parses, [edit_cell], [merge_cells] and
    [swap_cells] fail with a range error for every index outside
    [0, cell_count), and [insert_cell] does so for every position outside
    [0, cell_count] when its cell type is valid; with an invalid cell type
    [insert_cell] fails with the invalid-cell-type error, which it checks
    first.  In each case an error is returned and no notebook. *)
Theorem index_validation x nb :
  notebook_from_json x = Ok nb →
  (∀ i content ty,
      ¬ (0 ≤ i < len (cells nb)) → rejects_index (edit_cell x i content ty))
  ∧ (∀ p content t md,
      ¬ (0 ≤ p ≤ len (cells nb)) →
      if cell_type_of_str t is Some _
      then rejects_index (insert_cell x p content t md)
      else insert_cell x p content t md = Err (Wrapped OpInsertCell (InvalidCellType t)))
  ∧ (∀ s e,
      ¬ (0 ≤ s < len (cells nb)) ∨ ¬ (0 ≤ e < len (cells nb)) →
      rejects_index (merge_cells x s e))
  ∧ (∀ i j,
      ¬ (0 ≤ i < len (cells nb)) ∨ ¬ (0 ≤ j < len (cells nb)) →
      rejects_index (swap_cells x i j)).
Proof.
  intros Hx. split; [|split; [|split]].
  - intros i content ty Hi. eexists _, _.
    split; [by apply edit_cell_out_of_range|done].
  - intros p content t md Hp. destruct (cell_type_of_str t) as [ct|] eqn:Ht.
    + eexists _, _. split; [apply insert_cell_out_of_range; [done..|by rewrite Ht]|done].
    + by apply (insert_cell_invalid_type x nb).
  - intros s e Hse. eexists _, _. split; [by apply merge_cells_out_of_range|].
    destruct (list_truthy _); [|done]. by destruct (_ || _).
  - intros i j Hij. eexists _, _. split; [by apply swap_cells_out_of_range|].
    by destruct (list_truthy _).
Qed.

(** C4 (amended), at the sample notebook, which has four cells. *)
Lemma index_validation_witness :
  rejects_index (edit_cell sample_json 4 "x" None)
  ∧ rejects_index (insert_cell sample_json 5 "x" "code" None)
  ∧ rejects_index (merge_cells sample_json (-1) 2)
  ∧ rejects_index (swap_cells sample_json 0 4).
Proof.
  pose proof (index_validation sample_json sample_notebook sample_json_parses)
    as (Hedit & Hinsert & Hmerge & Hswap).
  split; [apply Hedit; unfold len; cbn; lia|].
  split; [apply (Hinsert 5 "x" "code" None); unfold len; cbn; lia|].
  split; [apply Hmerge; left; lia|].
  apply Hswap. right. unfold len. cbn. lia.
Defined.

(** C4, counterexample.  [insert_cell] at position -1 with the cell type
    "chart" fails with the invalid-cell-type error, not with a range error. *)
Lemma insert_cell_reports_cell_type_first :
  insert_cell sample_json (-1) "x" "chart" None
  = Err (Wrapped OpInsertCell (InvalidCellType "chart"))
  ∧ ¬ rejects_index (insert_cell sample_json (-1) "x" "chart" None).
Proof.
  assert (H : insert_cell sample_json (-1) "x" "chart" None
              = Err (Wrapped OpInsertCell (InvalidCellType "chart")))
    by (vm_compute; reflexivity).
  split; [exact H|]. rewrite H. intros (op & e & [= <- <-] & He). discriminate.
Qed.

(** ** Format conversion *)

Lemma select_exporter_None fmt :
  lower fmt ∉ supported_formats → select_exporter fmt = None.
Proof.
  intros H. unfold select_exporter, supported_formats in *.
  repeat (apply not_elem_of_cons in H as [? H]).
  repeat match goal with
         | Hne : ?a ≠ ?b |- context [String.eqb ?a ?b] =>
             rewrite (proj2 (String.eqb_neq a b) Hne)
         end.
  done.
Qed.

Section ConversionFacts.
Variable from_notebook_node : Exporter → bool → bool → json → result string.
Variable writable : string → bool.

(** C7 (amended).  For every notebook that parses and every format string
    whose lower-case form is not one of python, html, markdown, rst, latex,
    pdf, slides, [convert_notebook_to_format] fails with the
    unsupported-format error, and [convert_notebook_to_executable] fails with
    it too and leaves the file system as it was. *)
Theorem unsupported_format_fails_without_writing x nb fmt :
  notebook_from_json x = Ok nb →
  lower fmt ∉ supported_formats →
  (∀ exclude_input exclude_output,
     convert_notebook_to_format from_notebook_node x fmt exclude_input exclude_output
     = Err (Wrapped OpConvertFormat (UnsupportedFormat fmt)))
  ∧ (∀ output_path fs,
     convert_notebook_to_executable from_notebook_node writable x fmt output_path fs
     = (Err (Wrapped OpConvertExecutable (Wrapped OpConvertFormat (UnsupportedFormat fmt))),
        fs)).
Proof.
  intros Hx Hfmt.
  assert (Hc : ∀ ei eo, convert_notebook_to_format from_notebook_node x fmt ei eo
                        = Err (Wrapped OpConvertFormat (UnsupportedFormat fmt))).
  { intros ei eo. unfold convert_notebook_to_format. rewrite Hx. cbn [bind].
    by rewrite select_exporter_None. }
  split; [exact Hc|]. intros output_path fs.
  unfold convert_notebook_to_executable. by rewrite Hc.
Qed.

End ConversionFacts.

(** C7 (amended), at the sample notebook and the format "docx". *)
Lemma unsupported_format_fails_without_writing_witness :
  convert_notebook_to_executable naming_exporter (λ _, true) sample_json "docx"
    (Some "out.py") ∅
  = (Err (Wrapped OpConvertExecutable (Wrapped OpConvertFormat (UnsupportedFormat "docx"))),
     ∅).
Proof.
  apply (unsupported_format_fails_without_writing naming_exporter (λ _, true)
           sample_json sample_notebook "docx").
  - exact sample_json_parses.
  - unfold supported_formats. intros H.
    repeat (apply elem_of_cons in H as [H|H]; [vm_compute in H; discriminate|]).
    by apply elem_of_nil in H.
Defined.

(** C7, counterexample.  "HTML" is not in the list of formats, yet the
    comparison is made on the lower-case form: the notebook is rendered by the
    HTML exporter and the text is written to the output path. *)
Lemma upper_case_format_is_converted :
  ("HTML" ∉ supported_formats)
  ∧ convert_notebook_to_format naming_exporter sample_json "HTML" false false = Ok "html"
  ∧ convert_notebook_to_executable naming_exporter (λ _, true) sample_json "HTML"
      (Some "out.html") ∅
    = (Ok "html", <["out.html" := "html"]> ∅).
Proof.
  split; [|split; vm_compute; reflexivity].
  unfold supported_formats. intros H.
  repeat (apply elem_of_cons in H as [H|H]; [discriminate|]).
  by apply elem_of_nil in H.
Qed.

(** ** Scanning for headers *)

Lemma append_cons c (a b : string) : String c a +:+ b = String c (a +:+ b).
Proof. reflexivity. Qed.

Lemma append_nil_l (a : string) : EmptyString +:+ a = a.
Proof. reflexivity. Qed.


Lemma append_nil_r (a : string) : a +:+ EmptyString = a.
Proof. induction a as [|x a IH]; [done|]. rewrite append_cons. by rewrite IH. Qed.

Lemma length_append (a b : string) :
  String.length (a +:+ b) = (String.length a + String.length b)%nat.
Proof. induction a as [|x a IH]; [done|]. rewrite append_cons. cbn. by rewrite IH. Qed.

Lemma drop_chars_append (a b : string) : drop_chars (String.length a) (a +:+ b) = b.
Proof. induction a as [|x a IH]; [done|]. rewrite append_cons. exact IH. Qed.

Lemma rest_of_line_prefix s : ∃ rest, s = rest_of_line s +:+ rest.
Proof.
  induction s as [|d s [r IH]]; cbn; [by exists EmptyString|].
  destruct (Ascii.eqb d newline); [by eexists|]. exists r.
  rewrite append_cons. by rewrite <- IH.
Qed.

Lemma header_tail_prefix s h :
  header_tail s = Some h → ∃ rest, s = h +:+ rest ∧ hashes_then_space h = true.
Proof.
  revert h. induction s as [|c s IH]; intros h; cbn; [done|].
  destruct (Ascii.eqb c hash) eqn:Hc.
  - destruct (header_tail s) as [h'|]; [|done]. intros [= <-].
    destruct (IH h' eq_refl) as (rest & -> & Hh). exists rest. cbn. by rewrite Hc.
  - destruct (py_isspace c) eqn:Hsp; [|done]. intros [= <-]. cbn. rewrite Hc, Hsp.
    destruct (rest_of_line_prefix s) as [rest Hr].
    exists rest. rewrite append_cons. by rewrite <- Hr.
Qed.

Lemma header_at_prefix s h :
  header_at s = Some h →
  ∃ c h' rest, h = String c h' ∧ s = h +:+ rest ∧ match_header_prefix h = true.
Proof.
  destruct s as [|c s]; cbn; [done|].
  destruct (Ascii.eqb c hash) eqn:Hc; [|done].
  destruct (header_tail s) as [h'|] eqn:Ht; [|done]. intros [= <-].
  destruct (header_tail_prefix s h' Ht) as (rest & -> & Hh).
  exists c, h', rest. cbn. by rewrite Hc.
Qed.

(** Skipping the rest of a header that was matched. *)
Lemma scan_headers_skip u s bol :
  ∃ bol', scan_headers (u +:+ s) bol (String.length u) = scan_headers s bol' 0.
Proof.
  revert bol. induction u as [|c u IH]; intros bol; [by exists bol|].
  rewrite append_cons. cbn. apply IH.
Qed.

Lemma scan_headers_flatten s bol skip :
  flatten_sections (scan_headers s bol skip) = drop_chars skip s.
Proof.
  revert bol skip. induction s as [|c s IH]; intros bol skip; [by destruct skip|].
  cbn [scan_headers]. destruct skip as [|k]; [|by rewrite IH].
  destruct (if bol then header_at (String c s) else None) as [h|] eqn:Hh.
  - destruct bol; [|done].
    destruct (header_at_prefix _ _ Hh) as (c' & h' & rest & -> & Hs & _).
    rewrite append_cons in Hs. injection Hs as <- ->.
    unfold flatten_sections. cbn [fst snd foldr]. 
    change (String.length (String c h') - 1)%nat with (String.length h' - 0)%nat.
    rewrite Nat.sub_0_r.
    specialize (IH (Ascii.eqb c newline) (String.length h')).
    rewrite drop_chars_append in IH. unfold flatten_sections in IH.
    rewrite append_nil_l, append_cons. cbn [drop_chars]. by rewrite IH.
  - unfold flatten_sections. cbn [fst snd]. rewrite append_cons.
    specialize (IH (Ascii.eqb c newline) 0%nat). unfold flatten_sections in IH.
    cbn [drop_chars] in *. by rewrite IH.
Qed.

Lemma scan_headers_headers s bol skip :
  Forall (λ hc : string * string, match_header_prefix hc.1 = true)
    (scan_headers s bol skip).2.
Proof.
  revert bol skip. induction s as [|c s IH]; intros bol skip; [by constructor|].
  cbn [scan_headers]. destruct skip as [|k]; [|apply IH].
  destruct (if bol then header_at (String c s) else None) as [h|] eqn:Hh; [|apply IH].
  destruct bol; [|done]. cbn [snd]. constructor; [|apply IH].
  by destruct (header_at_prefix _ _ Hh) as (? & ? & ? & _ & _ & ?).
Qed.

Lemma hashes_then_space_app s t :
  hashes_then_space s = true → hashes_then_space (s +:+ t) = true.
Proof.
  induction s as [|c s IH]; [done|]. rewrite append_cons. cbn.
  destruct (Ascii.eqb c hash); auto.
Qed.

Lemma match_header_prefix_app s t :
  match_header_prefix s = true → match_header_prefix (s +:+ t) = true.
Proof.
  destruct s as [|c s]; [done|]. rewrite append_cons. cbn.
  intros [-> H]%andb_true_iff. cbn. by apply hashes_then_space_app.
Qed.

Lemma hashes_then_space_header_tail s :
  hashes_then_space s = true → is_Some (header_tail s).
Proof.
  induction s as [|c s IH]; [done|]. cbn. destruct (Ascii.eqb c hash).
  - intros H. destruct (IH H) as [h ->]. by eexists.
  - intros ->. by eexists.
Qed.

Lemma match_header_prefix_header_at s :
  match_header_prefix s = true → is_Some (header_at s).
Proof.
  destruct s as [|c s]; [done|]. cbn. intros [-> H]%andb_true_iff.
  destruct (hashes_then_space_header_tail s H) as [h ->]. by eexists.
Qed.

(** The text before the first header does not itself start like a header. *)
Lemma scan_headers_leading s :
  match_header_prefix (scan_headers s true 0).1 = false.
Proof.
  destruct (match_header_prefix _) eqn:Hm; [exfalso|done].
  pose proof (scan_headers_flatten s true 0) as Hf. cbn [drop_chars] in Hf.
  unfold flatten_sections in Hf.
  apply (match_header_prefix_app _ (foldr (λ hc acc, hc.1 +:+ hc.2 +:+ acc) EmptyString
                                     (scan_headers s true 0).2)) in Hm as Hs.
  rewrite Hf in Hs. apply match_header_prefix_header_at in Hs as [h Hh].
  destruct s as [|c s]; [done|]. cbn [scan_headers] in Hm. rewrite Hh in Hm. done.
Qed.

Lemma cells_of_contents_sections secs :
  Forall (λ hc : string * string, match_header_prefix hc.1 = true) secs →
  cells_of_contents (flat_map (λ hc : string * string, [hc.1; hc.2]) secs)
  = section_cell <$> secs.
Proof.
  induction 1 as [|[h c] secs Hh _ IH]; [done|].
  cbn [flat_map app fst snd cells_of_contents] in *. rewrite Hh. by rewrite IH.
Qed.

Lemma cells_of_contents_leading x rest :
  match_header_prefix x = false →
  cells_of_contents (x :: rest) = markdown_cell x :: cells_of_contents rest.
Proof. intros H. destruct rest; cbn [cells_of_contents]; [done|]. by rewrite H. Qed.

Lemma markdown_cells_sections text :
  markdown_cells text = cells_of_sections text (scan_headers text true 0).
Proof.
  unfold markdown_cells, re_split_headers, cells_of_sections.
  pose proof (scan_headers_headers text true 0) as Hh.
  pose proof (scan_headers_leading text) as Hl.
  pose proof (scan_headers_flatten text true 0) as Hf.
  unfold flatten_sections in Hf. cbn [drop_chars] in Hf.
  destruct (scan_headers text true 0) as [pre secs]. cbn [fst snd] in *.
  destruct secs as [|[h c] secs].
  - cbn [flat_map foldr] in *. rewrite append_nil_r in Hf. subst pre.
    by destruct (is_blank text).
  - destruct (is_blank pre).
    + rewrite cells_of_contents_sections by done. done.
    + rewrite cells_of_contents_leading by done.
      by rewrite cells_of_contents_sections.
Qed.

(** ** Header lines and the scan *)

Lemma newline_not_hash : Ascii.eqb newline hash = false.
Proof. done. Qed.

Lemma hash_not_space : py_isspace hash = false.
Proof. done. Qed.

Lemma rest_of_line_line l t :
  has_newline l = false → line_end t → rest_of_line (l +:+ t) = l.
Proof.
  intros Hl Ht. induction l as [|c l IH].
  - by destruct Ht as [->|[t' ->]].
  - rewrite append_cons. cbn in *. apply orb_false_iff in Hl as [-> Hl].
    by rewrite IH.
Qed.

Lemma header_tail_line l t :
  has_newline l = false → line_end t → hashes_then_space l = true →
  header_tail (l +:+ t) = Some l.
Proof.
  intros Hl Ht. induction l as [|c l IH]; [done|].
  rewrite append_cons. cbn in *. apply orb_false_iff in Hl as [Hc Hl].
  destruct (Ascii.eqb c hash).
  - intros H. by rewrite IH.
  - intros ->. by rewrite rest_of_line_line.
Qed.

Lemma header_tail_no_header l t :
  line_end t → hashes_then_space l = false → all_hashes l = false →
  header_tail (l +:+ t) = None.
Proof.
  intros Ht. induction l as [|c l IH]; [done|].
  rewrite append_cons. cbn. destruct (Ascii.eqb c hash); cbn.
  - intros H1 H2. by rewrite IH.
  - by intros ->.
Qed.

Lemma header_tail_end l : hashes_then_space l = false → header_tail l = None.
Proof.
  induction l as [|c l IH]; [done|]. cbn. destruct (Ascii.eqb c hash).
  - intros H. by rewrite IH.
  - by intros ->.
Qed.

Lemma header_at_line l t :
  has_newline l = false → line_end t → header_line l = true →
  header_at (l +:+ t) = Some l.
Proof.
  intros Hl Ht. destruct l as [|c l]; [done|]. rewrite append_cons. cbn in *.
  apply orb_false_iff in Hl as [Hc Hl]. intros [-> H]%andb_true_iff.
  by rewrite header_tail_line.
Qed.

Lemma header_at_no_header l t :
  line_end t → header_line l = false → only_hashes l = false →
  header_at (l +:+ t) = None.
Proof.
  intros Ht. destruct l as [|c l].
  - intros _ _. by destruct Ht as [->|[t' ->]].
  - rewrite append_cons. cbn. destruct (Ascii.eqb c hash); cbn; [|done].
    intros H1 H2. by rewrite header_tail_no_header.
Qed.

Lemma header_at_end l : header_line l = false → header_at l = None.
Proof.
  destruct l as [|c l]; [done|]. cbn. destruct (Ascii.eqb c hash); cbn; [|done].
  intros H. by rewrite header_tail_end.
Qed.

(** Scanning over text that is not in a header, up to the end of its line. *)
Lemma scan_headers_text l t bol :
  has_newline l = false →
  (bol = true → header_at (l +:+ t) = None) →
  scan_headers (l +:+ t) bol 0
  = let r := scan_headers t (match l with EmptyString => bol | _ => false end) 0 in
    (l +:+ r.1, r.2).
Proof.
  revert bol. induction l as [|c l IH]; intros bol Hl Hh.
  - rewrite !append_nil_l. by destruct (scan_headers t bol 0).
  - rewrite append_cons in *. cbn in Hl. apply orb_false_iff in Hl as [Hc Hl].
    cbn [scan_headers].
    assert ((if bol then header_at (String c (l +:+ t)) else None) = None) as ->
      by (destruct bol; auto).
    rewrite Hc. rewrite IH by done. cbn [fst snd]. rewrite append_cons.
    by destruct l.
Qed.

Lemma scan_headers_newline t bol :
  scan_headers (String newline t) bol 0
  = let r := scan_headers t true 0 in (String newline r.1, r.2).
Proof.
  cbn [scan_headers]. rewrite Ascii.eqb_refl.
  assert ((if bol then header_at (String newline t) else None) = None) as ->; [|done].
  by destruct bol.
Qed.

Lemma scan_headers_line_end t bol :
  line_end t →
  scan_headers t bol 0
  = match t with
    | EmptyString => (EmptyString, [])
    | String _ t' => let r := scan_headers t' true 0 in (String newline r.1, r.2)
    end.
Proof. intros [->|[t' ->]]; [done|]. apply scan_headers_newline. Qed.

Lemma scan_headers_header_line l t :
  has_newline l = false → line_end t → header_line l = true →
  scan_headers (l +:+ t) true 0
  = let r := match t with
             | EmptyString => (EmptyString, [])
             | String _ t' => let r' := scan_headers t' true 0 in (String newline r'.1, r'.2)
             end in
    (EmptyString, (l, r.1) :: r.2).
Proof.
  intros Hl Ht Hh. pose proof (header_at_line l t Hl Ht Hh) as Hat.
  destruct l as [|c l]; [done|]. rewrite append_cons in *.
  cbn [scan_headers]. rewrite Hat.
  change (String.length (String c l) - 1)%nat with (String.length l - 0)%nat.
  rewrite Nat.sub_0_r.
  destruct (scan_headers_skip l t (Ascii.eqb c newline)) as [bol' ->].
  by rewrite (scan_headers_line_end t bol' Ht).
Qed.

Lemma scan_headers_plain_line l t :
  has_newline l = false → line_end t → header_line l = false →
  (t ≠ EmptyString → only_hashes l = false) →
  scan_headers (l +:+ t) true 0
  = let r := match t with
             | EmptyString => (EmptyString, [])
             | String _ t' => let r' := scan_headers t' true 0 in (String newline r'.1, r'.2)
             end in
    (l +:+ r.1, r.2).
Proof.
  intros Hl Ht Hh Ho.
  assert (Hat : header_at (l +:+ t) = None).
  { destruct Ht as [->|[t' ->]].
    - rewrite append_nil_r. by apply header_at_end.
    - apply header_at_no_header; [by right; eexists|done|by apply Ho]. }
  rewrite scan_headers_text by done. cbn zeta.
  by rewrite (scan_headers_line_end t _ Ht).
Qed.

Lemma join_with_cons sep l1 l2 ls :
  join_with sep (l1 :: l2 :: ls) = l1 +:+ sep +:+ join_with sep (l2 :: ls).
Proof. done. Qed.

Lemma line_sections_cons l l2 rest :
  line_sections (l :: l2 :: rest)
  = let r := line_sections (l2 :: rest) in
    if header_line l then (EmptyString, (l, String newline r.1) :: r.2)
    else (l +:+ String newline r.1, r.2).
Proof. done. Qed.

Lemma scan_headers_lines lines :
  Forall (λ line, has_newline line = false) lines →
  no_bare_hashes lines = true →
  scan_headers (join_with (String newline EmptyString) lines) true 0 = line_sections lines.
Proof.
  induction 1 as [|l rest Hl Hrest IH]; [done|]. intros Hb.
  destruct rest as [|l2 rest].
  - cbn [join_with line_sections]. rewrite <- (append_nil_r l) at 1.
    destruct (header_line l) eqn:Hh.
    + by rewrite scan_headers_header_line by (done || by left).
    + rewrite scan_headers_plain_line by (done || by left). cbn.
      by rewrite append_nil_r.
  - rewrite join_with_cons. cbn [no_bare_hashes] in Hb.
    apply andb_true_iff in Hb as [Ho Hb]. apply negb_true_iff in Ho.
    specialize (IH Hb). rewrite append_cons, append_nil_l.
    rewrite line_sections_cons, <- IH.
    destruct (header_line l) eqn:Hh.
    + by rewrite scan_headers_header_line by (done || by right; eexists).
    + by rewrite scan_headers_plain_line by (done || by right; eexists).
Qed.

Lemma scan_headers_line_sections text :
  no_bare_hashes (split_newline text) = true →
  scan_headers text true 0 = line_sections (split_newline text).
Proof.
  intros H. rewrite <- (join_with_newline_split text) at 1.
  apply scan_headers_lines; [apply split_newline_pieces|done].
Qed.

(** ** Markdown import *)

Lemma notebook_from_markdown_cells text :
  cells_of_result (notebook_from_markdown text) = Some (markdown_cells text).
Proof. done. Qed.

Lemma line_sections_headers lines :
  (line_sections lines).2.*1 = filter (λ line, header_line line = true) lines.
Proof.
  induction lines as [|l rest IH]; [done|]. rewrite filter_cons.
  destruct rest as [|l2 rest].
  - cbn [line_sections]. destruct (header_line l); by destruct (decide _).
  - rewrite line_sections_cons. cbn zeta.
    destruct (header_line l); destruct (decide _); try done; cbn [snd fmap list_fmap fst];
      by rewrite <- IH.
Qed.

(** C5 (amended).  When no line but the last consists of '#' characters
    only, [notebook_from_markdown] splits its input at the header lines
    (lines that begin with one or more '#' followed by a whitespace
    character): one markdown cell per header line, holding the header and the
    text up to the next header line, after one leading cell for the text
    before the first header line unless that text is blank (whitespace
    only); the pieces concatenate to the input; without a header line the
    whole input is one markdown cell; and "# Title\nBody\n## Sub\nMore" gives
    exactly two markdown cells, the first with "# Title" and "Body", the
    second with "## Sub" and "More".  The result is a function of the
    input alone. *)
Theorem markdown_split_on_header_lines text :
  no_bare_hashes (split_newline text) = true →
  let lines := split_newline text in
  let r := line_sections lines in
  cells_of_result (notebook_from_markdown text) = Some (cells_of_sections text r)
  ∧ r.2.*1 = filter (λ line, header_line line = true) lines
  ∧ flatten_sections r = text
  ∧ (Forall (λ line, header_line line = false) lines →
     cells_of_result (notebook_from_markdown text) = Some [markdown_cell text])
  ∧ cells_of_result (notebook_from_markdown two_sections)
    = Some [markdown_cell_of_lines ["# Title"; EmptyString; "Body"; EmptyString];
            markdown_cell_of_lines ["## Sub"; EmptyString; "More"]].
Proof.
  intros Hb lines r. pose proof (scan_headers_line_sections text Hb) as Hs.
  fold lines in Hs. fold r in Hs.
  assert (Hc : cells_of_result (notebook_from_markdown text)
               = Some (cells_of_sections text r)).
  { by rewrite notebook_from_markdown_cells, markdown_cells_sections, Hs. }
  pose proof (line_sections_headers lines) as Hh. fold r in Hh.
  split; [exact Hc|]. split; [exact Hh|]. split; [|split].
  - rewrite <- Hs. apply (scan_headers_flatten text true 0).
  - intros Hno. rewrite Hc. unfold cells_of_sections.
    assert (r.2 = []) as ->; [|done].
    apply fmap_nil_inv with (f := fst). rewrite Hh.
    clear -Hno. induction Hno as [|l ls Hl _ IH]; [done|].
    rewrite filter_cons. destruct (decide _); [congruence|done].
  - vm_compute. reflexivity.
Qed.

(** C5 (amended), at the text " \n# T". *)
Lemma markdown_split_on_header_lines_witness :
  cells_of_result (notebook_from_markdown blank_before_header)
  = Some [markdown_cell_of_lines ["# T"; EmptyString]].
Proof.
  pose proof (markdown_split_on_header_lines blank_before_header eq_refl) as (H & _).
  rewrite H. vm_compute. reflexivity.
Defined.

(** C5, counterexample.  The text " \n# T" has the non-empty content " \n"
    before its header and gets no leading cell.  The text "#\n# Real" has the
    header line "# Real", and gives one single cell that holds both lines. *)
Lemma markdown_leading_text_and_hash_only_line :
  (split_newline blank_before_header = [" "; "# T"]
   ∧ cells_of_result (notebook_from_markdown blank_before_header)
     = Some [markdown_cell_of_lines ["# T"; EmptyString]])
  ∧ (split_newline hash_only_first_line = ["#"; "# Real"]
     ∧ header_line "# Real" = true
     ∧ cells_of_result (notebook_from_markdown hash_only_first_line)
       = Some [markdown_cell_of_lines ["#"; "# Real"; EmptyString]]).
Proof. repeat split; vm_compute; reflexivity. Qed.

(** ** Swapping twice, round trip and merge at concrete notebooks *)

(** C8 (amended), at the sample notebook and the indices 1 and 3. *)
Lemma swap_cells_twice_witness :
  ∃ y z, swap_cells sample_json 1 3 = Ok y
         ∧ swap_cells y 1 3 = Ok z
         ∧ (let* once := round_trip sample_json in round_trip once) = Ok z
         ∧ (round_trip sample_json = Ok sample_json → z = sample_json).
Proof.
  apply (swap_cells_twice sample_json sample_notebook 1 3).
  - exact sample_json_parses.
  - unfold len. cbn. lia.
  - unfold len. cbn. lia.
Defined.

(** C8, counterexample.  In a notebook as Jupyter saves it, with
    ["execution_count": null] in a code cell that was not run, swapping cells 0
    and 1 twice returns a document without that key: it is not the
    original. *)
Lemma swap_cells_twice_drops_null_execution_count :
  ∃ y z, swap_cells unexecuted_json 0 1 = Ok y
         ∧ swap_cells y 0 1 = Ok z
         ∧ json_at [Key "cells"; Index 0; Key "execution_count"] unexecuted_json = Some JNull
         ∧ json_at [Key "cells"; Index 0; Key "execution_count"] z = None
         ∧ z ≠ unexecuted_json.
Proof.
  eexists _, _. split; [vm_compute; reflexivity|].
  split; [vm_compute; reflexivity|].
  split; [vm_compute; reflexivity|].
  split; [vm_compute; reflexivity|].
  intros H.
  apply (f_equal (json_at [Key "cells"; Index 0; Key "execution_count"])) in H.
  vm_compute in H. discriminate.
Qed.

(** C1, at a notebook whose stream output carries the undeclared key
    "custom".  Parsing and serializing keeps the undeclared keys at the top
    level, in the notebook metadata and in the cell, and the declared keys of
    the output; the undeclared key inside the output entry is gone. *)
Theorem round_trip_drops_unknown_output_keys :
  ∃ y, round_trip tagged_json = Ok y
       ∧ json_at [Key "generator"] y = Some (JStr "external tool")
       ∧ json_at [Key "metadata"; Key "toc"] y = Some (JBool true)
       ∧ json_at [Key "cells"; Index 0; Key "collapsed"] y = Some (JBool true)
       ∧ json_at [Key "cells"; Index 0; Key "outputs"; Index 0; Key "custom"] tagged_json
         = Some (JStr "kept?")
       ∧ json_at [Key "cells"; Index 0; Key "outputs"; Index 0; Key "custom"] y = None
       ∧ json_at [Key "cells"; Index 0; Key "outputs"; Index 0; Key "name"] y
         = Some (JStr "stdout").
Proof. eexists. repeat split; vm_compute; reflexivity. Qed.

(** C3, at two markdown cells whose first source is the empty string.
    [merge_cells] returns one markdown cell whose source has three elements,
    the empty string, "\n" and "b": a newline separates the empty source
    from "b", while the sources joined with a newline between the non-empty
    ones are "b". *)
Theorem merge_cells_separates_after_empty_string :
  ∃ nb y c, notebook_from_json empty_first_json = Ok nb
            ∧ merge_cells empty_first_json 0 1 = Ok y
            ∧ json_cell_count y 1
            ∧ json_cell_at y 0 c
            ∧ c !! "cell_type" = Some (JStr "markdown")
            ∧ c !! "source" = Some (JArr [JStr EmptyString; JStr nl; JStr "b"])
            ∧ join_empty [EmptyString; nl; "b"] = nl +:+ "b"
            ∧ joined_sources (cells nb) = "b".
Proof.
  eexists _, _, _. split; [vm_compute; reflexivity|].
  split; [vm_compute; reflexivity|].
  split; [eexists _, _; split; [reflexivity|split; vm_compute; reflexivity]|].
  split; [eexists _, _; split; [reflexivity|split; vm_compute; reflexivity]|].
  repeat split; vm_compute; reflexivity.
Qed.

(** ** Merging cells *)







Lemma merge_cells_body_Ok nb s e :
  0 ≤ s → s ≤ e → e < len (cells nb) →
  ∃ first, cells nb !! Z.to_nat s = Some first
    ∧ merge_cells_body nb s e
      = Ok (with_cells
              (slice_assign (Z.to_nat s) (Z.to_nat (e + 1))
                 (mkCell (cell_type first) (cell_metadata first)
                    (SourceList (merged_content
                                   (slice (Z.to_nat s) (Z.to_nat (e + 1)) (cells nb))))
                    (match cell_type first with code => Some [] | _ => None end)
                    None ∅)
                 (cells nb))
              nb).
Proof.
  intros Hs Hse He. unfold merge_cells_body.
  assert (list_truthy (cells nb) = true) as ->
    by (apply list_truthy_length; unfold len in He; lia).
  cbn [negb]. rewrite index_check_false by lia.
  assert ((e <? s) || (e >=? len (cells nb)) = false) as ->.
  { apply orb_false_iff. split; [apply Z.ltb_ge; lia|].
    rewrite Z.geb_leb. apply Z.leb_gt. lia. }
  destruct (lookup_lt_is_Some_2 (cells nb) (Z.to_nat s)) as [first Hf];
    [unfold len in He; lia|].
  exists first. split; [done|].
  assert (Hsl : ∃ more, slice (Z.to_nat s) (Z.to_nat (e + 1)) (cells nb) = first :: more).
  { unfold slice. rewrite (drop_S _ _ _ Hf).
    replace (Z.to_nat (e + 1) - Z.to_nat s)%nat with (S (Z.to_nat e - Z.to_nat s)) by lia.
    cbn [take]. by eexists. }
  destruct Hsl as [more Hsl]. rewrite Hsl. by destruct (cell_type first).
Qed.

(** ** What merge and the round trip keep *)

Lemma slice_assign_lookup {A} start stop (x : A) l :
  (start ≤ length l)%nat → slice_assign start stop x l !! start = Some x.
Proof.
  intros H. unfold slice_assign. rewrite lookup_app_r; rewrite length_take; [|lia].
  by replace (start - start `min` length l)%nat with 0%nat by lia.
Qed.

Lemma slice_assign_length {A} start stop (x : A) l :
  (start ≤ stop)%nat → (stop ≤ length l)%nat →
  length (slice_assign start stop x l) = (length l - (stop - start) + 1)%nat.
Proof.
  intros H1 H2. unfold slice_assign. rewrite length_app. cbn.
  rewrite length_take, length_drop. lia.
Qed.


Lemma Notebook_parse_obj_inv d nb :
  Notebook_parse_obj (JObj d) = Some nb →
  with_default (as_list Cell_parse_obj) [] (d !! "cells") = Some (cells nb)
  ∧ with_default NotebookMetadata_parse_obj NotebookMetadata_default (d !! "metadata")
    = Some (metadata nb)
  ∧ notebook_extra nb = delete_keys Notebook_fields d.
Proof.
  unfold Notebook_parse_obj. cbn [as_dict mbind option_bind].
  destruct (with_default (as_list Cell_parse_obj) [] _) as [cs|]; [|done].
  cbn [mbind option_bind].
  destruct (with_default NotebookMetadata_parse_obj _ _) as [md|]; [|done].
  cbn [mbind option_bind].
  destruct (with_default as_int 4 _) as [nf|]; [|done]. cbn [mbind option_bind].
  destruct (with_default as_int 5 _) as [nm|]; [|done]. cbn [mbind option_bind].
  by intros [= <-].
Qed.

Lemma Cell_parse_obj_extra c cell :
  Cell_parse_obj (JObj c) = Some cell → cell_extra cell = delete_keys Cell_fields c.
Proof.
  unfold Cell_parse_obj. cbn [as_dict mbind option_bind].
  destruct (required as_cell_type _); [|done]. cbn [mbind option_bind].
  destruct (with_default as_dict ∅ _); [|done]. cbn [mbind option_bind].
  destruct (required as_source _); [|done]. cbn [mbind option_bind].
  destruct (optional (as_list CellOutput_parse_obj) _); [|done]. cbn [mbind option_bind].
  destruct (optional as_int _); [|done]. cbn [mbind option_bind].
  by intros [= <-].
Qed.

Lemma NotebookMetadata_parse_obj_extra m md :
  NotebookMetadata_parse_obj (JObj m) = Some md →
  metadata_extra md = delete_keys NotebookMetadata_fields m.
Proof.
  unfold NotebookMetadata_parse_obj. cbn [as_dict mbind option_bind].
  repeat (match goal with
          | |- context [optional ?f ?v] => destruct (optional f v); [|done]
          end; cbn [mbind option_bind]).
  by intros [= <-].
Qed.

Lemma extra_key_kept ks (d : dict) k v :
  k ∉ ks → d !! k = Some v → is_null v = false →
  exclude_none (delete_keys ks d) !! k = Some v.
Proof.
  intros Hk Hd Hv. apply exclude_none_lookup_Some. split; [|done].
  rewrite delete_keys_lookup. by destruct (decide (k ∈ ks)).
Qed.

(** X25.  What the round trip keeps: the keys outside the schema, with a value that
    is not null, at the top level, in each cell and in the notebook metadata. *)
Lemma round_trip_keeps_undeclared_keys d nb :
  notebook_from_json (JObj d) = Ok nb →
  (∀ k v, k ∉ Notebook_fields → d !! k = Some v → is_null v = false →
     Notebook_dict nb !! k = Some v)
  ∧ (∀ m k v, d !! "metadata" = Some (JObj m) →
       k ∉ NotebookMetadata_fields → m !! k = Some v → is_null v = false →
       NotebookMetadata_dict (metadata nb) !! k = Some v)
  ∧ (∀ cs i c k v, d !! "cells" = Some (JArr cs) → cs !! i = Some (JObj c) →
       k ∉ Cell_fields → c !! k = Some v → is_null v = false →
       ∃ c', json_cell_at (notebook_to_json nb) i c' ∧ c' !! k = Some v).
Proof.
  unfold notebook_from_json, validated.
  destruct (Notebook_parse_obj (JObj d)) as [nb'|] eqn:Hp; [|done]. intros [= ->].
  destruct (Notebook_parse_obj_inv d nb Hp) as (Hcells & Hmeta & Hextra).
  split; [|split].
  - intros k v Hk Hd Hv. pose proof Hk as Hk'. unfold Notebook_fields in Hk.
    field_keys Hk. unfold Notebook_dict. dict_lookup. rewrite Hextra.
    by apply extra_key_kept.
  - intros m k v Hm Hk Hmk Hv. rewrite Hm in Hmeta. cbn in Hmeta.
    apply NotebookMetadata_parse_obj_extra in Hmeta as Hx.
    pose proof Hk as Hk'. unfold NotebookMetadata_fields in Hk.
    field_keys Hk. unfold NotebookMetadata_dict. dict_lookup. rewrite Hx.
    by apply extra_key_kept.
  - intros cs i c k v Hcs Hi Hk Hck Hv. rewrite Hcs in Hcells. cbn in Hcells.
    apply mapM_Some in Hcells.
    destruct (Forall2_lookup_l _ _ _ _ _ Hcells Hi) as (cell & Hcell & Hparse).
    exists (Cell_dict cell). split; [by apply json_cell_at_to_json|].
    apply Cell_parse_obj_extra in Hparse as Hx.
    pose proof Hk as Hk'. unfold Cell_fields in Hk.
    field_keys Hk. unfold Cell_dict. dict_lookup. rewrite Hx.
    by apply extra_key_kept.
Qed.

(** * Further properties *)

(** ** Stability of the round trip and chaining of the tools *)

Lemma norm_output_idemp o : norm_output (norm_output o) = norm_output o.
Proof. done. Qed.

Lemma norm_cell_idemp c : norm_cell (norm_cell c) = norm_cell c.
Proof.
  unfold norm_cell. cbn. rewrite exclude_none_idemp. f_equal.
  destruct (outputs c) as [l|]; [|done]. cbn. f_equal.
  rewrite <- list_fmap_compose. apply list_fmap_ext. by intros ? o _.
Qed.

Lemma norm_notebook_idemp nb : norm_notebook (norm_notebook nb) = norm_notebook nb.
Proof.
  unfold norm_notebook. cbn. rewrite !exclude_none_idemp. f_equal.
  - rewrite <- list_fmap_compose. apply list_fmap_ext. intros ? c _. apply norm_cell_idemp.
  - unfold norm_metadata. cbn. by rewrite exclude_none_idemp.
Qed.

Lemma wf_norm_cell c : wf_cell c → wf_cell (norm_cell c).
Proof. apply disjoint_keys_exclude_none. Qed.

Lemma wf_norm_notebook nb : wf_notebook nb → wf_notebook (norm_notebook nb).
Proof.
  intros (Hc & Hm & He). split; [|split].
  - cbn. apply Forall_fmap. eapply Forall_impl; [exact Hc|]. apply wf_norm_cell.
  - by apply disjoint_keys_exclude_none.
  - by apply disjoint_keys_exclude_none.
Qed.

Lemma round_trip_Ok x nb :
  notebook_from_json x = Ok nb → round_trip x = Ok (notebook_to_json nb).
Proof. intros H. unfold round_trip. by rewrite H. Qed.

(** A tool that parses, transforms and serializes. *)
Lemma tool_Ok_inv op x (body : Notebook → result Notebook) y :
  try_wrap op (let* notebook := notebook_from_json x in
               let* changed := body notebook in
               Ok (notebook_to_json changed)) = Ok y →
  ∃ nb nb', notebook_from_json x = Ok nb ∧ body nb = Ok nb' ∧ y = notebook_to_json nb'.
Proof.
  destruct (notebook_from_json x) as [nb|] eqn:Hx; cbn [bind try_wrap]; [|done].
  destruct (body nb) as [nb'|] eqn:Hb; cbn [bind try_wrap]; [|done].
  intros [= <-]. eauto.
Qed.

Lemma tool_Err op x (body : Notebook → result Notebook) e :
  notebook_from_json x = Err e →
  try_wrap op (let* notebook := notebook_from_json x in
               let* changed := body notebook in
               Ok (notebook_to_json changed)) = Err (Wrapped op e).
Proof. by intros ->. Qed.

Lemma Forall_wf_alter (f : Cell → Cell) i l :
  (∀ c, cell_extra (f c) = cell_extra c) →
  Forall wf_cell l → Forall wf_cell (alter f i l).
Proof.
  intros Hf Hl. apply Forall_alter; [done|]. intros c _ Hc. unfold wf_cell.
  by rewrite Hf.
Qed.

Lemma edit_cell_body_wf nb i content ty nb' :
  wf_notebook nb → edit_cell_body nb i content ty = Ok nb' → wf_notebook nb'.
Proof.
  intros Hwf. unfold edit_cell_body.
  destruct (_ || _); [done|]. pose proof Hwf as (Hc & _).
  destruct ty as [t|].
  - destruct (cell_type_of_str t) as [ct|]; [|done].
    destruct (is_markdown_or_raw ct); intros [= <-]; apply wf_with_cells; try done;
      repeat (apply Forall_wf_alter; [done|]); done.
  - intros [= <-]. apply wf_with_cells; [done|]. by apply Forall_wf_alter.
Qed.

Lemma create_cell_body_wf nb content t md nb' :
  wf_notebook nb → create_cell_body nb content t md = Ok nb' → wf_notebook nb'.
Proof.
  intros Hwf. unfold create_cell_body. destruct (cell_type_of_str t); [|done].
  intros [= <-]. apply wf_snoc; [done|apply wf_new_cell].
Qed.

Lemma insert_cell_body_wf nb p content t md nb' :
  wf_notebook nb → insert_cell_body nb p content t md = Ok nb' → wf_notebook nb'.
Proof.
  intros Hwf. unfold insert_cell_body. destruct (cell_type_of_str t); [|done].
  destruct (_ || _); [done|]. intros [= <-]. apply wf_with_cells; [done|].
  destruct Hwf as (Hc & _). unfold list_insert_at. apply Forall_app. split.
  - by apply Forall_take.
  - constructor; [apply wf_new_cell|by apply Forall_drop].
Qed.

Lemma merge_cells_body_wf nb s e nb' :
  wf_notebook nb → merge_cells_body nb s e = Ok nb' → wf_notebook nb'.
Proof.
  intros Hwf. unfold merge_cells_body. destruct (negb _); [done|].
  destruct (_ || _); [done|]. destruct (_ || _); [done|].
  destruct (slice _ _ _) as [|first more]; [done|]. intros [= <-].
  apply wf_with_cells; [done|]. destruct Hwf as (Hc & _).
  unfold slice_assign. apply Forall_app. split; [by apply Forall_take|].
  constructor; [|by apply Forall_drop]. destruct (cell_type first); by apply Forall_true.
Qed.

Lemma swap_cells_body_wf nb i j nb' :
  wf_notebook nb → swap_cells_body nb i j = Ok nb' → wf_notebook nb'.
Proof.
  intros Hwf. unfold swap_cells_body. destruct (negb _); [done|].
  destruct (_ || _); [done|].
  destruct (swap_items _ _ _) as [sw|] eqn:Hs; [|done]. intros [= <-].
  apply wf_with_cells; [done|]. eapply swap_items_Forall; [done|]. apply Hwf.
Qed.

(** X1.  Parsing and serializing reaches a fixed point after two passes: the
    document obtained from two passes is returned unchanged by a third. *)
Theorem round_trip_stable_after_two_passes x nb :
  notebook_from_json x = Ok nb →
  ∃ once twice, round_trip x = Ok once
                ∧ round_trip once = Ok twice
                ∧ round_trip twice = Ok twice.
Proof.
  intros Hx. pose proof (notebook_from_json_wf _ _ Hx) as Hwf.
  exists (notebook_to_json nb), (notebook_to_json (norm_notebook nb)).
  split; [by apply round_trip_Ok|].
  split; [by apply round_trip_Ok, notebook_from_json_to_json|].
  rewrite (round_trip_Ok _ (norm_notebook (norm_notebook nb))).
  - by rewrite norm_notebook_idemp.
  - by apply notebook_from_json_to_json, wf_norm_notebook.
Qed.

(** X1, at a notebook whose code cell has a null execution count. *)
Lemma round_trip_stable_after_two_passes_witness :
  ∃ once twice, round_trip unexecuted_json = Ok once
                ∧ round_trip once = Ok twice
                ∧ round_trip twice = Ok twice.
Proof.
  eapply (round_trip_stable_after_two_passes unexecuted_json).
  vm_compute. reflexivity.
Defined.

(** X2.  The document a cell tool returns is accepted by the schema again, so the
    tools can be chained. *)
Theorem tool_results_parse x y :
  (∀ i content ty, edit_cell x i content ty = Ok y → ∃ nb, notebook_from_json y = Ok nb)
  ∧ (∀ content t md, create_cell x content t md = Ok y → ∃ nb, notebook_from_json y = Ok nb)
  ∧ (∀ p content t md, insert_cell x p content t md = Ok y →
       ∃ nb, notebook_from_json y = Ok nb)
  ∧ (∀ s e, merge_cells x s e = Ok y → ∃ nb, notebook_from_json y = Ok nb)
  ∧ (∀ i j, swap_cells x i j = Ok y → ∃ nb, notebook_from_json y = Ok nb).
Proof.
  assert (H : ∀ nb nb', notebook_from_json x = Ok nb → wf_notebook nb' →
                y = notebook_to_json nb' → ∃ nb2, notebook_from_json y = Ok nb2).
  { intros nb nb' _ Hwf ->. eexists. by apply notebook_from_json_to_json. }
  repeat split.
  - intros i content ty (nb & nb' & Hx & Hb & ->)%tool_Ok_inv.
    eapply (H nb nb'); [done| |done].
    eapply edit_cell_body_wf; [|done]. by eapply notebook_from_json_wf.
  - intros content t md (nb & nb' & Hx & Hb & ->)%tool_Ok_inv.
    eapply (H nb nb'); [done| |done].
    eapply create_cell_body_wf; [|done]. by eapply notebook_from_json_wf.
  - intros p content t md (nb & nb' & Hx & Hb & ->)%tool_Ok_inv.
    eapply (H nb nb'); [done| |done].
    eapply insert_cell_body_wf; [|done]. by eapply notebook_from_json_wf.
  - intros s e (nb & nb' & Hx & Hb & ->)%tool_Ok_inv.
    eapply (H nb nb'); [done| |done].
    eapply merge_cells_body_wf; [|done]. by eapply notebook_from_json_wf.
  - intros i j (nb & nb' & Hx & Hb & ->)%tool_Ok_inv.
    eapply (H nb nb'); [done| |done].
    eapply swap_cells_body_wf; [|done]. by eapply notebook_from_json_wf.
Qed.

(** X2, at a cell created in the sample notebook. *)
Lemma tool_results_parse_witness :
  ∃ y nb, create_cell sample_json "x" "code" None = Ok y ∧ notebook_from_json y = Ok nb.
Proof.
  destruct (create_cell sample_json "x" "code" None) as [y|e] eqn:H;
    [|vm_compute in H; discriminate].
  destruct (proj1 (proj2 (tool_results_parse sample_json y)) _ _ _ H) as [nb Hnb].
  by exists y, nb.
Defined.

(** ** What the cell tools leave alone *)

Lemma member_with_cells key cs nb :
  key ≠ "cells" →
  member key (notebook_to_json (with_cells cs nb)) = member key (notebook_to_json nb).
Proof.
  intros Hk. cbn. unfold Notebook_dict. cbn [cells metadata nbformat nbformat_minor
    notebook_extra with_cells]. by rewrite !(lookup_insert_ne _ "cells") by done.
Qed.

Lemma edit_cell_body_cells nb i content ty nb' :
  edit_cell_body nb i content ty = Ok nb' → ∃ cs, nb' = with_cells cs nb.
Proof.
  unfold edit_cell_body. destruct (_ || _); [done|].
  destruct ty as [t|]; [|intros [= <-]; eauto].
  destruct (cell_type_of_str t) as [ct|]; [|done].
  destruct (is_markdown_or_raw ct); intros [= <-]; eauto.
Qed.

Lemma create_cell_body_cells nb content t md nb' :
  create_cell_body nb content t md = Ok nb' → ∃ cs, nb' = with_cells cs nb.
Proof.
  unfold create_cell_body. destruct (cell_type_of_str t); [|done]. intros [= <-]; eauto.
Qed.

Lemma insert_cell_body_cells nb p content t md nb' :
  insert_cell_body nb p content t md = Ok nb' → ∃ cs, nb' = with_cells cs nb.
Proof.
  unfold insert_cell_body. destruct (cell_type_of_str t); [|done].
  destruct (_ || _); [done|]. intros [= <-]; eauto.
Qed.

Lemma merge_cells_body_cells nb s e nb' :
  merge_cells_body nb s e = Ok nb' → ∃ cs, nb' = with_cells cs nb.
Proof.
  unfold merge_cells_body. destruct (negb _); [done|].
  destruct (_ || _); [done|]. destruct (_ || _); [done|].
  destruct (slice _ _ _) as [|first more]; [done|]. intros [= <-]; eauto.
Qed.

Lemma swap_cells_body_cells nb i j nb' :
  swap_cells_body nb i j = Ok nb' → ∃ cs, nb' = with_cells cs nb.
Proof.
  unfold swap_cells_body. destruct (negb _); [done|]. destruct (_ || _); [done|].
  destruct (swap_items _ _ _) as [sw|]; [|done]. intros [= <-]; eauto.
Qed.

(** X3.  The cell tools change nothing but the cells: every other member of the
    returned document (notebook metadata, format numbers, undeclared keys) is
    the one the parsed and serialized input has. *)
Theorem tools_change_only_cells x y key :
  key ≠ "cells" →
  (∀ i content ty, edit_cell x i content ty = Ok y →
     ∃ once, round_trip x = Ok once ∧ member key y = member key once)
  ∧ (∀ content t md, create_cell x content t md = Ok y →
     ∃ once, round_trip x = Ok once ∧ member key y = member key once)
  ∧ (∀ p content t md, insert_cell x p content t md = Ok y →
     ∃ once, round_trip x = Ok once ∧ member key y = member key once)
  ∧ (∀ s e, merge_cells x s e = Ok y →
     ∃ once, round_trip x = Ok once ∧ member key y = member key once)
  ∧ (∀ i j, swap_cells x i j = Ok y →
     ∃ once, round_trip x = Ok once ∧ member key y = member key once).
Proof.
  intros Hk.
  assert (H : ∀ nb cs, notebook_from_json x = Ok nb →
                y = notebook_to_json (with_cells cs nb) →
                ∃ once, round_trip x = Ok once ∧ member key y = member key once).
  { intros nb cs Hx ->. exists (notebook_to_json nb).
    split; [by apply round_trip_Ok|by apply member_with_cells]. }
  repeat split.
  - intros i content ty (nb & nb' & Hx & Hb & ->)%tool_Ok_inv.
    apply edit_cell_body_cells in Hb as [cs ->]. by eapply H.
  - intros content t md (nb & nb' & Hx & Hb & ->)%tool_Ok_inv.
    apply create_cell_body_cells in Hb as [cs ->]. by eapply H.
  - intros p content t md (nb & nb' & Hx & Hb & ->)%tool_Ok_inv.
    apply insert_cell_body_cells in Hb as [cs ->]. by eapply H.
  - intros s e (nb & nb' & Hx & Hb & ->)%tool_Ok_inv.
    apply merge_cells_body_cells in Hb as [cs ->]. by eapply H.
  - intros i j (nb & nb' & Hx & Hb & ->)%tool_Ok_inv.
    apply swap_cells_body_cells in Hb as [cs ->]. by eapply H.
Qed.

(** X3, at a merge in the sample notebook and the key nbformat. *)
Lemma tools_change_only_cells_witness :
  ∃ y once, merge_cells sample_json 1 2 = Ok y ∧ round_trip sample_json = Ok once
            ∧ member "nbformat" y = member "nbformat" once.
Proof.
  destruct (merge_cells sample_json 1 2) as [y|e] eqn:H;
    [|vm_compute in H; discriminate].
  destruct (tools_change_only_cells sample_json y "nbformat" ltac:(done))
    as (_ & _ & _ & Hm & _).
  destruct (Hm _ _ H) as (once & Hr & Hk). by exists y, once.
Defined.

(** X4.  [create_cell] appends: the notebook has one more cell and every cell it
    had is still at its index, serialized as the parsed cell. *)
Theorem create_cell_keeps_cells x nb content t md :
  notebook_from_json x = Ok nb →
  is_Some (cell_type_of_str t) →
  ∃ y, create_cell x content t md = Ok y
       ∧ json_cell_count y (S (length (cells nb)))
       ∧ (∀ k c, cells nb !! k = Some c → json_cell_at y k (Cell_dict c))
       ∧ ∃ last, json_cell_at y (length (cells nb)) last
                 ∧ last !! "cell_type" = Some (JStr t)
                 ∧ last !! "metadata" = Some (JObj (default ∅ md)).
Proof.
  intros Hx [ct Hct]. eexists. split; [by apply (create_cell_Ok x nb content t ct)|].
  split; [|split].
  - pose proof (json_cell_count_to_json
                  (with_cells (cells nb ++ [new_cell content ct md]) nb)) as H.
    cbn [cells with_cells] in H. rewrite length_app in H. cbn in H.
    by replace (length (cells nb) + 1)%nat with (S (length (cells nb))) in H by lia.
  - intros k c Hk. apply json_cell_at_to_json. cbn [cells with_cells].
    by apply lookup_app_l_Some.
  - eexists. split; [apply json_cell_at_to_json; apply lookup_snoc|].
    rewrite Cell_dict_cell_type. split.
    + do 2 f_equal. unfold cell_type_of_str in Hct.
      repeat match type of Hct with
             | (if String.eqb ?a ?b then _ else _) = _ =>
                 destruct (String.eqb_spec a b); [subst; by destruct ct; simplify_eq|]
             end.
      done.
    + unfold Cell_dict. dict_lookup. by destruct ct.
Qed.

(** X4, at a markdown cell added to the sample notebook. *)
Lemma create_cell_keeps_cells_witness :
  ∃ y, create_cell sample_json "note" "markdown" None = Ok y
       ∧ json_cell_count y 5
       ∧ (∀ k c, cells sample_notebook !! k = Some c → json_cell_at y k (Cell_dict c))
       ∧ ∃ last, json_cell_at y 4 last
                 ∧ last !! "cell_type" = Some (JStr "markdown")
                 ∧ last !! "metadata" = Some (JObj ∅).
Proof.
  apply (create_cell_keeps_cells sample_json sample_notebook "note" "markdown" None).
  - exact sample_json_parses.
  - by eexists.
Defined.

(** ** Inserting, appending and editing *)

Lemma list_insert_at_before {A} p (x : A) l k :
  (k < p)%nat → (p ≤ length l)%nat → list_insert_at p x l !! k = l !! k.
Proof.
  intros Hk Hp. unfold list_insert_at.
  rewrite lookup_app_l by (rewrite length_take; lia). by apply lookup_take_lt.
Qed.

Lemma list_insert_at_after {A} p (x : A) l k :
  (p ≤ k)%nat → (p ≤ length l)%nat → list_insert_at p x l !! S k = l !! k.
Proof.
  intros Hk Hp. unfold list_insert_at.
  rewrite lookup_app_r by (rewrite length_take; lia). rewrite length_take.
  replace (S k - p `min` length l)%nat with (S (k - p)) by lia.
  change (drop p l !! (k - p)%nat = l !! k).
  rewrite lookup_drop. f_equal. lia.
Qed.

Lemma list_insert_at_end {A} (x : A) l : list_insert_at (length l) x l = l ++ [x].
Proof. unfold list_insert_at. by rewrite firstn_all, drop_all. Qed.

(** X5.  [insert_cell] at a valid position puts one new cell there: the cells
    before the position keep their index, the cells from the position on
    move one index up, and the count grows by one. *)
Theorem insert_cell_shifts_cells x nb p content t md :
  notebook_from_json x = Ok nb →
  is_Some (cell_type_of_str t) →
  0 ≤ p ≤ len (cells nb) →
  ∃ y, insert_cell x p content t md = Ok y
       ∧ json_cell_count y (S (length (cells nb)))
       ∧ (∀ k c, cells nb !! k = Some c → (k < Z.to_nat p)%nat →
            json_cell_at y k (Cell_dict c))
       ∧ (∀ k c, cells nb !! k = Some c → (Z.to_nat p ≤ k)%nat →
            json_cell_at y (S k) (Cell_dict c)).
Proof.
  intros Hx [ct Hct] Hp. unfold len in Hp.
  eexists. split; [by apply (insert_cell_Ok x nb p content t ct)|].
  split; [|split].
  - pose proof (json_cell_count_to_json
                  (with_cells (list_insert_at (Z.to_nat p) (new_cell content ct md)
                                 (cells nb)) nb)) as H.
    cbn [cells with_cells] in H. by rewrite list_insert_at_length in H.
  - intros k c Hk Hlt. apply json_cell_at_to_json. cbn [cells with_cells].
    rewrite list_insert_at_before by lia. done.
  - intros k c Hk Hle. apply json_cell_at_to_json. cbn [cells with_cells].
    rewrite list_insert_at_after by lia. done.
Qed.

(** X5, at a raw cell inserted at position 1 of the sample notebook. *)
Lemma insert_cell_shifts_cells_witness :
  ∃ y, insert_cell sample_json 1 "x" "raw" None = Ok y
       ∧ json_cell_count y 5
       ∧ (∀ k c, cells sample_notebook !! k = Some c → (k < 1)%nat →
            json_cell_at y k (Cell_dict c))
       ∧ (∀ k c, cells sample_notebook !! k = Some c → (1 ≤ k)%nat →
            json_cell_at y (S k) (Cell_dict c)).
Proof.
  apply (insert_cell_shifts_cells sample_json sample_notebook 1 "x" "raw" None).
  - exact sample_json_parses.
  - by eexists.
  - unfold len. cbn. lia.
Defined.

(** X6.  For a valid cell type, inserting at the position [cell_count] returns
    exactly what [create_cell] returns, and so does [append_cell]. *)
Theorem insert_at_end_is_create x nb content t md :
  notebook_from_json x = Ok nb →
  is_Some (cell_type_of_str t) →
  insert_cell x (len (cells nb)) content t md = create_cell x content t md
  ∧ append_cell x content t md = create_cell x content t md.
Proof.
  intros Hx [ct Hct]. split; [|done].
  rewrite (insert_cell_Ok x nb _ content t ct) by (done || unfold len; lia).
  rewrite (create_cell_Ok x nb content t ct) by done.
  unfold len. by rewrite Nat2Z.id, list_insert_at_end.
Qed.

(** X6, at position 4 of the sample notebook, which has four cells. *)
Lemma insert_at_end_is_create_witness :
  insert_cell sample_json 4 "x" "code" None = create_cell sample_json "x" "code" None
  ∧ append_cell sample_json "x" "code" None = create_cell sample_json "x" "code" None.
Proof.
  apply (insert_at_end_is_create sample_json sample_notebook "x" "code" None).
  - exact sample_json_parses.
  - by eexists.
Defined.

(** X7.  [edit_cell] touches one cell: the count is the same, every other cell is
    serialized as it was parsed, and the edited cell keeps its metadata and
    gets the new type when one is given, its old type otherwise. *)
Theorem edit_cell_touches_one_cell x nb i content ty old :
  notebook_from_json x = Ok nb →
  0 ≤ i < len (cells nb) →
  cells nb !! Z.to_nat i = Some old →
  (∀ t, ty = Some t → is_Some (cell_type_of_str t)) →
  ∃ y c, edit_cell x i content ty = Ok y
         ∧ json_cell_count y (length (cells nb))
         ∧ (∀ k other, k ≠ Z.to_nat i → cells nb !! k = Some other →
              json_cell_at y k (Cell_dict other))
         ∧ json_cell_at y (Z.to_nat i) c
         ∧ c !! "metadata" = Some (JObj (cell_metadata old))
         ∧ c !! "cell_type"
           = Some (JStr (CellType_str (default (cell_type old) (ty ≫= cell_type_of_str)))).
Proof.
  intros Hx Hi Hold Hty.
  destruct (edit_cell_body_Ok nb i content ty old Hi Hold Hty)
    as (new & Hbody & _ & Hmd & _ & Hct & _).
  eexists _, (Cell_dict new). split.
  { unfold edit_cell. rewrite Hx. cbn [bind]. by rewrite Hbody. }
  split.
  { pose proof (json_cell_count_to_json
                  (with_cells (<[Z.to_nat i := new]> (cells nb)) nb)) as H.
    cbn [cells with_cells] in H. by rewrite length_insert in H. }
  split.
  { intros k other Hk Hother. apply json_cell_at_to_json. cbn [cells with_cells].
    by rewrite list_lookup_insert_ne. }
  split.
  { apply json_cell_at_to_json. cbn [cells with_cells].
    apply list_lookup_insert_eq. by apply to_nat_lt_length. }
  split.
  - unfold Cell_dict. dict_lookup. by rewrite Hmd.
  - by rewrite Cell_dict_cell_type, Hct.
Qed.

(** X7, at the first cell of the sample notebook, made a raw cell. *)
Lemma edit_cell_touches_one_cell_witness :
  ∃ y c, edit_cell sample_json 0 "text" (Some "raw") = Ok y
         ∧ json_cell_count y 4
         ∧ (∀ k other, k ≠ 0%nat → cells sample_notebook !! k = Some other →
              json_cell_at y k (Cell_dict other))
         ∧ json_cell_at y 0 c
         ∧ c !! "metadata" = Some (JObj ∅)
         ∧ c !! "cell_type" = Some (JStr "raw").
Proof.
  apply (edit_cell_touches_one_cell sample_json sample_notebook 0 "text" (Some "raw")
           (mkCell markdown ∅ (SourceList ["# Title"]) None None ∅)).
  - exact sample_json_parses.
  - unfold len. cbn. lia.
  - reflexivity.
  - intros t [= <-]. by eexists.
Defined.

(** X8.  A cell type that is not exactly "code", "markdown" or "raw" is refused
    with the invalid-cell-type error: by [edit_cell] on every valid index,
    and by [create_cell]; no notebook is returned. *)
Theorem unknown_cell_type_is_refused x nb content t :
  notebook_from_json x = Ok nb →
  cell_type_of_str t = None →
  (∀ i, 0 ≤ i < len (cells nb) →
     edit_cell x i content (Some t) = Err (Wrapped OpEditCell (InvalidCellType t)))
  ∧ (∀ md, create_cell x content t md = Err (Wrapped OpCreateCell (InvalidCellType t))).
Proof.
  intros Hx Ht. split.
  - intros i Hi. unfold edit_cell, edit_cell_body. rewrite Hx. cbn [bind].
    rewrite index_check_false by done. by rewrite Ht.
  - intros md. unfold create_cell, create_cell_body. rewrite Hx. cbn [bind].
    by rewrite Ht.
Qed.

(** X8, at the sample notebook and the type Code, with a capital. *)
Lemma unknown_cell_type_is_refused_witness :
  edit_cell sample_json 0 "x" (Some "Code")
  = Err (Wrapped OpEditCell (InvalidCellType "Code")).
Proof.
  apply (unknown_cell_type_is_refused sample_json sample_notebook "x" "Code").
  - exact sample_json_parses.
  - reflexivity.
  - unfold len. cbn. lia.
Defined.

(** ** Swapping and merging in detail *)

Lemma swap_cells_Ok x nb i j :
  notebook_from_json x = Ok nb →
  0 ≤ i < len (cells nb) → 0 ≤ j < len (cells nb) →
  ∃ a b, cells nb !! Z.to_nat i = Some a ∧ cells nb !! Z.to_nat j = Some b
    ∧ swap_cells x i j
      = Ok (notebook_to_json
              (with_cells (<[Z.to_nat j := a]> (<[Z.to_nat i := b]> (cells nb))) nb)).
Proof.
  intros Hx Hi Hj.
  destruct (swap_cells_body_Ok nb i j Hi Hj) as (swapped & Hs & Hbody).
  destruct (swap_items_Ok (Z.to_nat i) (Z.to_nat j) (cells nb))
    as (a & b & Ha & Hb & Hs'); [by apply to_nat_lt_length..|].
  exists a, b. split; [done|]. split; [done|].
  unfold swap_cells. rewrite Hx. cbn [bind]. rewrite Hbody. cbn. congruence.
Qed.

Lemma slice_assign_before {A} start stop (x : A) l k :
  (k < start)%nat → (start ≤ length l)%nat → slice_assign start stop x l !! k = l !! k.
Proof.
  intros Hk Hs. unfold slice_assign.
  rewrite lookup_app_l by (rewrite length_take; lia). by apply lookup_take_lt.
Qed.

Lemma slice_assign_after {A} start stop (x : A) l k :
  (start ≤ length l)%nat →
  slice_assign start stop x l !! (start + S k)%nat = l !! (stop + k)%nat.
Proof.
  intros Hs. unfold slice_assign.
  rewrite lookup_app_r by (rewrite length_take; lia). rewrite length_take.
  replace (start + S k - start `min` length l)%nat with (S k) by lia.
  change (drop stop l !! k = l !! (stop + k)%nat). by rewrite lookup_drop.
Qed.

(** X9.  [swap_cells] on valid indices exchanges the two cells and nothing else:
    the cell that was at one index is at the other, every other cell keeps
    its index, and the count is the same. *)
Theorem swap_cells_exchanges x nb i j a b :
  notebook_from_json x = Ok nb →
  cells nb !! Z.to_nat i = Some a → 0 ≤ i →
  cells nb !! Z.to_nat j = Some b → 0 ≤ j →
  ∃ y, swap_cells x i j = Ok y
       ∧ json_cell_count y (length (cells nb))
       ∧ json_cell_at y (Z.to_nat i) (Cell_dict b)
       ∧ json_cell_at y (Z.to_nat j) (Cell_dict a)
       ∧ (∀ k c, k ≠ Z.to_nat i → k ≠ Z.to_nat j → cells nb !! k = Some c →
            json_cell_at y k (Cell_dict c)).
Proof.
  intros Hx Ha Hi Hb Hj.
  pose proof (lookup_lt_Some _ _ _ Ha) as Hia.
  pose proof (lookup_lt_Some _ _ _ Hb) as Hjb.
  destruct (swap_cells_Ok x nb i j Hx) as (a' & b' & Ha' & Hb' & Hy);
    [unfold len; lia..|].
  assert (a' = a) as -> by congruence. assert (b' = b) as -> by congruence.
  eexists. split; [exact Hy|]. split; [|split; [|split]].
  - pose proof (json_cell_count_to_json
                  (with_cells (<[Z.to_nat j := a]> (<[Z.to_nat i := b]> (cells nb))) nb))
      as H. cbn [cells with_cells] in H. by rewrite !length_insert in H.
  - apply json_cell_at_to_json. cbn [cells with_cells].
    destruct (decide (Z.to_nat j = Z.to_nat i)) as [Heq|Hne].
    + rewrite Heq. rewrite list_lookup_insert_eq by (by rewrite length_insert).
      congruence.
    + rewrite list_lookup_insert_ne by done. by rewrite list_lookup_insert_eq.
  - apply json_cell_at_to_json. cbn [cells with_cells].
    by rewrite list_lookup_insert_eq by (by rewrite length_insert).
  - intros k c Hki Hkj Hk. apply json_cell_at_to_json. cbn [cells with_cells].
    by rewrite !list_lookup_insert_ne.
Qed.

(** X9, at the cells 0 and 2 of the sample notebook. *)
Lemma swap_cells_exchanges_witness :
  ∃ y, swap_cells sample_json 0 2 = Ok y
       ∧ json_cell_count y 4
       ∧ json_cell_at y 0 (Cell_dict (mkCell code ∅ (SourceList ["b=2"]) (Some []) None ∅))
       ∧ json_cell_at y 2
           (Cell_dict (mkCell markdown ∅ (SourceList ["# Title"]) None None ∅))
       ∧ (∀ k c, k ≠ 0%nat → k ≠ 2%nat → cells sample_notebook !! k = Some c →
            json_cell_at y k (Cell_dict c)).
Proof.
  apply (swap_cells_exchanges sample_json sample_notebook 0 2);
    [exact sample_json_parses|done..].
Defined.

(** X10.  Swapping a valid index with itself changes nothing: the result is the
    parsed and serialized input. *)
Theorem swap_cells_same_index x nb i :
  notebook_from_json x = Ok nb →
  0 ≤ i < len (cells nb) →
  swap_cells x i i = round_trip x.
Proof.
  intros Hx Hi. destruct (swap_cells_Ok x nb i i Hx Hi Hi) as (a & b & Ha & Hb & ->).
  rewrite (round_trip_Ok x nb Hx). do 2 f_equal.
  rewrite list_insert_insert_eq, list_insert_id by done. apply with_cells_cells.
Qed.

(** X10, at the last cell of the sample notebook. *)
Lemma swap_cells_same_index_witness :
  swap_cells sample_json 3 3 = round_trip sample_json.
Proof.
  apply (swap_cells_same_index sample_json sample_notebook 3).
  - exact sample_json_parses.
  - unfold len. cbn. lia.
Defined.

(** X11.  The order of the two indices does not matter. *)
Theorem swap_cells_symmetric x i j : swap_cells x i j = swap_cells x j i.
Proof.
  unfold swap_cells. destruct (notebook_from_json x) as [nb|]; [|done]. cbn [bind].
  f_equal. f_equal. unfold swap_cells_body.
  destruct (negb _); [done|].
  destruct (i <? 0), (i >=? len (cells nb)), (j <? 0), (j >=? len (cells nb));
    cbn [orb]; try done.
  unfold swap_items.
  destruct (cells nb !! Z.to_nat j) as [b|] eqn:Hb, (cells nb !! Z.to_nat i) as [a|] eqn:Ha;
    try done. cbn [bind]. do 2 f_equal.
  destruct (decide (Z.to_nat i = Z.to_nat j)) as [Heq|Hne].
  - rewrite Heq in *. by simplify_eq.
  - by rewrite list_insert_insert_ne.
Qed.

(** X12.  [merge_cells] on a valid range replaces the range by one cell: the cells
    before keep their index, the cells after move down, and the merged cell
    has the type and the metadata of the first cell of the range, a list as
    source, [outputs == []] when it is a code cell and no outputs otherwise,
    no execution count and no undeclared key: what the merged cells held
    there is dropped. *)
Theorem merge_cells_replaces_range x nb s e first :
  notebook_from_json x = Ok nb →
  0 ≤ s → s ≤ e → e < len (cells nb) →
  cells nb !! Z.to_nat s = Some first →
  ∃ y c lines,
    merge_cells x s e = Ok y
    ∧ json_cell_count y (length (cells nb) - Z.to_nat (e - s))
    ∧ (∀ k other, (k < Z.to_nat s)%nat → cells nb !! k = Some other →
         json_cell_at y k (Cell_dict other))
    ∧ (∀ k other, cells nb !! (Z.to_nat e + S k)%nat = Some other →
         json_cell_at y (Z.to_nat s + S k) (Cell_dict other))
    ∧ json_cell_at y (Z.to_nat s) c
    ∧ c = <["cell_type" := JStr (CellType_str (cell_type first))]>
          (<["metadata" := JObj (cell_metadata first)]>
          (<["source" := str_list_json lines]>
          (match cell_type first with
           | code => <["outputs" := JArr []]> ∅
           | _ => ∅
           end))).
Proof.
  intros Hx Hs Hse He Hfirst.
  destruct (merge_cells_body_Ok nb s e Hs Hse He) as (first' & Hf & Hbody).
  assert (first' = first) as -> by congruence. unfold len in He.
  eexists _, _, _. split.
  { unfold merge_cells. rewrite Hx. cbn [bind]. by rewrite Hbody. }
  split.
  { pose proof (json_cell_count_to_json
                  (with_cells (slice_assign (Z.to_nat s) (Z.to_nat (e + 1))
                     (mkCell (cell_type first) (cell_metadata first)
                        (SourceList (merged_content
                           (slice (Z.to_nat s) (Z.to_nat (e + 1)) (cells nb))))
                        (match cell_type first with code => Some [] | _ => None end)
                        None ∅) (cells nb)) nb)) as Hc.
    cbn [cells with_cells] in Hc.
    rewrite slice_assign_length in Hc by lia.
    by replace (length (cells nb) - Z.to_nat (e - s))%nat
      with (length (cells nb) - (Z.to_nat (e + 1) - Z.to_nat s) + 1)%nat by lia. }
  split.
  { intros k other Hk Hother. apply json_cell_at_to_json. cbn [cells with_cells].
    rewrite slice_assign_before by lia. done. }
  split.
  { intros k other Hother. apply json_cell_at_to_json. cbn [cells with_cells].
    rewrite slice_assign_after by lia.
    by replace (Z.to_nat (e + 1) + k)%nat with (Z.to_nat e + S k)%nat by lia. }
  split.
  { apply json_cell_at_to_json. cbn [cells with_cells]. apply slice_assign_lookup. lia. }
  unfold Cell_dict. cbn [cell_type cell_metadata source outputs execution_count cell_extra].
  destruct (cell_type first); reflexivity.
Qed.

(** X12, at the two code cells of the sample notebook. *)
Lemma merge_cells_replaces_range_witness :
  ∃ y c lines,
    merge_cells sample_json 1 2 = Ok y
    ∧ json_cell_count y 3
    ∧ (∀ k other, (k < 1)%nat → cells sample_notebook !! k = Some other →
         json_cell_at y k (Cell_dict other))
    ∧ (∀ k other, cells sample_notebook !! (2 + S k)%nat = Some other →
         json_cell_at y (1 + S k) (Cell_dict other))
    ∧ json_cell_at y 1 c
    ∧ c = <["cell_type" := JStr "code"]>
          (<["metadata" := JObj ∅]>
          (<["source" := str_list_json lines]> (<["outputs" := JArr []]> ∅))).
Proof.
  apply (merge_cells_replaces_range sample_json sample_notebook 1 2
           (mkCell code ∅ (SourceStr "a=1") (Some [stream_output]) (Some 7) ∅));
    [exact sample_json_parses|done|done|unfold len; cbn; lia|done].
Defined.

(** X13.  With both indices in range and the end before the start, [merge_cells]
    fails with the end-index error and returns no notebook. *)
Theorem merge_cells_end_before_start x nb s e :
  notebook_from_json x = Ok nb →
  0 ≤ e → e < s → s < len (cells nb) →
  merge_cells x s e
  = Err (Wrapped OpMergeCells (EndIndexInvalid e s (length (cells nb)))).
Proof.
  intros Hx He Hes Hs. unfold merge_cells, merge_cells_body. rewrite Hx. cbn [bind].
  assert (list_truthy (cells nb) = true) as ->
    by (apply list_truthy_length; unfold len in Hs; lia).
  cbn [negb]. rewrite index_check_false by lia.
  assert ((e <? s) || (e >=? len (cells nb)) = true) as ->; [|done].
  apply orb_true_iff. left. apply Z.ltb_lt. lia.
Qed.

(** X13, at the sample notebook, start 2 and end 1. *)
Lemma merge_cells_end_before_start_witness :
  merge_cells sample_json 2 1 = Err (Wrapped OpMergeCells (EndIndexInvalid 1 2 4)).
Proof.
  apply (merge_cells_end_before_start sample_json sample_notebook 2 1);
    [exact sample_json_parses|lia|lia|unfold len; cbn; lia].
Defined.

(** ** Documents the schema refuses *)

Lemma as_cell_type_str s : as_cell_type (JStr s) = cell_type_of_str s.
Proof.
  unfold cell_type_of_str.
  destruct (String.eqb_spec s "code") as [->|H1]; [done|].
  destruct (String.eqb_spec s "markdown") as [->|H2]; [done|].
  destruct (String.eqb_spec s "raw") as [->|H3]; [done|].
  cbn.
  repeat (let c := fresh "c" in
          destruct s as [|c s]; [done|];
          destruct c as [[] [] [] [] [] [] [] []]; try done).
Qed.

Lemma refused_cell_parse c : refused_cell c → Cell_parse_obj c = None.
Proof.
  destruct c as [| | | | | |cd]; try done. intros [Ht|Hs]; unfold Cell_parse_obj;
    cbn [as_dict mbind option_bind].
  - destruct (cd !! "cell_type") as [j|] eqn:Hj; [|done]. cbn [required mbind option_bind].
    destruct j as [| | | |t| |]; try done.
    by rewrite as_cell_type_str, (Ht t eq_refl).
  - rewrite Hs. by destruct (required as_cell_type _), (with_default as_dict ∅ _).
Qed.

Lemma refused_cell_notebook d cs k c :
  d !! "cells" = Some (JArr cs) → cs !! k = Some c → refused_cell c →
  notebook_from_json (JObj d) = Err ValidationError.
Proof.
  intros Hd Hk Hc. unfold notebook_from_json, Notebook_parse_obj.
  cbn [as_dict mbind option_bind]. rewrite Hd. cbn [with_default as_list].
  assert (mapM Cell_parse_obj cs = None) as ->; [|done].
  apply mapM_None. apply Exists_exists. exists c.
  split; [by eapply list_elem_of_lookup_2|by apply refused_cell_parse].
Qed.

(** X14.  A document with a cell the schema refuses is refused as a whole, and
    every tool that takes a notebook fails on it with the validation error
    as the cause, whatever its other arguments are. *)
Theorem refused_cell_fails_every_tool d cs k c :
  d !! "cells" = Some (JArr cs) → cs !! k = Some c → refused_cell c →
  notebook_from_json (JObj d) = Err ValidationError
  ∧ (∀ i content ty,
       edit_cell (JObj d) i content ty = Err (Wrapped OpEditCell ValidationError))
  ∧ (∀ content t md,
       create_cell (JObj d) content t md = Err (Wrapped OpCreateCell ValidationError))
  ∧ (∀ p content t md,
       insert_cell (JObj d) p content t md = Err (Wrapped OpInsertCell ValidationError))
  ∧ (∀ s e, merge_cells (JObj d) s e = Err (Wrapped OpMergeCells ValidationError))
  ∧ (∀ i j, swap_cells (JObj d) i j = Err (Wrapped OpSwapCells ValidationError))
  ∧ extract_code_from_notebook (JObj d) = Err (Wrapped OpExtractCode ValidationError)
  ∧ (∀ render fmt ei eo,
       convert_notebook_to_format render (JObj d) fmt ei eo
       = Err (Wrapped OpConvertFormat ValidationError)).
Proof.
  intros Hd Hk Hc. pose proof (refused_cell_notebook d cs k c Hd Hk Hc) as Hx.
  split; [done|]. repeat split; intros;
    try (by apply tool_Err).
  - unfold extract_code_from_notebook. by rewrite Hx.
  - unfold convert_notebook_to_format. by rewrite Hx.
Qed.

(** X14, at a notebook whose only cell has the type chart. *)
Lemma refused_cell_fails_every_tool_witness :
  swap_cells (obj [("cells", JArr [obj [("cell_type", JStr "chart");
                                         ("source", JStr "x")]])]) 0 0
  = Err (Wrapped OpSwapCells ValidationError).
Proof.
  pose proof (refused_cell_fails_every_tool
                (list_to_map [("cells", JArr [obj [("cell_type", JStr "chart");
                                                    ("source", JStr "x")]])])
                [obj [("cell_type", JStr "chart"); ("source", JStr "x")]] 0
                (obj [("cell_type", JStr "chart"); ("source", JStr "x")])) as H.
  destruct H as (_ & _ & _ & _ & _ & Hswap & _).
  - vm_compute. reflexivity.
  - reflexivity.
  - left. intros t Ht. vm_compute in Ht. by injection Ht as <-.
  - apply Hswap.
Defined.

(** X15.  [extract_code_from_notebook] reads the cell types and sources only: it
    returns the same list on a document and on its parsed and serialized
    form. *)
Theorem extract_code_after_round_trip x y :
  round_trip x = Ok y →
  extract_code_from_notebook y = extract_code_from_notebook x.
Proof.
  unfold round_trip. destruct (notebook_from_json x) as [nb|] eqn:Hx; [|done].
  cbn [bind]. intros [= <-].
  rewrite (extract_code_from_notebook_Ok x nb Hx).
  rewrite (extract_code_from_notebook_Ok _ (norm_notebook nb)).
  - cbn [cells norm_notebook]. by rewrite code_texts_norm.
  - apply notebook_from_json_to_json. by eapply notebook_from_json_wf.
Qed.

(** X15, at the sample notebook. *)
Lemma extract_code_after_round_trip_witness :
  ∃ y, round_trip sample_json = Ok y
       ∧ extract_code_from_notebook y = extract_code_from_notebook sample_json.
Proof.
  destruct (round_trip sample_json) as [y|e] eqn:H; [|vm_compute in H; discriminate].
  exists y. split; [done|]. by apply (extract_code_after_round_trip sample_json y).
Defined.

(** ** Notebooks made from markdown *)

Lemma mapM_as_str l : mapM as_str (JStr <$> l) = Some l.
Proof. induction l as [|s l IH]; [done|]. cbn. by rewrite IH. Qed.

Lemma as_source_str_list l : as_source (str_list_json l) = Some (SourceList l).
Proof. unfold str_list_json. cbn. by rewrite mapM_as_str. Qed.

Lemma python_metadata_parses :
  NotebookMetadata_parse_obj (JObj python_kernel_metadata) = Some python_metadata.
Proof. vm_compute. reflexivity. Qed.

Lemma python_metadata_dict : NotebookMetadata_dict python_metadata = python_kernel_metadata.
Proof. vm_compute. reflexivity. Qed.

Lemma markdown_cell_parses content :
  Cell_parse_obj (markdown_cell content) = Some (markdown_cell_model content).
Proof.
  unfold Cell_parse_obj, markdown_cell. cbn [as_dict mbind option_bind].
  repeat (rewrite ?lookup_insert_eq, ?lookup_insert_ne, ?lookup_empty by done).
  cbn [required mbind option_bind as_cell_type with_default as_dict optional optional_default].
  rewrite as_source_str_list. cbn [mbind option_bind]. unfold markdown_cell_model.
  f_equal; f_equal; vm_compute; reflexivity.
Qed.

Lemma markdown_cells_parse cs :
  mapM Cell_parse_obj (markdown_cell <$> cs) = Some (markdown_cell_model <$> cs).
Proof.
  induction cs as [|c cs IH]; [done|].
  rewrite !fmap_cons. change (mapM ?f (?x :: ?l)) with (y ← f x; k ← mapM f l; mret (y :: k)).
  by rewrite markdown_cell_parses, IH.
Qed.

Lemma markdown_cell_dict content :
  JObj (Cell_dict (markdown_cell_model content)) = markdown_cell content.
Proof.
  unfold Cell_dict, markdown_cell, markdown_cell_model.
  cbn [cell_type cell_metadata source outputs execution_count cell_extra fmap option_fmap
       option_map insert_opt CellType_str Source_json].
  unfold str_list_json. f_equal.
Qed.

Lemma cells_of_sections_texts whole r :
  cells_of_sections whole r = markdown_cell <$> section_texts whole r.
Proof.
  unfold cells_of_sections, section_texts. destruct r.2 as [|hc secs]; [done|].
  rewrite fmap_app, <- list_fmap_compose. by destruct (is_blank r.1).
Qed.

Lemma section_texts_nonempty whole r : section_texts whole r ≠ [].
Proof.
  unfold section_texts. destruct r.2 as [|hc secs]; [done|].
  by destruct (is_blank r.1).
Qed.

Lemma markdown_cells_texts text :
  markdown_cells text = markdown_cell <$> section_texts text (scan_headers text true 0).
Proof. by rewrite markdown_cells_sections, cells_of_sections_texts. Qed.

Lemma imported_notebook_parses cs :
  Notebook_parse_obj
    (JObj (<["cells" := JArr (markdown_cell <$> cs)]>
          (<["metadata" := JObj python_kernel_metadata]>
          (<["nbformat" := JNum 4]>
          (<["nbformat_minor" := JNum 5]> ∅)))))
  = Some (mkNotebook (markdown_cell_model <$> cs) python_metadata 4 5 ∅).
Proof.
  unfold Notebook_parse_obj. cbn [as_dict mbind option_bind].
  repeat (rewrite ?lookup_insert_eq, ?lookup_insert_ne, ?lookup_empty by done).
  cbn [with_default as_list as_int]. rewrite markdown_cells_parse, python_metadata_parses.
  cbn [mbind option_bind]. f_equal; f_equal; vm_compute; reflexivity.
Qed.

Lemma imported_notebook_dict cs :
  notebook_to_json (mkNotebook (markdown_cell_model <$> cs) python_metadata 4 5 ∅)
  = JObj (<["cells" := JArr (markdown_cell <$> cs)]>
         (<["metadata" := JObj python_kernel_metadata]>
         (<["nbformat" := JNum 4]>
         (<["nbformat_minor" := JNum 5]> ∅)))).
Proof.
  unfold notebook_to_json, Notebook_dict.
  cbn [cells metadata nbformat nbformat_minor notebook_extra].
  rewrite python_metadata_dict, <- list_fmap_compose.
  assert (JObj ∘ Cell_dict ∘ markdown_cell_model <$> cs = markdown_cell <$> cs) as ->.
  { apply list_fmap_ext. intros _ c _. apply markdown_cell_dict. }
  f_equal.
Qed.

Lemma foldl_extract_markdown acc cs :
  foldl extract_step acc (markdown_cell_model <$> cs) = acc.
Proof. revert acc. induction cs as [|c cs IH]; intros acc; [done|]. cbn. apply IH. Qed.

(** X16.  For every text, [notebook_from_markdown] succeeds and its result is a
    notebook the schema accepts: it has at least one cell, every cell is a
    markdown cell with a list of lines as source and neither outputs nor
    execution count; the result is left unchanged by parsing and
    serializing, and [extract_code_from_notebook] finds no code in it. *)
Theorem markdown_import_is_valid_notebook text :
  ∃ y nb,
    notebook_from_markdown text = Ok y
    ∧ notebook_from_json y = Ok nb
    ∧ cells nb ≠ []
    ∧ Forall (λ c, cell_type c = markdown ∧ (∃ lines, source c = SourceList lines)
                   ∧ outputs c = None ∧ execution_count c = None) (cells nb)
    ∧ round_trip y = Ok y
    ∧ extract_code_from_notebook y = Ok [].
Proof.
  pose proof (markdown_cells_texts text) as Hc.
  pose proof (section_texts_nonempty text (scan_headers text true 0)) as Hne.
  set (cs := section_texts text (scan_headers text true 0)) in *.
  eexists _, (mkNotebook (markdown_cell_model <$> cs) python_metadata 4 5 ∅).
  split; [reflexivity|]. rewrite Hc.
  assert (Hp : notebook_from_json
                 (JObj (<["cells" := JArr (markdown_cell <$> cs)]>
                       (<["metadata" := JObj python_kernel_metadata]>
                       (<["nbformat" := JNum 4]>
                       (<["nbformat_minor" := JNum 5]> ∅)))))
               = Ok (mkNotebook (markdown_cell_model <$> cs) python_metadata 4 5 ∅)).
  { unfold notebook_from_json. by rewrite imported_notebook_parses. }
  split; [exact Hp|]. cbn [cells]. split; [by destruct cs|]. split.
  - apply Forall_fmap, Forall_true. intros c. cbn. eauto.
  - split.
    + unfold round_trip. rewrite Hp. cbn [bind]. by rewrite imported_notebook_dict.
    + unfold extract_code_from_notebook. rewrite Hp. cbn [bind try_wrap cells].
      by rewrite foldl_extract_markdown.
Qed.

(** X17.  For every text, the cells of [notebook_from_markdown] are built from
    the pieces of the split at the header matches: the text before the first
    match, which is not itself a header and gets a cell unless it is blank,
    and one cell per match that holds the header, a newline and the text up
    to the next match.  The pieces, in order, concatenate to the input, so
    that no character of the input is lost except a blank leading text. *)
Theorem markdown_import_partitions_text text :
  let r := scan_headers text true 0 in
  cells_of_result (notebook_from_markdown text) = Some (cells_of_sections text r)
  ∧ flatten_sections r = text
  ∧ Forall (λ hc : string * string, match_header_prefix hc.1 = true) r.2
  ∧ match_header_prefix r.1 = false.
Proof.
  intros r. split; [|split; [|split]].
  - by rewrite notebook_from_markdown_cells, markdown_cells_sections.
  - apply (scan_headers_flatten text true 0).
  - apply scan_headers_headers.
  - apply scan_headers_leading.
Qed.

(** ** Notebooks made from files *)

Lemma cell_type_of_str_inv t ct : cell_type_of_str t = Some ct → t = CellType_str ct.
Proof.
  unfold cell_type_of_str.
  destruct (String.eqb_spec t "code") as [->|_]; [by intros [= <-]|].
  destruct (String.eqb_spec t "markdown") as [->|_]; [by intros [= <-]|].
  destruct (String.eqb_spec t "raw") as [->|_]; [by intros [= <-]|done].
Qed.

Lemma file_cell_parses content ct :
  Cell_parse_obj (JObj (file_cell (CellType_str ct) content))
  = Some (new_cell content ct None).
Proof.
  destruct ct; unfold Cell_parse_obj, file_cell; cbn [CellType_str String.eqb Ascii.eqb Bool.eqb];
    cbn [as_dict mbind option_bind];
    repeat (rewrite ?lookup_insert_eq, ?lookup_insert_ne, ?lookup_empty by done);
    cbn [required mbind option_bind as_cell_type with_default as_dict optional
         optional_default as_list mapM mret option_ret fmap option_fmap option_map];
    rewrite as_source_str_list; cbn [mbind option_bind];
    unfold new_cell, with_execution_count, with_outputs; cbn;
    f_equal; f_equal; vm_compute; reflexivity.
Qed.

Lemma file_notebook_parses cell c :
  Cell_parse_obj (JObj cell) = Some c →
  notebook_from_json (file_notebook cell) = Ok (mkNotebook [c] python_metadata 4 5 ∅).
Proof.
  intros Hc. unfold notebook_from_json, file_notebook, Notebook_parse_obj.
  cbn [as_dict mbind option_bind].
  repeat (rewrite ?lookup_insert_eq, ?lookup_insert_ne, ?lookup_empty by done).
  cbn [with_default as_list as_int mapM]. rewrite Hc, python_metadata_parses.
  cbn [mbind option_bind mret option_ret validated]. f_equal; f_equal; vm_compute; reflexivity.
Qed.

Lemma empty_python_notebook_parses :
  notebook_from_json (notebook_to_json empty_python_notebook) = Ok empty_python_notebook.
Proof. vm_compute. reflexivity. Qed.

(** X18.  For a readable file and a valid cell type, [convert_file_to_notebook]
    returns a notebook the schema accepts, with the Python metadata and
    exactly one cell: the cell [create_cell] makes for the same content and
    type, so the lines of the file, which give the content back when joined
    by newlines.  [extract_code_from_notebook] returns from it the content
    with its newlines removed when the type is "code", and nothing
    otherwise. *)
Theorem file_import_is_single_cell_notebook fs file_path t content ct :
  fs !! file_path = Some content →
  cell_type_of_str t = Some ct →
  ∃ y,
    convert_file_to_notebook fs file_path t = Converted y
    ∧ notebook_from_json y
      = Ok (mkNotebook [new_cell content ct None] python_metadata 4 5 ∅)
    ∧ source (new_cell content ct None) = SourceList (split_newline content)
    ∧ join_with nl (split_newline content) = content
    ∧ extract_code_from_notebook y
      = Ok (match ct with code => [remove_newlines content] | _ => [] end).
Proof.
  intros Hf Ht. apply cell_type_of_str_inv in Ht as Ht'. subst t.
  eexists. split; [unfold convert_file_to_notebook; by rewrite Ht, Hf|].
  pose proof (file_notebook_parses _ _ (file_cell_parses content ct)) as Hp.
  unfold file_notebook in Hp. split; [exact Hp|]. split; [by destruct ct|].
  split; [apply join_with_newline_split|].
  rewrite (extract_code_from_notebook_Ok _ _ Hp). cbn [cells].
  destruct ct; try done. by rewrite <- join_empty_split_newline.
Qed.

(** X18, at a file of two lines imported as code. *)
Lemma file_import_is_single_cell_notebook_witness :
  ∃ y, convert_file_to_notebook (<["a.py" := "x = 1" +:+ nl +:+ "y = 2"]> ∅) "a.py" "code"
       = Converted y
       ∧ extract_code_from_notebook y = Ok ["x = 1y = 2"].
Proof.
  destruct (file_import_is_single_cell_notebook
              (<["a.py" := "x = 1" +:+ nl +:+ "y = 2"]> ∅) "a.py" "code"
              ("x = 1" +:+ nl +:+ "y = 2") code) as (y & Hy & _ & _ & _ & He).
  - reflexivity.
  - reflexivity.
  - exists y. split; [exact Hy|exact He].
Defined.

(** X19.  Up to parsing and serializing, importing a file is creating a cell in
    the empty notebook with the Python metadata: the round trip of the
    result of [convert_file_to_notebook] is the result of [create_cell] on
    that notebook with the content of the file, the same type and no
    metadata.  For the types "markdown" and "raw" the round trip changes
    nothing; for "code" the imported cell carries [execution_count] null,
    which the round trip and [create_cell] leave out. *)
Theorem file_import_agrees_with_create_cell fs file_path t content y :
  fs !! file_path = Some content →
  convert_file_to_notebook fs file_path t = Converted y →
  round_trip y = create_cell (notebook_to_json empty_python_notebook) content t None
  ∧ (t ≠ "code" → round_trip y = Ok y)
  ∧ (t = "code" →
     json_at [Key "cells"; Index 0; Key "execution_count"] y = Some JNull
     ∧ ∀ y', round_trip y = Ok y' →
             json_at [Key "cells"; Index 0; Key "execution_count"] y' = None).
Proof.
  intros Hf. unfold convert_file_to_notebook. rewrite Hf.
  destruct (cell_type_of_str t) as [ct|] eqn:Ht; [|done]. intros [= <-].
  apply cell_type_of_str_inv in Ht as Ht'. subst t.
  pose proof (file_notebook_parses _ _ (file_cell_parses content ct)) as Hp.
  unfold file_notebook in Hp.
  assert (Hr : round_trip
                 (JObj (<["cells" := JArr [JObj (file_cell (CellType_str ct) content)]]>
                       (<["metadata" := JObj python_kernel_metadata]>
                       (<["nbformat" := JNum 4]>
                       (<["nbformat_minor" := JNum 5]> ∅)))))
               = Ok (notebook_to_json
                       (mkNotebook [new_cell content ct None] python_metadata 4 5 ∅))).
  { unfold round_trip. by rewrite Hp. }
  split; [|split].
  - rewrite Hr. by rewrite (create_cell_Ok _ _ content _ ct None empty_python_notebook_parses Ht).
  - intros Hne. rewrite Hr. f_equal. unfold notebook_to_json, Notebook_dict.
    cbn [cells metadata nbformat nbformat_minor notebook_extra].
    rewrite python_metadata_dict. destruct ct; [done| |];
      cbn [fmap list_fmap compose]; unfold file_cell, Cell_dict; cbn; f_equal.
  - intros Hc. destruct ct; try done. split; [vm_compute; reflexivity|].
    intros y'. rewrite Hr. intros [= <-]. vm_compute. reflexivity.
Qed.

(** X19, at a file of one line imported as a raw cell. *)
Lemma file_import_agrees_with_create_cell_witness :
  round_trip (file_notebook (file_cell "raw" "plain"))
  = create_cell (notebook_to_json empty_python_notebook) "plain" "raw" None.
Proof.
  exact (proj1 (file_import_agrees_with_create_cell
                  (<["t.txt" := "plain"]> ∅) "t.txt" "raw" "plain"
                  (file_notebook (file_cell "raw" "plain")) eq_refl eq_refl)).
Defined.

(** X20.  [convert_file_to_notebook] returns a notebook exactly when the cell type
    is one of "code", "markdown", "raw" and the file can be read.  The cell
    type is checked first: an invalid type is reported whether or not the
    file exists, and a missing file is reported only for a valid type. *)
Theorem file_import_fails_on_type_before_file fs file_path t :
  ((∃ y, convert_file_to_notebook fs file_path t = Converted y)
   ↔ t ∈ ["code"; "markdown"; "raw"] ∧ is_Some (fs !! file_path))
  ∧ (t ∉ ["code"; "markdown"; "raw"] →
     convert_file_to_notebook fs file_path t = FileInvalidCellType t)
  ∧ (t ∈ ["code"; "markdown"; "raw"] → fs !! file_path = None →
     convert_file_to_notebook fs file_path t = FileNotReadable file_path).
Proof.
  assert (Hin : t ∈ ["code"; "markdown"; "raw"] ↔ is_Some (cell_type_of_str t)).
  { unfold cell_type_of_str. rewrite !elem_of_cons, elem_of_nil.
    destruct (String.eqb_spec t "code"); [by intuition eauto|].
    destruct (String.eqb_spec t "markdown"); [by intuition eauto|].
    destruct (String.eqb_spec t "raw"); [by intuition eauto|].
    split; [by intuition|]. by intros [? ?]. }
  unfold convert_file_to_notebook. rewrite Hin. clear Hin.
  destruct (cell_type_of_str t) as [ct|]; destruct (fs !! file_path) as [content|];
    (split; [split; [intros [y Hy]|intros [[? ?] [? ?]]]|split; [intros Hn|intros Hy Hn]]);
    try done; try (by eauto); try (by destruct Hn; eauto).
Qed.

(** ** Serialized fields and export *)

Lemma no_null_value_exclude_none d : no_null_value (exclude_none d).
Proof. intros k H. by apply exclude_none_lookup_Some in H as [_ ?]. Qed.

Lemma no_null_value_insert k v d :
  v ≠ JNull → no_null_value d → no_null_value (<[k := v]> d).
Proof.
  intros Hv Hd k'. destruct (decide (k = k')) as [->|Hne].
  - rewrite lookup_insert_eq. congruence.
  - rewrite lookup_insert_ne by done. apply Hd.
Qed.

Lemma no_null_value_insert_opt k v d :
  v ≠ Some JNull → no_null_value d → no_null_value (insert_opt k v d).
Proof.
  intros Hv Hd. destruct v as [j|]; [|done]. apply no_null_value_insert; [congruence|done].
Qed.

Lemma no_null_value_empty : no_null_value ∅.
Proof. intros k. by rewrite lookup_empty. Qed.

Ltac no_null :=
  repeat first
    [ apply no_null_value_exclude_none
    | apply no_null_value_empty
    | apply no_null_value_insert; [done|]
    | apply no_null_value_insert_opt;
        [ let H := fresh in let x := fresh in
          intros H; apply fmap_Some in H as (x & _ & H);
          first [discriminate H | by destruct x] |] ].

Lemma CellOutput_dict_no_null o : no_null_value (CellOutput_dict o).
Proof. unfold CellOutput_dict. no_null. Qed.

Lemma Cell_dict_no_null c : no_null_value (Cell_dict c).
Proof. unfold Cell_dict. destruct (source c); cbn [Source_json]; no_null. Qed.

Lemma NotebookMetadata_dict_no_null m : no_null_value (NotebookMetadata_dict m).
Proof. unfold NotebookMetadata_dict. no_null. Qed.

Lemma Notebook_dict_no_null nb : no_null_value (Notebook_dict nb).
Proof. unfold Notebook_dict. no_null. Qed.

(** X21.  [notebook_to_json] never writes a key with the value null among the
    fields of the notebook, of its metadata, of a cell or of an output:
    a field that is [None] is left out, also when it is an undeclared key
    that the schema kept. *)
Theorem serialized_notebook_has_no_null_field nb :
  no_null_value (Notebook_dict nb)
  ∧ no_null_value (NotebookMetadata_dict (metadata nb))
  ∧ Forall (λ c, no_null_value (Cell_dict c)
                 ∧ ∀ os, outputs c = Some os →
                         Forall (λ o, no_null_value (CellOutput_dict o)) os)
      (cells nb).
Proof.
  split; [apply Notebook_dict_no_null|]. split; [apply NotebookMetadata_dict_no_null|].
  apply Forall_true. intros c. split; [apply Cell_dict_no_null|].
  intros os _. apply Forall_true, CellOutput_dict_no_null.
Qed.

Section ExportFacts.
Variable from_notebook_node : Exporter → bool → bool → json → result string.
Variable writable : string → bool.

(** X22.  For a notebook that parses and a format whose lower-case form is one of
    python, html, markdown, rst, latex, pdf, slides,
    [convert_notebook_to_format] hands the exporter of that name the
    serialized form of the parsed notebook, not the input document, together
    with the two flags, and returns what the exporter returns, a failure
    wrapped; the format is matched without regard to case. *)
Theorem supported_format_is_exported x nb fmt :
  notebook_from_json x = Ok nb →
  lower fmt ∈ supported_formats →
  ∃ e,
    naming_exporter e false false (notebook_to_json nb) = Ok (lower fmt)
    ∧ ∀ exclude_input exclude_output,
        convert_notebook_to_format from_notebook_node x fmt exclude_input exclude_output
        = try_wrap OpConvertFormat
            (from_notebook_node e exclude_input exclude_output (notebook_to_json nb))
        ∧ convert_notebook_to_format from_notebook_node x (lower fmt)
            exclude_input exclude_output
          = convert_notebook_to_format from_notebook_node x fmt
              exclude_input exclude_output.
Proof.
  intros Hx Hf. unfold convert_notebook_to_format. rewrite Hx. cbn [bind].
  unfold select_exporter, supported_formats in *.
  repeat (apply elem_of_cons in Hf as [Hf|Hf];
          [rewrite !Hf;
           first [ exists PythonExporter; split; [reflexivity|]; intros ei eo; split; reflexivity
                 | exists HTMLExporter; split; [reflexivity|]; intros ei eo; split; reflexivity
                 | exists MarkdownExporter; split; [reflexivity|]; intros ei eo; split; reflexivity
                 | exists RSTExporter; split; [reflexivity|]; intros ei eo; split; reflexivity
                 | exists LatexExporter; split; [reflexivity|]; intros ei eo; split; reflexivity
                 | exists PDFExporter; split; [reflexivity|]; intros ei eo; split; reflexivity
                 | exists SlidesExporter; split; [reflexivity|]; intros ei eo; split; reflexivity ]|]).
  by apply elem_of_nil in Hf.
Qed.

(** X23.  [convert_notebook_to_executable] converts with both exclusion flags
    off.  When the conversion fails, the error is wrapped and nothing is
    written.  When it succeeds, the text is returned; without an output
    path, or with the empty string as path, the file system stays as it
    was; with a path that can be opened for writing, that file holds the
    returned text afterwards.  In every case all other files keep their
    content. *)
Theorem executable_writes_only_output_path x fmt output_path fs :
  let r := convert_notebook_to_executable from_notebook_node writable x fmt output_path fs in
  (∀ e, convert_notebook_to_format from_notebook_node x fmt false false = Err e →
        r = (Err (Wrapped OpConvertExecutable e), fs))
  ∧ (∀ output, convert_notebook_to_format from_notebook_node x fmt false false = Ok output →
       (output_path = None ∨ output_path = Some EmptyString → r = (Ok output, fs))
       ∧ (∀ p, output_path = Some p → p ≠ EmptyString → writable p = true →
               r.1 = Ok output ∧ r.2 !! p = Some output))
  ∧ (∀ q, output_path ≠ Some q → r.2 !! q = fs !! q).
Proof.
  intros r. subst r. unfold convert_notebook_to_executable.
  destruct (convert_notebook_to_format _ _ _ _ _) as [out|err].
  - split; [done|]. split.
    + intros ? [= <-]. split.
      * by intros [->| ->].
      * intros p -> Hp Hw. destruct p as [|c p]; [done|]. cbn [path_truthy].
        rewrite Hw. cbn [fst snd]. by rewrite lookup_insert_eq.
    + intros q Hq. destruct output_path as [[|c p]|]; cbn [path_truthy]; try done.
      destruct (writable _); cbn [snd]; [|done].
      rewrite lookup_insert_ne; [done|congruence].
  - split; [by intros ? [= <-]|]. split; [done|]. done.
Qed.

End ExportFacts.

(** X22, at the sample notebook and the format Markdown, with a capital. *)
Lemma supported_format_is_exported_witness :
  convert_notebook_to_format naming_exporter sample_json "Markdown" true false
  = Ok "markdown".
Proof.
  destruct (supported_format_is_exported naming_exporter sample_json sample_notebook
              "Markdown" sample_json_parses) as (e & He & Hc).
  - by apply (list_elem_of_lookup_2 _ 2%nat).
  - rewrite (proj1 (Hc true false)). destruct e; try (vm_compute in He; discriminate He).
    reflexivity.
Defined.

(** X25, at a notebook with the undeclared key custom. *)
Lemma round_trip_keeps_undeclared_keys_witness :
  ∃ nb, notebook_from_json custom_keys_json = Ok nb
        ∧ Notebook_dict nb !! "custom" = Some (JStr "v").
Proof.
  destruct (notebook_from_json custom_keys_json) as [nb|e] eqn:H;
    [|vm_compute in H; discriminate].
  exists nb. split; [done|].
  apply (proj1 (round_trip_keeps_undeclared_keys _ nb H)).
  - unfold Notebook_fields. intros Hin.
    repeat (apply elem_of_cons in Hin as [Hin|Hin]; [discriminate|]).
    by apply elem_of_nil in Hin.
  - vm_compute. reflexivity.
  - reflexivity.
Defined.

